(** * ChatSphere: the WhatsApp webhook pipeline and the outbound send path

    A shallow embedding of the Meta provider adapter
    ([server/providers/meta.ts]) and of the webhook / send handlers of the
    route table ([registerRoutes]), with the theorems that settle the
    specification's claims about them, and further properties of the same
    code: the helpers of the routes, the mount point of the webhook, the
    endpoint that opens a conversation and the test webhook.

    Conventions.
    - JavaScript values that come out of [JSON.parse] are [JsVal]s; an
      object is its property list in source order.
    - A string is held as the bytes of its UTF-8 encoding.  The string
      methods embedded here look for ASCII characters only, and no byte of
      a longer UTF-8 sequence is one, so they cut the same text out of the
      bytes as the built-in methods cut out of the UTF-16 string.
    - A [throw] is the [inl] of a sum; [try]/[catch] is a [match] on it.
    - Everything the handlers touch and that survives a request (tables of
      the storage collaborator, the real-time hub, [process.env]) is a field
      of [World]; a handler is a function [World -> World * Response].
    - What the code calls but the platform provides (crypto, JSON
      serialisation, the HTTP client, Date, Unicode case conversion, the
      media helpers of other modules) is a field of the [Platform]
      class. *)

From Stdlib Require Import String Ascii List NArith ZArith Bool Lia DecimalString.
From stdpp Require Import base decidable option list strings gmap.

#[local] Set Warnings "-register-all".

Local Open Scope string_scope.
Local Open Scope Z_scope.

(* ===================================================================== *)
(** ** JavaScript values *)
(* ===================================================================== *)

Module Js.

(** Values read out of a parsed JSON document, plus [undefined] and the
    built-in function values that a property read can return.  Numbers
    are the integral ones; the code embedded here only tests a number for
    truthiness or hands it to [Number]/[Date]. *)
Inductive JsVal : Type :=
| JUndefined
| JNull
| JBool (b : bool)
| JNumber (n : Z)
| JString (s : string)
| JArray (items : list JsVal)
| JObject (props : list (string * JsVal))
| JFunction (name : string).

(** Induction principle that also covers the values nested in arrays and
    objects. *)
Section JsVal_ind.
Variable P : JsVal -> Prop.
Hypothesis Hundef : P JUndefined.
Hypothesis Hnull : P JNull.
Hypothesis Hbool : forall b, P (JBool b).
Hypothesis Hnum : forall n, P (JNumber n).
Hypothesis Hstr : forall s, P (JString s).
Hypothesis Harr : forall items, Forall P items -> P (JArray items).
Hypothesis Hobj : forall props, Forall (fun kv => P (snd kv)) props -> P (JObject props).
Hypothesis Hfun : forall name, P (JFunction name).

Fixpoint JsVal_nested_ind (v : JsVal) : P v :=
    match v with
    | JUndefined => Hundef
    | JNull => Hnull
    | JBool b => Hbool b
    | JNumber n => Hnum n
    | JString s => Hstr s
    | JArray items =>
        Harr items
          ((fix go (l : list JsVal) : Forall P l :=
              match l with
              | [] => @List.Forall_nil JsVal P
              | x :: r => @List.Forall_cons JsVal P x r (JsVal_nested_ind x) (go r)
              end) items)
    | JObject props =>
        Hobj props
          ((fix go (l : list (string * JsVal)) : Forall (fun kv => P (snd kv)) l :=
              match l with
              | [] => @List.Forall_nil _ (fun kv => P (snd kv))
              | kv :: r => @List.Forall_cons _ (fun kv => P (snd kv)) kv r (JsVal_nested_ind (snd kv)) (go r)
              end) props)
    | JFunction name => Hfun name
    end.
End JsVal_ind.

(** Structural equality ([===] on primitives; on the immutable documents
    handled here it is also how a stored value is compared with a looked
    up one). *)
Fixpoint eqb (a b : JsVal) {struct a} : bool :=
  match a, b with
  | JUndefined, JUndefined => true
  | JNull, JNull => true
  | JBool x, JBool y => Bool.eqb x y
  | JNumber x, JNumber y => Z.eqb x y
  | JString x, JString y => String.eqb x y
  | JArray xs, JArray ys =>
      (fix go (l1 l2 : list JsVal) {struct l1} : bool :=
         match l1, l2 with
         | [], [] => true
         | x :: r1, y :: r2 => eqb x y && go r1 r2
         | _, _ => false
         end) xs ys
  | JObject ps, JObject qs =>
      (fix go (l1 l2 : list (string * JsVal)) {struct l1} : bool :=
         match l1, l2 with
         | [], [] => true
         | (k1, x) :: r1, (k2, y) :: r2 => String.eqb k1 k2 && eqb x y && go r1 r2
         | _, _ => false
         end) ps qs
  | JFunction x, JFunction y => String.eqb x y
  | _, _ => false
  end.

(** [ToBoolean]: what [if (v)], [!v], [a || b] look at. *)
Definition truthy (v : JsVal) : bool :=
  match v with
  | JUndefined | JNull => false
  | JBool b => b
  | JNumber n => negb (n =? 0)
  | JString s => negb (String.eqb s EmptyString)
  | JArray _ | JObject _ | JFunction _ => true
  end.

Definition nullish (v : JsVal) : bool :=
  match v with
  | JUndefined | JNull => true
  | _ => false
  end.

(** [a ?? b] *)
Definition coalesce (a b : JsVal) : JsVal := if nullish a then b else a.

(** [a || b] *)
Definition or (a b : JsVal) : JsVal := if truthy a then a else b.

(** The [length] of a string: its number of UTF-16 code units, counted on
    the UTF-8 bytes (one for each byte that starts a character, and one
    more when the character takes four bytes). *)
Definition codeUnits (s : string) : nat :=
  fold_right
    (fun c n =>
       let b := nat_of_ascii c in
       if Nat.ltb b 128 then S n
       else if Nat.ltb b 192 then n
       else if Nat.ltb b 240 then S n
       else S (S n))
    O (list_ascii_of_string s).

Fixpoint assoc (k : string) (props : list (string * JsVal)) : JsVal :=
  match props with
  | [] => JUndefined
  | (k', v) :: rest => if String.eqb k k' then v else assoc k rest
  end.

(** [v.k].  Reading a property of [undefined] or [null] throws a
    TypeError ([None]).  Of the names the code reads, none lives on
    [Object.prototype], [Array.prototype], [Number.prototype] or
    [Boolean.prototype]; on a string primitive [length] is its length in
    code units and [link] is the legacy [String.prototype.link] method. *)
Definition get (v : JsVal) (k : string) : option JsVal :=
  match v with
  | JUndefined | JNull => None
  | JObject props => Some (assoc k props)
  | JString s =>
      if String.eqb k "length" then Some (JNumber (Z.of_nat (codeUnits s)))
      else if String.eqb k "link" then Some (JFunction "link")
      else Some JUndefined
  | JArray items =>
      if String.eqb k "length" then Some (JNumber (Z.of_nat (List.length items)))
      else Some JUndefined
  | JBool _ | JNumber _ | JFunction _ => Some JUndefined
  end.

(** [v?.k]: [undefined] instead of a TypeError on a nullish receiver. *)
Definition getOpt (v : JsVal) (k : string) : JsVal :=
  match get v k with
  | Some x => x
  | None => JUndefined
  end.

(** [v?.[0]] *)
Definition firstOpt (v : JsVal) : JsVal :=
  match v with
  | JArray items => nth 0 items JUndefined
  | JString (String c _) => JString (String c EmptyString)
  | JObject props => assoc "0" props
  | _ => JUndefined
  end.

Fixpoint chars (s : string) : list JsVal :=
  match s with
  | EmptyString => []
  | String c r => JString (String c EmptyString) :: chars r
  end.

(** What [for (const x of v)] iterates over; [None] when [v] is not
    iterable (TypeError).  Arrays yield their elements, strings their
    characters; plain objects, numbers and booleans are not iterable. *)
Definition iterate (v : JsVal) : option (list JsVal) :=
  match v with
  | JArray items => Some items
  | JString s => Some (chars s)
  | _ => None
  end.

Definition isString (v : JsVal) : bool :=
  match v with
  | JString _ => true
  | _ => false
  end.

End Js.
Export Js.

(* ===================================================================== *)
(** ** Strings: the built-in methods the code calls *)
(* ===================================================================== *)

Module Str.

Definition isNone {A} (o : option A) : bool :=
  match o with
  | None => true
  | Some _ => false
  end.

(** A string of ASCII characters. *)
Definition isAscii (s : string) : bool :=
  forallb (fun c => Nat.ltb (nat_of_ascii c) 128) (list_ascii_of_string s).

(** Case folding of the ASCII letters, every other byte left as it is:
    what the [i] flag of a regular expression without the [u] flag does
    where the pattern is ASCII, and what [toLowerCase] does to a string of
    ASCII characters.  [String.prototype.toLowerCase] itself, which knows
    all of Unicode, is a field of the [Platform] class. *)
Definition lowerAscii (c : ascii) : ascii :=
  let n := nat_of_ascii c in
  if (Nat.leb 65 n && Nat.leb n 90)%bool then ascii_of_nat (n + 32) else c.

Fixpoint toLowerAscii (s : string) : string :=
  match s with
  | EmptyString => EmptyString
  | String c r => String (lowerAscii c) (toLowerAscii r)
  end.

(** [s.split(sep)[0]] for a one-character separator: what precedes its
    first occurrence, the whole string when there is none. *)
Fixpoint beforeFirst (sep : ascii) (s : string) : string :=
  match s with
  | EmptyString => EmptyString
  | String c r => if Ascii.eqb c sep then EmptyString else String c (beforeFirst sep r)
  end.

Fixpoint dropPrefix (n : nat) (s : string) : string :=
  match n, s with
  | O, _ => s
  | S n', String _ r => dropPrefix n' r
  | S _, EmptyString => EmptyString
  end.

(** [s.replace(pat, '')] with a string pattern: only the first occurrence
    is removed, wherever it is. *)
Fixpoint removeFirst (pat s : string) : string :=
  if String.prefix pat s then dropPrefix (String.length pat) s
  else match s with
       | EmptyString => EmptyString
       | String c r => String c (removeFirst pat r)
       end.

Definition isDigit (c : ascii) : bool :=
  let n := nat_of_ascii c in (Nat.leb 48 n && Nat.leb n 57)%bool.

(** [s.replace(/\D/g, '')] *)
Fixpoint digitsOnly (s : string) : string :=
  match s with
  | EmptyString => EmptyString
  | String c r => if isDigit c then String c (digitsOnly r) else digitsOnly r
  end.

(** [arr.includes(s)] on an array of strings *)
Definition includes (arr : list string) (s : string) : bool :=
  existsb (String.eqb s) arr.

(** [s.startsWith(p)] *)
Definition startsWith (p s : string) : bool := String.prefix p s.

(** Truthiness of a string, and of an optional one ([undefined]/[null] are
    [None]). *)
Definition nonEmpty (s : string) : bool := negb (String.eqb s EmptyString).

Definition truthyOpt (o : option string) : bool :=
  match o with
  | Some s => nonEmpty s
  | None => false
  end.

(** [a || b] on optional strings *)
Definition orOpt (a b : option string) : option string :=
  if truthyOpt a then a else b.

(** [a ?? b] on optional strings *)
Definition coalesceOpt (a b : option string) : option string :=
  match a with
  | Some _ => a
  | None => b
  end.

Definition orEmpty (a : option string) : string :=
  match a with
  | Some s => s
  | None => EmptyString
  end.

(** The white space and the line terminators of ECMAScript, which [trim]
    and [Number] strip, by their UTF-8 bytes.  One byte: U+0009 to U+000D
    and U+0020. *)
Definition space1 (a : ascii) : bool :=
  let n := nat_of_ascii a in
  (Nat.leb 9 n && Nat.leb n 13)%bool || Nat.eqb n 32.

(** Two bytes: U+00A0. *)
Definition space2 (a b : ascii) : bool :=
  Nat.eqb (nat_of_ascii a) 194 && Nat.eqb (nat_of_ascii b) 160.

(** Three bytes: U+1680; U+2000 to U+200A, U+2028, U+2029 and U+202F;
    U+205F; U+3000; U+FEFF. *)
Definition space3 (a b c : ascii) : bool :=
  let '(x, y, z) := (nat_of_ascii a, nat_of_ascii b, nat_of_ascii c) in
  (Nat.eqb x 225 && Nat.eqb y 154 && Nat.eqb z 128)
  || (Nat.eqb x 226 && Nat.eqb y 128
      && ((Nat.leb 128 z && Nat.leb z 138) || Nat.eqb z 168 || Nat.eqb z 169 || Nat.eqb z 175))
  || (Nat.eqb x 226 && Nat.eqb y 129 && Nat.eqb z 159)
  || (Nat.eqb x 227 && Nat.eqb y 128 && Nat.eqb z 128)
  || (Nat.eqb x 239 && Nat.eqb y 187 && Nat.eqb z 191).

(** Drops the white space a list of bytes begins with; [two] and [three]
    recognise a character of two and of three bytes from the bytes in the
    order the list has them. *)
Fixpoint dropSpaces (two : ascii -> ascii -> bool) (three : ascii -> ascii -> ascii -> bool)
    (bytes : list ascii) : list ascii :=
  match bytes with
  | [] => []
  | a :: r1 =>
      if space1 a then dropSpaces two three r1
      else
        match r1 with
        | [] => bytes
        | b :: r2 =>
            if two a b then dropSpaces two three r2
            else
              match r2 with
              | [] => bytes
              | c :: r3 => if three a b c then dropSpaces two three r3 else bytes
              end
        end
  end.

(** [s.trim()]: the white space is dropped at the start and then, on the
    reversed bytes, at the end. *)
Definition trim (s : string) : string :=
  let rest := dropSpaces space2 space3 (list_ascii_of_string s) in
  string_of_list_ascii
    (rev (dropSpaces (fun b a => space2 a b) (fun c b a => space3 a b c) (rev rest))).

End Str.

(* ===================================================================== *)
(** ** Node's [path] module (POSIX flavour) *)
(* ===================================================================== *)

Module NodePath.

(** The loop variables of [path.posix.extname]; [None] is the initial -1
    of [startDot] and [end]. *)
Record ExtScan := mkExtScan {
  startDot : option nat;
  startPart : nat;
  endIdx : option nat;
  matchedSlash : bool;
  preDotState : Z
}.

(** One run of the backwards loop over the characters, given last first
    with their indices. *)
Fixpoint extScan (cs : list (nat * ascii)) (st : ExtScan) : ExtScan :=
  match cs with
  | [] => st
  | (i, code) :: rest =>
      if Ascii.eqb code "/" then
        if negb (matchedSlash st)
        then mkExtScan (startDot st) (S i) (endIdx st) (matchedSlash st) (preDotState st)
        else extScan rest st
      else
        let st1 :=
          if Str.isNone (endIdx st)
          then mkExtScan (startDot st) (startPart st) (Some (S i)) false (preDotState st)
          else st in
        let st2 :=
          if Ascii.eqb code "."
          then
            if Str.isNone (startDot st1)
            then mkExtScan (Some i) (startPart st1) (endIdx st1) (matchedSlash st1) (preDotState st1)
            else mkExtScan (startDot st1) (startPart st1) (endIdx st1) (matchedSlash st1) 1
          else
            if Str.isNone (startDot st1) then st1
            else mkExtScan (startDot st1) (startPart st1) (endIdx st1) (matchedSlash st1) (-1) in
        extScan rest st2
  end.

Definition indexedRev (p : string) : list (nat * ascii) :=
  let cs := list_ascii_of_string p in
  rev (combine (seq 0 (List.length cs)) cs).

Definition extname (p : string) : string :=
  let st := extScan (indexedRev p) (mkExtScan None 0 None true 0) in
  match startDot st, endIdx st with
  | Some sd, Some e =>
      if (preDotState st =? 0)
         || ((preDotState st =? 1) && Nat.eqb sd (e - 1) && Nat.eqb sd (startPart st + 1))
      then EmptyString
      else String.substring sd (e - sd) p
  | _, _ => EmptyString
  end.

(** [path.posix.basename(p)] without a suffix argument: [(start, end)]
    after the backwards loop. *)
Fixpoint baseScan (cs : list (nat * ascii)) (matched : bool) (e : option nat)
  : nat * option nat :=
  match cs with
  | [] => (O, e)
  | (i, code) :: rest =>
      if Ascii.eqb code "/" then
        if negb matched then (S i, e) else baseScan rest matched e
      else
        if Str.isNone e then baseScan rest false (Some (S i)) else baseScan rest matched e
  end.

Definition basename (p : string) : string :=
  match baseScan (indexedRev p) true None with
  | (start, Some e) => String.substring start (e - start) p
  | (_, None) => EmptyString
  end.

End NodePath.

(* ===================================================================== *)
(** ** Exceptions and HTTP responses *)
(* ===================================================================== *)

(** A thrown value.  The handlers only ever read [error.message]. *)
Inductive Exn : Type :=
| Error (message : string)
| TypeError (message : string)
| RangeError (message : string)
| SyntaxError (message : string).

Definition exn_message (e : Exn) : string :=
  match e with
  | Error m | TypeError m | RangeError m | SyntaxError m => m
  end.

(** [error.stack], up to its first line (the frames are not modelled). *)
Definition exn_stack (e : Exn) : string :=
  match e with
  | Error m => "Error: " ++ m
  | TypeError m => "TypeError: " ++ m
  | RangeError m => "RangeError: " ++ m
  | SyntaxError m => "SyntaxError: " ++ m
  end.

(** [Result A]: a computation that returns an [A] or throws. *)
Definition Result (A : Type) : Type := Exn + A.

Abbreviation ok := (@inr Exn _) (only parsing).
Abbreviation throw := (@inl Exn _) (only parsing).

#[export] Instance result_bind : MBind Result :=
  fun A B (k : A -> Result B) (r : Result A) =>
    match r with
    | inl e => inl e
    | inr a => k a
    end.

(** [v.k] as a computation: a TypeError on a nullish receiver. *)
Definition prop (v : JsVal) (k : string) : Result JsVal :=
  match Js.get v k with
  | Some x => ok x
  | None => throw (TypeError ("Cannot read properties of undefined or null (reading '" ++ k ++ "')"))
  end.

(* ===================================================================== *)
(** ** Data model: the rows of the storage collaborator and the wire types *)
(* ===================================================================== *)

Inductive Direction : Type := inbound | outbound.

Inductive MessageStatus : Type := received | sent | failed.

(** A row of the conversations table.  [phone] is whatever the event's
    [from] was, or the [to] of a send request. *)
Record Conversation : Type := mkConversation {
  conv_id : nat;
  conv_phone : JsVal;
  conv_lastAt : Z;
  conv_archived : bool;
  conv_createdByUserId : option string
}.

(** A row of the messages table.  [media] is the embedded MessageMedia
    object or [null]; [providerMessageId] is the idempotency key or
    [null]. *)
Record Message : Type := mkMessage {
  msg_id : nat;
  msg_conversationId : nat;
  msg_direction : Direction;
  msg_body : JsVal;
  msg_media : JsVal;
  msg_providerMessageId : JsVal;
  msg_status : MessageStatus;
  msg_replyToMessageId : option nat;
  msg_raw : JsVal;
  msg_sentByUserId : option string;
  msg_createdAt : Z
}.

(** What [storage.createMessage] is given: a row without identity. *)
Record NewMessage : Type := mkNewMessage {
  new_conversationId : nat;
  new_direction : Direction;
  new_body : JsVal;
  new_media : JsVal;
  new_providerMessageId : JsVal;
  new_status : MessageStatus;
  new_replyToMessageId : option nat;
  new_raw : JsVal;
  new_sentByUserId : option string
}.

(** The recorded response of an audit record. *)
Record LoggedResponse : Type := mkLoggedResponse {
  logged_status : nat;
  logged_body : string;
  logged_messageId : option nat;
  logged_error : option string
}.

(** A row of the append-only WebhookEvent audit log. *)
Record WebhookEvent : Type := mkWebhookEvent {
  we_headers : gmap string string;
  we_query : JsVal;
  we_body : JsVal;
  we_response : LoggedResponse
}.

(** The stored default WhatsApp instance ([WhatsappInstanceConfig]), with
    the fields the routes read. *)
Record WhatsappInstanceConfig : Type := mkInstance {
  inst_accessToken : option string;
  inst_phoneNumberId : option string;
  inst_webhookVerifyToken : option string;
  inst_appSecret : option string;
  inst_isActive : option bool
}.

(** A canonical inbound event ([IncomingMessageEvent]).  [ev_body] and
    [ev_media] are [undefined] until the type branch sets them. *)
Record IncomingMessageEvent : Type := mkEvent {
  ev_from : JsVal;
  ev_raw : JsVal;
  ev_providerMessageId : JsVal;
  ev_timestamp : string;
  ev_body : JsVal;
  ev_media : JsVal
}.

(** The five request shapes of the provider's messages endpoint. *)
Inductive MessageContent : Type :=
| ImageContent (link : string) (caption : option string)
| VideoContent (link : string) (caption : option string)
| AudioContent (link : string)
| DocumentContent (link : string) (filename : string) (caption : option string)
| TextContent (body : string).

(** [messagePayload]: [content] is absent when neither a media URL nor a
    body was given (the request then carries no [type]). *)
Record MessagePayload : Type := mkPayload {
  messaging_product : string;
  payload_to : string;
  payload_content : option MessageContent
}.

Inductive MessageKind : Type := KText | KImage | KVideo | KAudio | KDocument.

(** The [type] property of the request body. *)
Definition payload_type (p : MessagePayload) : option MessageKind :=
  match payload_content p with
  | Some (ImageContent _ _) => Some KImage
  | Some (VideoContent _ _) => Some KVideo
  | Some (AudioContent _) => Some KAudio
  | Some (DocumentContent _ _ _) => Some KDocument
  | Some (TextContent _) => Some KText
  | None => None
  end.

(** What [fetch] of the provider endpoint can do: reject (network error),
    or resolve to a response with its [ok] flag, its text and its parsed
    JSON body ([None]: the body is not JSON). *)
Inductive FetchOutcome : Type :=
| FetchRejects (message : string)
| FetchResponse (response_ok : bool) (text : string) (json : option JsVal).

(** A [fetch] call to the provider's messages endpoint. *)
Record ProviderRequest : Type := mkProviderRequest {
  call_url : string;
  call_bearer : string;
  call_payload : MessagePayload
}.

Record SendMessageResponse : Type := mkSendResponse {
  resp_id : JsVal;
  resp_status : string
}.

(** An envelope pushed to a real-time observer. *)
Record Envelope : Type := mkEnvelope {
  env_event : string;
  env_data : Message
}.

(** A WebSocket of [wsClients]: whether its [readyState] is OPEN, and the
    envelopes sent on it so far. *)
Record WsClient : Type := mkWsClient {
  ws_open : bool;
  ws_sent : list Envelope
}.

Inductive ResponseBody : Type :=
| Text (s : string)
| JsonError (message : string)
| JsonMessage (m : Message).

Record Response : Type := mkResponse {
  res_status : nat;
  res_body : ResponseBody
}.

(** What the runtime and the modules outside this development provide. *)
Class Platform : Type := {
  (** [crypto.createHmac("sha256", key).update(data).digest("hex")] *)
  hmacSha256Hex : string -> string -> string;
  (** [JSON.stringify]; [None] is the [undefined] it returns for a value
      that has no JSON text *)
  JSON_stringify : JsVal -> option string;
  (** [Number(v)] when it is finite, [None] for NaN and the infinities *)
  toFiniteNumber : JsVal -> option Z;
  (** [String.prototype.toLowerCase], on the UTF-8 bytes of the string *)
  toLowerCase : string -> string;
  (** [new Date(ms).toISOString()] for a time value in range *)
  isoFormat : Z -> string;
  (** [fetch] of the messages endpoint: URL, bearer token, request body *)
  fetchMessages : string -> string -> MessagePayload -> FetchOutcome;
  (** [lib/mime] *)
  getExtensionFromMime : JsVal -> JsVal;
  normalizeMimeType : JsVal -> JsVal;
  getMimeTypeFromExtension : string -> option string;
  getMimeType : string -> option string;
  (** [services/media-storage] *)
  extractRelativeMediaPath : string -> option string;
  buildSignedMediaPath : string -> string;
  toUrlPath : string -> string;
  (** [services/media-pipeline] *)
  buildSignedMediaUrlsForMessage : Message -> Message;
  (** What is known of [toLowerCase] whatever the Unicode tables of the
      runtime: in a string of ASCII characters it lower-cases the letters
      A to Z and changes nothing else. *)
  toLowerCase_ascii :
    forall s, Str.isAscii s = true -> toLowerCase s = Str.toLowerAscii s
}.

(** An incoming HTTP request as the webhook handlers see it.  [req_body]
    is the parsed body.  [req_rawBody] is the [rawBody] property of the
    request: the [Buffer] of the bytes read from the socket, which the
    body parser leaves there when it has read a body ([None]: it has
    not).  A [Buffer] is an object, so it is truthy also when it holds no
    byte. *)
Record Request : Type := mkRequest {
  req_method : string;
  req_headers : gmap string string;
  req_query : JsVal;
  req_body : JsVal;
  req_rawBody : option string
}.

(** [for (const x of v)] as a computation. *)
Definition iterable (v : JsVal) : Result (list JsVal) :=
  match Js.iterate v with
  | Some items => ok items
  | None => throw (TypeError "value is not iterable")
  end.

(** Runs [f] on each element in order and concatenates what it pushed; the
    first throw ends the loop. *)
Fixpoint collect {A B} (f : A -> Result (list B)) (l : list A) : Result (list B) :=
  match l with
  | [] => ok []
  | x :: rest =>
      ys ← f x;
      zs ← collect f rest;
      ok (ys ++ zs)%list
  end.

(* ===================================================================== *)
(** ** The provider adapter: [MetaProvider] *)
(* ===================================================================== *)

Module MetaProvider.
Section WithPlatform.
Context {platform : Platform}.

Record t : Type := mk {
  token : string;
  phoneNumberId : string;
  verifyToken : string;
  appSecret : string;
  graphVersion : string
}.

(** The constructor: each argument falls back to its environment variable,
    then to the empty string (to ["v19.0"] for the graph version). *)
Definition new (env : gmap string string)
    (token phoneNumberId verifyToken appSecret graphVersion : option string) : t :=
  {| token := Str.orEmpty (Str.orOpt token (env !! "META_TOKEN"));
     phoneNumberId := Str.orEmpty (Str.orOpt phoneNumberId (env !! "META_PHONE_NUMBER_ID"));
     verifyToken := Str.orEmpty (Str.orOpt verifyToken (env !! "META_VERIFY_TOKEN"));
     appSecret := Str.orEmpty (Str.orOpt appSecret (env !! "META_APP_SECRET"));
     graphVersion :=
       let v := Str.orOpt graphVersion (env !! "META_GRAPH_VERSION") in
       if Str.truthyOpt v then Str.orEmpty v else "v19.0" |}.

Definition asImage : list string := [".jpg"; ".jpeg"; ".png"; ".gif"; ".webp"].
Definition asVideo : list string := [".mp4"; ".mov"; ".avi"; ".mkv"; ".webm"].
Definition asAudio : list string := [".mp3"; ".mpeg"; ".ogg"; ".wav"; ".aac"].
Definition asDocument : list string :=
  [".pdf"; ".doc"; ".docx"; ".xls"; ".xlsx"; ".ppt"; ".pptx"; ".txt"; ".csv"].

(** [if (body) ... .caption = body] *)
Definition captionOf (body : option string) : option string :=
  if Str.truthyOpt body then body else None.

(** [normalizedUrl] and [extension] of [send]. *)
Definition normalizedUrl (mediaUrl : string) : string :=
  Str.beforeFirst "#" (Str.beforeFirst "?" mediaUrl).

Definition extensionOf (mediaUrl : string) : string :=
  toLowerCase (NodePath.extname (normalizedUrl mediaUrl)).

(** The request body [send] builds ([messagePayload]), lines 41-100. *)
Definition messagePayload (to : string) (body mediaUrl : option string) : MessagePayload :=
  let cleanPhone := Str.digitsOnly to in
  let content :=
    match mediaUrl with
    | Some url =>
        if Str.nonEmpty url then
          let extension := extensionOf url in
          let filename :=
            NodePath.basename
              (if Str.nonEmpty (normalizedUrl url) then normalizedUrl url else "attachment") in
          if Str.includes asImage extension then Some (ImageContent url (captionOf body))
          else if Str.includes asVideo extension then Some (VideoContent url (captionOf body))
          else if Str.includes asAudio extension then Some (AudioContent url)
          else if Str.includes asDocument extension || Nat.eqb (String.length extension) 0
          then Some (DocumentContent url filename (captionOf body))
          else Some (DocumentContent url filename (captionOf body))
        else if Str.truthyOpt body then Some (TextContent (Str.orEmpty body)) else None
    | None => if Str.truthyOpt body then Some (TextContent (Str.orEmpty body)) else None
    end in
  {| messaging_product := "whatsapp"; payload_to := cleanPhone; payload_content := content |}.

Definition credentialsError : Exn :=
  Error "Meta credentials not configured. Please set META_TOKEN and META_PHONE_NUMBER_ID environment variables.".

(** [send], as the [fetch] calls it makes and what it returns or throws.
    [to] is whatever [conversation.phone] holds; [to.replace] is a
    TypeError on anything but a string. *)
Definition send (p : t) (to : JsVal) (body mediaUrl : option string)
  : list ProviderRequest * Result SendMessageResponse :=
  if negb (Str.nonEmpty (token p)) || negb (Str.nonEmpty (phoneNumberId p))
  then ([], throw credentialsError)
  else
    match to with
    | JString to =>
        let call :=
          {| call_url := "https://graph.facebook.com/" ++ graphVersion p ++ "/"
                         ++ phoneNumberId p ++ "/messages";
             call_bearer := token p;
             call_payload := messagePayload to body mediaUrl |} in
        ([call],
         match fetchMessages (call_url call) (call_bearer call) (call_payload call) with
         | FetchRejects m => throw (TypeError m)
         | FetchResponse false text _ => throw (Error ("Meta API error: " ++ text))
         | FetchResponse true _ None => throw (SyntaxError "Unexpected token in JSON")
         | FetchResponse true _ (Some data) =>
             messages ← prop data "messages";
             ok {| resp_id := Js.getOpt (Js.firstOpt messages) "id"; resp_status := "sent" |}
         end)
    | _ => ([], throw (TypeError "to.replace is not a function"))
    end.

(** [verifyWebhook] *)
Definition verifyWebhook (p : t) (request : Request) : bool :=
  let mode := Js.getOpt (req_query request) "hub.mode" in
  let tok := Js.getOpt (req_query request) "hub.verify_token" in
  Js.eqb mode (JString "subscribe") && Js.eqb tok (JString (verifyToken p)).

(** [crypto.timingSafeEqual] on the UTF-8 bytes of two strings: a
    RangeError when the byte lengths differ. *)
Definition timingSafeEqual (a b : string) : Result bool :=
  if Nat.eqb (String.length a) (String.length b)
  then ok (String.eqb a b)
  else throw (RangeError "Input buffers must have the same byte length").

(** [verifyWebhookSignature].  [rawBody] is [None] when the caller passes
    [undefined]; [update(undefined)] throws inside the [try], and so does
    [timingSafeEqual] on inputs of different lengths. *)
Definition verifyWebhookSignature (p : t) (request : Request) (rawBody : option string)
  : bool :=
  let signature := req_headers request !! "x-hub-signature-256" in
  if negb (Str.truthyOpt signature) then negb (Str.nonEmpty (appSecret p))
  else if negb (Str.nonEmpty (appSecret p)) then true
  else
    let attempt : Result bool :=
      match rawBody with
      | Some data =>
          let expectedSignature := hmacSha256Hex (appSecret p) data in
          let signatureHash := Str.removeFirst "sha256=" (Str.orEmpty signature) in
          timingSafeEqual signatureHash expectedSignature
      | None => throw (TypeError "The data argument must be of type string")
      end in
    match attempt with
    | inr b => b
    | inl _ => false
    end.

(** [new Date(ms).toISOString()]: a RangeError outside the representable
    range of time values. *)
Definition toISOString (ms : Z) : Result string :=
  if Z.abs ms <=? 8640000000000000 then ok (isoFormat ms)
  else throw (RangeError "Invalid time value").

(** [timestampIso] of [parseIncoming]; [now] is the clock. *)
Definition timestampIso (now : Z) (timestamp : JsVal) : Result string :=
  match toFiniteNumber timestamp with
  | Some timestampSeconds => toISOString (timestampSeconds * 1000)
  | None => toISOString now
  end.

(** [buildMediaDescriptor] *)
Definition buildMediaDescriptor (type : string) (payload : JsVal) : JsVal :=
  if negb (Js.truthy payload) then JUndefined
  else
    let field k := Js.coalesce (Js.getOpt payload k) JUndefined in
    let field2 k1 k2 :=
      Js.coalesce (Js.coalesce (Js.getOpt payload k1) (Js.getOpt payload k2)) JUndefined in
    JObject [
      ("provider", JString "meta");
      ("type", JString type);
      ("mediaId", field2 "id" "media_id");
      ("url", field "link");
      ("mimeType", field2 "mime_type" "mimetype");
      ("filename", field "filename");
      ("sha256", field "sha256");
      ("sizeBytes", field2 "file_size" "filesize");
      ("width", field "width");
      ("height", field "height");
      ("durationSeconds", field "duration");
      ("pageCount", field "page_count");
      ("previewUrl", field "preview_url");
      ("thumbnailUrl", field "thumbnail_url");
      ("metadata", payload)
    ].

(** One turn of the innermost loop of [parseIncoming].  The first property
    read throws on a nullish [msg]; after it [msg] is known not to be
    nullish and the later reads cannot throw. *)
Definition parseMessage (now : Z) (msg : JsVal) : Result IncomingMessageEvent :=
  timestamp ← prop msg "timestamp";
  timestampIso ← timestampIso now timestamp;
  let event body media :=
    {| ev_from := Js.getOpt msg "from";
       ev_raw := msg;
       ev_providerMessageId := Js.getOpt msg "id";
       ev_timestamp := timestampIso;
       ev_body := body;
       ev_media := media |} in
  let type := Js.getOpt msg "type" in
  let captioned k := Js.coalesce (Js.getOpt (Js.getOpt msg k) "caption") (Js.getOpt msg "caption") in
  if Js.eqb type (JString "text") then
    ok (event (Js.getOpt (Js.getOpt msg "text") "body") JUndefined)
  else if Js.eqb type (JString "image") then
    ok (event (captioned "image") (buildMediaDescriptor "image" (Js.getOpt msg "image")))
  else if Js.eqb type (JString "document") then
    ok (event (captioned "document") (buildMediaDescriptor "document" (Js.getOpt msg "document")))
  else if Js.eqb type (JString "video") then
    ok (event (captioned "video") (buildMediaDescriptor "video" (Js.getOpt msg "video")))
  else if Js.eqb type (JString "audio") then
    ok (event JUndefined (buildMediaDescriptor "audio" (Js.getOpt msg "audio")))
  else
    ok (event JUndefined JUndefined).

(** The body of [for (const change of entry.changes)]. *)
Definition parseChange (now : Z) (change : JsVal) : Result (list IncomingMessageEvent) :=
  value ← prop change "value";
  let messages := Js.getOpt value "messages" in
  if Js.truthy messages then
    msgs ← iterable messages;
    collect (fun msg => ev ← parseMessage now msg; ok [ev]) msgs
  else ok [].

(** The body of [for (const entry of payload.entry)]. *)
Definition parseEntry (now : Z) (entry : JsVal) : Result (list IncomingMessageEvent) :=
  changes ← prop entry "changes";
  if negb (Js.truthy changes) then ok []
  else
    cs ← iterable changes;
    collect (parseChange now) cs.

(** [parseIncoming] *)
Definition parseIncoming (now : Z) (payload : JsVal) : Result (list IncomingMessageEvent) :=
  entry ← prop payload "entry";
  if negb (Js.truthy entry) then ok []
  else
    entries ← iterable entry;
    collect (parseEntry now) entries.

End WithPlatform.
End MetaProvider.

(** A call of [ingestWhatsappMedia] ([services/media-pipeline], which is
    not part of this development) that the webhook handler started and
    does not wait for: the arguments it was given.  Besides these it holds
    the callback [onStatusChange] of the routes.  What the call does with
    the provider and when it calls back is up to the pipeline; the handler
    has answered by then. *)
Record MediaJob : Type := mkMediaJob {
  job_messageId : nat;
  job_conversationId : nat;
  job_descriptor : JsVal;
  job_provider : MetaProvider.t
}.

(* ===================================================================== *)
(** ** The world a handler runs in *)
(* ===================================================================== *)

(** Everything a request can read or change: the stored default instance
    and [process.env] (read only), the tables of the storage collaborator,
    the sockets of the real-time hub ([wsClients]), the media ingestions
    started in the background, the requests [send] made to the messages
    endpoint of the provider, and the clock. *)
Record World : Type := mkWorld {
  defaultInstance : option WhatsappInstanceConfig;
  processEnv : gmap string string;
  conversations : list Conversation;
  messages : list Message;
  webhookEvents : list WebhookEvent;
  wsClients : list WsClient;
  mediaJobs : list MediaJob;
  providerCalls : list ProviderRequest;
  clock : Z
}.

Definition set_conversations (cs : list Conversation) (w : World) : World :=
  mkWorld (defaultInstance w) (processEnv w) cs (messages w) (webhookEvents w)
          (wsClients w) (mediaJobs w) (providerCalls w) (clock w).

Definition set_messages (ms : list Message) (w : World) : World :=
  mkWorld (defaultInstance w) (processEnv w) (conversations w) ms (webhookEvents w)
          (wsClients w) (mediaJobs w) (providerCalls w) (clock w).

Definition set_webhookEvents (es : list WebhookEvent) (w : World) : World :=
  mkWorld (defaultInstance w) (processEnv w) (conversations w) (messages w) es
          (wsClients w) (mediaJobs w) (providerCalls w) (clock w).

Definition set_wsClients (cs : list WsClient) (w : World) : World :=
  mkWorld (defaultInstance w) (processEnv w) (conversations w) (messages w) (webhookEvents w)
          cs (mediaJobs w) (providerCalls w) (clock w).

Definition set_mediaJobs (js : list MediaJob) (w : World) : World :=
  mkWorld (defaultInstance w) (processEnv w) (conversations w) (messages w) (webhookEvents w)
          (wsClients w) js (providerCalls w) (clock w).

Definition set_providerCalls (cs : list ProviderRequest) (w : World) : World :=
  mkWorld (defaultInstance w) (processEnv w) (conversations w) (messages w) (webhookEvents w)
          (wsClients w) (mediaJobs w) cs (clock w).


(* ===================================================================== *)
(** ** The storage collaborator *)
(* ===================================================================== *)

Module Storage.

(** Modelled from the spec: the identity a new row gets ([server/storage]
    is not part of the sources).  Identities are opaque there; here a new
    row gets the successor of the largest identity in its table, which no
    earlier row has. *)
Definition freshId (ids : list nat) : nat := S (list_max ids).

(** Modelled from the spec: [getConversationByPhone] of [server/storage],
    the conversation whose unique [phone] is the given one. *)
Definition getConversationByPhone (phone : JsVal) (w : World) : option Conversation :=
  find (fun c => Js.eqb (conv_phone c) phone) (conversations w).

(** Modelled from the spec: [getConversationById] of [server/storage]. *)
Definition getConversationById (id : nat) (w : World) : option Conversation :=
  find (fun c => Nat.eqb (conv_id c) id) (conversations w).

(** Modelled from the spec: [createConversation] of [server/storage]; a
    Conversation is created with a fresh identity, not archived, its
    [lastAt] the creation time. *)
Definition createConversation (phone : JsVal) (createdByUserId : option string) (w : World)
  : World * Conversation :=
  let c := {| conv_id := freshId (map conv_id (conversations w));
              conv_phone := phone;
              conv_lastAt := clock w;
              conv_archived := false;
              conv_createdByUserId := createdByUserId |} in
  (set_conversations (conversations w ++ [c]) w, c).

(** Modelled from the spec: [getMessageById] of [server/storage]. *)
Definition getMessageById (id : nat) (w : World) : option Message :=
  find (fun m => Nat.eqb (msg_id m) id) (messages w).

(** Modelled from the spec: [getMessageWithReplyById] of [server/storage];
    the row of that identity (the summary of the replied-to message that
    the real one joins in is left out). *)
Definition getMessageWithReplyById (id : nat) (w : World) : option Message :=
  getMessageById id w.

(** Modelled from the spec: [getMessageByProviderMessageId] of
    [server/storage], the lookup on the idempotency key. *)
Definition getMessageByProviderMessageId (providerMessageId : JsVal) (w : World)
  : option Message :=
  find (fun m => Js.eqb (msg_providerMessageId m) providerMessageId) (messages w).

(** Modelled from the spec: [createMessage] of [server/storage]; the row
    is stored as given, with a fresh identity and its creation time. *)
Definition createMessage (n : NewMessage) (w : World) : World * Message :=
  let m := {| msg_id := freshId (map msg_id (messages w));
              msg_conversationId := new_conversationId n;
              msg_direction := new_direction n;
              msg_body := new_body n;
              msg_media := new_media n;
              msg_providerMessageId := new_providerMessageId n;
              msg_status := new_status n;
              msg_replyToMessageId := new_replyToMessageId n;
              msg_raw := new_raw n;
              msg_sentByUserId := new_sentByUserId n;
              msg_createdAt := clock w |} in
  (set_messages (messages w ++ [m]) w, m).

(** Modelled from the spec: [updateConversationLastAt] of
    [server/storage]; [lastAt] becomes the time of the call. *)
Definition updateConversationLastAt (id : nat) (w : World) : World :=
  set_conversations
    (map (fun c =>
            if Nat.eqb (conv_id c) id
            then mkConversation (conv_id c) (conv_phone c) (clock w) (conv_archived c)
                                (conv_createdByUserId c)
            else c)
         (conversations w)) w.

(** Modelled from the spec: [logWebhookEvent] of [server/storage], the
    append to the audit log. *)
Definition logWebhookEvent (e : WebhookEvent) (w : World) : World :=
  set_webhookEvents (webhookEvents w ++ [e]) w.

(** Modelled from the spec: [getDefaultWhatsappInstance] of
    [server/storage]. *)
Definition getDefaultWhatsappInstance (w : World) : option WhatsappInstanceConfig :=
  defaultInstance w.

End Storage.

(* ===================================================================== *)
(** ** The routes: helpers of [registerRoutes] *)
(* ===================================================================== *)

Module Routes.
Section WithPlatform.
Context {platform : Platform}.

(** A request to [POST /api/message/send], its body destructured as the
    handler types it; an absent, [null] or empty identity is [None]. *)
Record SendRequest : Type := mkSendRequest {
  send_to : option string;
  send_body : option string;
  send_media_url : option string;
  send_conversationId : option nat;
  send_replyToMessageId : option nat;
  send_userId : option string;
  send_headers : gmap string string;
  send_protocol : string
}.

Definition optJs (o : option string) : JsVal :=
  match o with
  | Some s => JString s
  | None => JNull
  end.

Definition optNat (o : option nat) : JsVal :=
  match o with
  | Some n => JNumber (Z.of_nat n)
  | None => JNull
  end.

Fixpoint afterLastAux (sep : ascii) (s acc : string) : string :=
  match s with
  | EmptyString => acc
  | String c r =>
      if Ascii.eqb c sep then afterLastAux sep r EmptyString
      else afterLastAux sep r (acc ++ String c EmptyString)
  end.

(** [s.split(".").pop()] *)
Definition lastSegment (s : string) : string := afterLastAux "." s EmptyString.

(** [getExtensionFromFilename]; [filename.split] is a TypeError on a
    truthy value that is not a string. *)
Definition getExtensionFromFilename (filename : JsVal) : Result JsVal :=
  if negb (Js.truthy filename) then ok JNull
  else
    match filename with
    | JString s =>
        let normalized := lastSegment s in
        ok (if Str.nonEmpty normalized then JString (toLowerCase normalized) else JNull)
    | _ => throw (TypeError "filename.split is not a function")
    end.

(** [createPendingMediaDescriptor] *)
Definition createPendingMediaDescriptor (descriptor : JsVal) : Result JsVal :=
  if negb (Js.truthy descriptor) then ok JNull
  else
    let d k := Js.getOpt descriptor k in
    let orNull v := Js.coalesce v JNull in
    inferredExtension ←
      (let fromMime := getExtensionFromMime (d "mimeType") in
       if Js.nullish fromMime
       then ext ← getExtensionFromFilename (d "filename"); ok (orNull ext)
       else ok fromMime);
    ok (JObject [
      ("origin", JString "whatsapp");
      ("type", Js.coalesce (d "type") (JString "unknown"));
      ("status", JString "pending");
      ("provider", Js.coalesce (d "provider") (JString "meta"));
      ("providerMediaId", orNull (d "mediaId"));
      ("mimeType", orNull (normalizeMimeType (d "mimeType")));
      ("filename", orNull (d "filename"));
      ("extension", inferredExtension);
      ("sizeBytes", orNull (d "sizeBytes"));
      ("checksum", orNull (d "sha256"));
      ("width", orNull (d "width"));
      ("height", orNull (d "height"));
      ("durationSeconds", orNull (d "durationSeconds"));
      ("pageCount", orNull (d "pageCount"));
      ("url", JNull);
      ("thumbnailUrl", JNull);
      ("previewUrl", JNull);
      ("placeholderUrl", JNull);
      ("storage", JNull);
      ("downloadAttempts", JNumber 0);
      ("downloadError", JNull);
      ("downloadedAt", JNull);
      ("thumbnailGeneratedAt", JNull);
      ("metadata",
        if Js.truthy (d "metadata") then JObject [("whatsapp", d "metadata")] else JNull)
    ]).

(** [extension.replace(/^\./, '')] *)
Definition stripLeadingDot (s : string) : string :=
  match s with
  | String "." r => r
  | _ => s
  end.

(** [extensionToMediaType] *)
Definition extensionToMediaType (extension : option string) : string :=
  if negb (Str.truthyOpt extension) then "unknown"
  else
    let ext := toLowerCase (stripLeadingDot (Str.orEmpty extension)) in
    if Str.includes ["jpg"; "jpeg"; "png"; "gif"; "webp"; "heic"; "heif"; "svg"] ext then "image"
    else if Str.includes ["mp4"; "mov"; "m4v"; "webm"; "avi"; "mkv"] ext then "video"
    else if Str.includes ["mp3"; "wav"; "m4a"; "ogg"; "aac"] ext then "audio"
    else if Str.includes ["pdf"; "doc"; "docx"; "xls"; "xlsx"; "ppt"; "pptx"; "txt"; "csv";
                          "zip"; "rar"; "7z"] ext then "document"
    else "unknown".

(** [createMetaProvider]: from the stored default instance when there is
    one (which must be active and carry its credentials), from the
    environment otherwise. *)
Definition createMetaProvider (w : World)
  : Result (MetaProvider.t * option WhatsappInstanceConfig) :=
  match Storage.getDefaultWhatsappInstance w with
  | Some instance =>
      if bool_decide (inst_isActive instance = Some false)
      then throw (Error "Default WhatsApp instance is disabled.")
      else if negb (Str.truthyOpt (inst_accessToken instance))
              || negb (Str.truthyOpt (inst_phoneNumberId instance))
      then throw (Error "Default WhatsApp instance is missing required credentials.")
      else ok (MetaProvider.new (processEnv w)
                 (inst_accessToken instance) (inst_phoneNumberId instance)
                 (inst_webhookVerifyToken instance) (inst_appSecret instance) None,
               Some instance)
  | None =>
      let env := processEnv w in
      ok (MetaProvider.new env
            (env !! "META_TOKEN") (env !! "META_PHONE_NUMBER_ID")
            (env !! "META_VERIFY_TOKEN") (env !! "META_APP_SECRET")
            (env !! "META_GRAPH_VERSION"),
          None)
  end.

(** [broadcastMessage]: the envelope goes to every socket of [wsClients]
    whose [readyState] is OPEN. *)
Definition broadcastMessage (event : string) (data : Message) (w : World) : World :=
  let envelope := {| env_event := event; env_data := data |} in
  set_wsClients
    (map (fun client =>
            if ws_open client
            then mkWsClient (ws_open client) (ws_sent client ++ [envelope])
            else client)
         (wsClients w)) w.

Fixpoint stripTrailing (c : ascii) (s : string) : string :=
  match s with
  | EmptyString => EmptyString
  | String x r =>
      match stripTrailing c r with
      | EmptyString => if Ascii.eqb x c then EmptyString else String x EmptyString
      | r' => String x r'
      end
  end.

(** [s.replace(/:$/, '')] *)
Fixpoint stripOneTrailingColon (s : string) : string :=
  match s with
  | EmptyString => EmptyString
  | String ":" EmptyString => EmptyString
  | String x r => String x (stripOneTrailingColon r)
  end.

(** [/^https?:\/\//i.test(s)] *)
Definition isHttpUrl (s : string) : bool :=
  let l := Str.toLowerAscii s in
  Str.startsWith "http://" l || Str.startsWith "https://" l.

Definition withLeadingSlash (p : string) : string :=
  if Str.startsWith "/" p then p else "/" ++ p.

(** [resolvePublicMediaUrl] *)
Definition resolvePublicMediaUrl (env : gmap string string) (req : SendRequest)
    (mediaPath : string) : string :=
  if negb (Str.nonEmpty mediaPath) then mediaPath
  else if isHttpUrl mediaPath then mediaPath
  else
    let configuredBase :=
      Str.orOpt (Str.orOpt (env !! "MEDIA_PUBLIC_BASE_URL") (env !! "PUBLIC_BASE_URL"))
                (env !! "PUBLIC_APP_URL") in
    if Str.truthyOpt configuredBase then
      stripTrailing "/" (Str.orEmpty configuredBase) ++ withLeadingSlash mediaPath
    else
      let forwardedHost := send_headers req !! "x-forwarded-host" in
      let host := Str.orOpt forwardedHost (send_headers req !! "host") in
      if negb (Str.truthyOpt host) then mediaPath
      else
        let forwardedProto := send_headers req !! "x-forwarded-proto" in
        let protocol0 :=
          if Str.truthyOpt forwardedProto
          then Str.trim (Str.beforeFirst "," (Str.orEmpty forwardedProto))
          else EmptyString in
        let protocol1 := if Str.nonEmpty protocol0 then protocol0 else send_protocol req in
        let protocol2 := if Str.nonEmpty protocol1 then protocol1 else "http" in
        let protocol := toLowerCase (stripOneTrailingColon protocol2) in
        protocol ++ "://" ++ Str.orEmpty host ++ withLeadingSlash mediaPath.


(* --------------------------------------------------------------------- *)
(** *** [POST /api/message/send] *)
(* --------------------------------------------------------------------- *)

Definition jsonError (status : nat) (message : string) : Response :=
  {| res_status := status; res_body := JsonError message |}.

(** The conversation a send request addresses: the one named by
    [conversationId] (404 when there is none), else the one of the phone
    number [to], created on first contact. *)
Definition resolveConversation (req : SendRequest) (w : World)
  : World * (Response + Conversation) :=
  match send_conversationId req with
  | Some id =>
      match Storage.getConversationById id w with
      | Some c => (w, inr c)
      | None => (w, inl (jsonError 404 "Conversation not found."))
      end
  | None =>
      if negb (Str.truthyOpt (send_to req))
      then (w, inl (jsonError 400 "Recipient phone number is required."))
      else
        let to := JString (Str.orEmpty (send_to req)) in
        match Storage.getConversationByPhone to w with
        | Some c => (w, inr c)
        | None =>
            let '(w', c) := Storage.createConversation to (send_userId req) w in
            (w', inr c)
        end
  end.

(** The reply-target checks (lines 794-810): the response that rejects the
    request, or the target ([None] when the request is not a reply). *)
Definition checkReplyTarget (req : SendRequest) (conversation : Conversation) (w : World)
  : Response + option Message :=
  match send_replyToMessageId req with
  | Some replyToMessageId =>
      match Storage.getMessageById replyToMessageId w with
      | None => inl (jsonError 400 "Reply target not found.")
      | Some messageTarget =>
          if negb (Nat.eqb (msg_conversationId messageTarget) (conv_id conversation))
          then inl (jsonError 400 "Reply target belongs to a different conversation.")
          else
            match msg_direction messageTarget with
            | inbound => inr (Some messageTarget)
            | outbound => inl (jsonError 400 "You can only reply to incoming messages.")
            end
      end
  | None => inr None
  end.

Definition extensionOfFilename (filename : option string) : option string :=
  match getExtensionFromFilename (optJs filename) with
  | inr (JString e) => Some e
  | _ => None
  end.

(** [outboundMedia] (lines 821-868). *)
Definition outboundMedia (media_url : option string) (now : Z) : JsVal :=
  if negb (Str.truthyOpt media_url) then JNull
  else
    let url := Str.orEmpty media_url in
    let relativeMediaPath := extractRelativeMediaPath url in
    let hasRelative := Str.truthyOpt relativeMediaPath in
    let inferredFilename :=
      if hasRelative then NodePath.basename (Str.orEmpty relativeMediaPath)
      else NodePath.basename (Str.beforeFirst "#" (Str.beforeFirst "?" url)) in
    let extension := extensionOfFilename (Some inferredFilename) in
    let outboundMediaType := extensionToMediaType extension in
    let inferredMime :=
      Str.coalesceOpt
        (if Str.truthyOpt extension then getMimeTypeFromExtension (Str.orEmpty extension) else None)
        (if Str.truthyOpt extension then getMimeType (Str.orEmpty extension) else None) in
    JObject [
      ("origin", JString "upload");
      ("type", JString outboundMediaType);
      ("status", JString "ready");
      ("provider", JString "local");
      ("providerMediaId", JNull);
      ("mimeType", optJs inferredMime);
      ("filename", JString inferredFilename);
      ("extension", optJs extension);
      ("sizeBytes", JNull);
      ("checksum", JNull);
      ("width", JNull);
      ("height", JNull);
      ("durationSeconds", JNull);
      ("pageCount", JNull);
      ("url", JString (if hasRelative then toUrlPath (Str.orEmpty relativeMediaPath)
                       else Str.beforeFirst "?" url));
      ("thumbnailUrl", JNull);
      ("previewUrl", JNull);
      ("placeholderUrl", JNull);
      ("storage",
        if hasRelative
        then JObject [("originalPath", JString (Str.orEmpty relativeMediaPath));
                      ("thumbnailPath", JNull); ("previewPath", JNull)]
        else JNull);
      ("downloadAttempts", JNumber 0);
      ("downloadError", JNull);
      ("downloadedAt", JString (isoFormat now));
      ("thumbnailGeneratedAt", JNull);
      ("metadata", JObject [("origin", JString "upload")])
    ].

(** [providerMediaPath] and, inside the [try], [providerMediaUrl]. *)
Definition providerMediaUrl (req : SendRequest) (w : World) : option string :=
  let relativeMediaPath :=
    if Str.truthyOpt (send_media_url req)
    then extractRelativeMediaPath (Str.orEmpty (send_media_url req))
    else None in
  let providerMediaPath :=
    if Str.truthyOpt relativeMediaPath
    then Some (buildSignedMediaPath (Str.orEmpty relativeMediaPath))
    else send_media_url req in
  if Str.truthyOpt providerMediaPath
  then Some (resolvePublicMediaUrl (processEnv w) req (Str.orEmpty providerMediaPath))
  else None.

(** The [try]/[catch] around the dispatch (lines 875-885): the world with
    the calls made, the provider message id and the status to record. *)
Definition dispatch (provider : MetaProvider.t) (req : SendRequest)
    (conversation : Conversation) (w : World) : World * (JsVal * MessageStatus) :=
  let '(calls, outcome) :=
    MetaProvider.send provider (conv_phone conversation) (send_body req)
                      (providerMediaUrl req w) in
  (set_providerCalls (providerCalls w ++ calls) w,
   match outcome with
   | inr providerResp => (Js.or (resp_id providerResp) JNull, sent)
   | inl providerError => (JNull, failed)
   end).

(** From the dispatch to the broadcast (lines 870-905). *)
Definition dispatchAndPersist (req : SendRequest) (conversation : Conversation) (w : World)
  : World * Response :=
  match createMetaProvider w with
  | inl error => (w, jsonError 500 (exn_message error))
  | inr (provider, _) =>
      let '(w0, (providerMessageId, status)) := dispatch provider req conversation w in
      let '(w1, message) :=
        Storage.createMessage
          {| new_conversationId := conv_id conversation;
             new_direction := outbound;
             new_body := if Str.truthyOpt (send_body req) then optJs (send_body req) else JNull;
             new_media := outboundMedia (send_media_url req) (clock w0);
             new_providerMessageId := providerMessageId;
             new_status := status;
             new_replyToMessageId := send_replyToMessageId req;
             new_raw := JNull;
             new_sentByUserId := send_userId req |} w0 in
      let w2 := Storage.updateConversationLastAt (conv_id conversation) w1 in
      let messageWithReply := Storage.getMessageWithReplyById (msg_id message) w2 in
      let payload := buildSignedMediaUrlsForMessage (default message messageWithReply) in
      (broadcastMessage "message_outgoing" payload w2,
       {| res_status := 200; res_body := JsonMessage payload |})
  end.

(** The handler of [POST /api/message/send]. *)
Definition sendMessage (req : SendRequest) (w : World) : World * Response :=
  if Str.isNone (send_conversationId req) && negb (Str.truthyOpt (send_to req))
  then (w, jsonError 400 "conversationId or to is required.")
  else if negb (Str.truthyOpt (send_body req)) && negb (Str.truthyOpt (send_media_url req))
  then (w, jsonError 400 "body or media_url is required.")
  else
    match resolveConversation req w with
    | (w1, inl response) => (w1, response)
    | (w1, inr conversation) =>
        match checkReplyTarget req conversation w1 with
        | inl response => (w1, response)
        | inr replyTarget => dispatchAndPersist req conversation w1
        end
    end.


(* --------------------------------------------------------------------- *)
(** *** The webhook: verification (GET) and ingestion (POST) *)
(* --------------------------------------------------------------------- *)

Definition text (status : nat) (body : string) : Response :=
  {| res_status := status; res_body := Text body |}.

Definition auditRecord (req : Request) (body : JsVal) (response : LoggedResponse)
  : WebhookEvent :=
  {| we_headers := req_headers req; we_query := req_query req;
     we_body := body; we_response := response |}.

Definition logged (status : nat) (body : string) : LoggedResponse :=
  {| logged_status := status; logged_body := body;
     logged_messageId := None; logged_error := None |}.

Definition onlineNotice : string :=
  "Meta webhook endpoint is online. To verify, Meta will call this URL with hub.mode=subscribe, hub.verify_token, and hub.challenge query parameters.".

Definition missingTokenNotice : string :=
  "Verify token is not configured. Set META_VERIFY_TOKEN or update the Default WhatsApp Instance.".

(** [isVerificationAttempt]: the challenge when the request is one. *)
Definition verificationChallenge (req : Request) : option string :=
  match Js.getOpt (req_query req) "hub.mode", Js.getOpt (req_query req) "hub.challenge" with
  | JString mode, JString challenge =>
      if String.eqb (toLowerCase mode) "subscribe" then Some challenge else None
  | _, _ => None
  end.

(** [expectedToken] of the verification handler. *)
Definition expectedToken (instance : option WhatsappInstanceConfig) (env : gmap string string)
  : string :=
  Str.orEmpty
    (Str.coalesceOpt (instance ≫= inst_webhookVerifyToken) (env !! "META_VERIFY_TOKEN")).

(** [handleMetaWebhookVerification] *)
Definition handleMetaWebhookVerification (req : Request) (w : World) : World * Response :=
  match verificationChallenge req with
  | None => (w, text 200 onlineNotice)
  | Some challenge =>
      match createMetaProvider w with
      | inr (provider, instance) =>
          let expectedToken := expectedToken instance (processEnv w) in
          let verifyToken := Js.getOpt (req_query req) "hub.verify_token" in
          if negb (Str.nonEmpty expectedToken) then
            (Storage.logWebhookEvent
               (auditRecord req JNull (logged 500 "Missing verify token configuration")) w,
             text 500 missingTokenNotice)
          else if negb (Js.eqb verifyToken (JString expectedToken)) then
            (Storage.logWebhookEvent (auditRecord req JNull (logged 403 "Forbidden")) w,
             text 403 "Forbidden")
          else
            (Storage.logWebhookEvent (auditRecord req JNull (logged 200 challenge)) w,
             text 200 challenge)
      | inl error =>
          (Storage.logWebhookEvent
             (auditRecord req JNull (logged 500 (exn_message error))) w,
           text 500 "Error")
      end
  end.

(** The event as an object, for the audit record of an event without
    [raw]. *)
Definition eventObject (event : IncomingMessageEvent) : JsVal :=
  JObject [
    ("from", ev_from event);
    ("raw", ev_raw event);
    ("providerMessageId", ev_providerMessageId event);
    ("timestamp", JString (ev_timestamp event));
    ("body", ev_body event);
    ("media", ev_media event)
  ].

(** The dedup lookup at the head of the loop body (lines 1070-1083). *)
Definition existingMessage (event : IncomingMessageEvent) (w : World) : option Message :=
  if Js.truthy (ev_providerMessageId event)
  then Storage.getMessageByProviderMessageId (ev_providerMessageId event) w
  else None.

(** The conversation of the event's sender, created on first contact. *)
Definition conversationFor (event : IncomingMessageEvent) (w : World) : World * Conversation :=
  match Storage.getConversationByPhone (ev_from event) w with
  | Some conversation => (w, conversation)
  | None => Storage.createConversation (ev_from event) None w
  end.


(** One turn of [for (const event of events)] (lines 1067-1149): the world
    after it, and whether it threw.  [provider] is the provider the
    handler built. *)
Definition processEvent (provider : MetaProvider.t) (req : Request)
    (event : IncomingMessageEvent) (w : World) : World * Result unit :=
  match existingMessage event w with
  | Some existing => (w, ok tt)
  | None =>
      let '(w1, conversation) := conversationFor event w in
      match createPendingMediaDescriptor (ev_media event) with
      | inl error => (w1, throw error)
      | inr pendingMedia =>
          let '(w2, message) :=
            Storage.createMessage
              {| new_conversationId := conv_id conversation;
                 new_direction := inbound;
                 new_body := Js.coalesce (ev_body event) JNull;
                 new_media := pendingMedia;
                 new_providerMessageId := Js.coalesce (ev_providerMessageId event) JNull;
                 new_status := received;
                 new_replyToMessageId := None;
                 new_raw := ev_raw event;
                 new_sentByUserId := None |} w1 in
          let w3 :=
            Storage.logWebhookEvent
              (auditRecord req (Js.or (ev_raw event) (eventObject event))
                 {| logged_status := 200; logged_body := "ok";
                    logged_messageId := Some (msg_id message); logged_error := None |}) w2 in
          let w4 := Storage.updateConversationLastAt (conv_id conversation) w3 in
          let signedMessage := buildSignedMediaUrlsForMessage message in
          let w5 := broadcastMessage "message_incoming" signedMessage w4 in
          let w6 :=
            if Js.truthy (ev_media event)
            then set_mediaJobs
                   (mediaJobs w5 ++ [ {| job_messageId := msg_id message;
                                         job_conversationId := conv_id conversation;
                                         job_descriptor := ev_media event;
                                         job_provider := provider |} ]) w5
            else w5 in
          (w6, ok tt)
      end
  end.

(** The loop over the events, in payload order; a throw ends it. *)
Fixpoint processEvents (provider : MetaProvider.t) (req : Request)
    (events : list IncomingMessageEvent) (w : World) : World * Result unit :=
  match events with
  | [] => (w, ok tt)
  | event :: rest =>
      match processEvent provider req event w with
      | (w', inr _) => processEvents provider req rest w'
      | (w', inl error) => (w', inl error)
      end
  end.

(** [hasAppSecret] *)
Definition hasAppSecret (instance : option WhatsappInstanceConfig) (env : gmap string string)
  : bool :=
  Str.truthyOpt (Str.orOpt (instance ≫= inst_appSecret) (env !! "META_APP_SECRET")).

(** [rawBody]: [req.rawBody || JSON.stringify(req.body)]; the bytes of
    the [Buffer] when the request has one, else the text of the parsed
    body. *)
Definition rawBodyOf (req : Request) : option string :=
  match req_rawBody req with
  | Some bytes => Some bytes
  | None => JSON_stringify (req_body req)
  end.

(** The signature gate (lines 1030-1050): [true] when the request is let
    through. *)
Definition signatureGate (provider : MetaProvider.t)
    (instance : option WhatsappInstanceConfig) (req : Request) (w : World) : bool :=
  if hasAppSecret instance (processEnv w)
  then MetaProvider.verifyWebhookSignature provider req (rawBodyOf req)
  else true.

(** The [catch] of the POST handler: an audit record of the error, then
    500. *)
Definition webhookFailure (req : Request) (error : Exn) (w : World) : World * Response :=
  (Storage.logWebhookEvent
     (auditRecord req (req_body req)
        {| logged_status := 500; logged_body := exn_message error;
           logged_messageId := None; logged_error := Some (exn_stack error) |}) w,
   jsonError 500 (exn_message error)).

(** Parsing, the loop and the acknowledgement (lines 1052-1153), with the
    [catch] for what they throw. *)
Definition ingestPayload (provider : MetaProvider.t) (req : Request) (w : World)
  : World * Response :=
  match MetaProvider.parseIncoming (clock w) (req_body req) with
  | inl error => webhookFailure req error w
  | inr events =>
      if Nat.eqb (List.length events) 0 then
        (Storage.logWebhookEvent
           (auditRecord req (req_body req) (logged 200 "ok - no events")) w,
         text 200 "ok - no events")
      else
        match processEvents provider req events w with
        | (w', inr _) => (w', text 200 "ok")
        | (w', inl error) => webhookFailure req error w'
        end
  end.

(** The audit record and the response of a request stopped at the
    signature gate. *)
Definition rejectSignature (req : Request) (w : World) : World * Response :=
  (Storage.logWebhookEvent
     (auditRecord req (req_body req) (logged 401 "Invalid signature")) w,
   text 401 "Invalid signature").

(** [handleMetaWebhookEvent] *)
Definition handleMetaWebhookEvent (req : Request) (w : World) : World * Response :=
  match createMetaProvider w with
  | inl error => webhookFailure req error w
  | inr (provider, instance) =>
      if negb (signatureGate provider instance req w) then rejectSignature req w
      else ingestPayload provider req w
  end.

(** The middleware mounted on the webhook path, for a request whose path
    matched it. *)
Definition metaWebhook (req : Request) (w : World) : World * Response :=
  if String.eqb (req_method req) "GET" then handleMetaWebhookVerification req w
  else if String.eqb (req_method req) "POST" then handleMetaWebhookEvent req w
  else (w, jsonError 405 "Method Not Allowed").

End WithPlatform.
End Routes.

(* ===================================================================== *)
(** ** A platform to run the model on: SHA-256, HMAC, JSON text, dates *)
(* ===================================================================== *)

(** SHA-256 (FIPS 180-4) on byte lists. *)
Module Sha256.
Local Open Scope N_scope.

(** 32-bit words are [N]s below [2^32]; additions wrap. *)
Definition w32 (x : N) : N := N.land x 4294967295.
Definition add32 (x y : N) : N := w32 (x + y).
Definition rotr (n x : N) : N := N.lor (N.shiftr x n) (w32 (N.shiftl x (32 - n))).
Definition not32 (x : N) : N := N.lxor x 4294967295.

Definition Ch (x y z : N) : N := N.lxor (N.land x y) (N.land (not32 x) z).
Definition Maj (x y z : N) : N := N.lxor (N.lxor (N.land x y) (N.land x z)) (N.land y z).
Definition bigSigma0 (x : N) : N := N.lxor (N.lxor (rotr 2 x) (rotr 13 x)) (rotr 22 x).
Definition bigSigma1 (x : N) : N := N.lxor (N.lxor (rotr 6 x) (rotr 11 x)) (rotr 25 x).
Definition smallSigma0 (x : N) : N := N.lxor (N.lxor (rotr 7 x) (rotr 18 x)) (N.shiftr x 3).
Definition smallSigma1 (x : N) : N := N.lxor (N.lxor (rotr 17 x) (rotr 19 x)) (N.shiftr x 10).

(** The constants are not tabulated but derived as the standard defines
    them: the first 32 bits of the fractional parts of the cube roots
    ([K]) and of the square roots ([H0]) of the first primes. *)
Definition isPrime (n : N) : bool :=
  (1 <? n)
  && forallb (fun d => negb (n mod d =? 0))
             (filter (fun d => d * d <=? n) (map N.of_nat (seq 2 (N.to_nat n - 2)))).

Definition primes (count : nat) : list N :=
  firstn count (filter isPrime (map N.of_nat (seq 2 310))).

(** The largest [r] in [[lo, hi)] with [r^3 <= n], by bisection. *)
Fixpoint cubeRoot (fuel : nat) (lo hi n : N) : N :=
  match fuel with
  | O => lo
  | S fuel' =>
      let mid := (lo + hi) / 2 in
      if mid * mid * mid <=? n then cubeRoot fuel' mid hi n else cubeRoot fuel' lo mid n
  end.

Definition K : list N :=
  map (fun p => w32 (cubeRoot 40 0 (N.shiftl 1 36) (N.shiftl p 96))) (primes 64).

Definition H0 : list N :=
  map (fun p => w32 (N.sqrt (N.shiftl p 64))) (primes 8).

(** Padding: a 1 bit, zeros up to 56 mod 64 bytes, the bit length on 8
    bytes, big-endian. *)
Definition be_bytes (count : nat) (x : N) : list N :=
  map (fun i => N.land (N.shiftr x (8 * N.of_nat i)) 255) (rev (seq 0 count)).

Definition pad (msg : list N) : list N :=
  let len := List.length msg in
  let zeros := Nat.modulo (64 + 55 - Nat.modulo len 64) 64 in
  (msg ++ [128] ++ repeat 0 zeros ++ be_bytes 8 (8 * N.of_nat len))%list.

Fixpoint be_word (bytes : list N) (acc : N) : N :=
  match bytes with
  | [] => acc
  | b :: r => be_word r (N.lor (N.shiftl acc 8) b)
  end.

(** The 16 big-endian words of a 64-byte block. *)
Fixpoint words (count : nat) (bytes : list N) : list N :=
  match count with
  | O => []
  | S c => be_word (firstn 4 bytes) 0 :: words c (skipn 4 bytes)
  end.

(** The message schedule, kept most recent first: [w_t] from the sixteen
    words before it. *)
Fixpoint schedule (count : nat) (recent : list N) : list N :=
  match count with
  | O => recent
  | S c =>
      let w := add32 (add32 (smallSigma1 (nth 1 recent 0)) (nth 6 recent 0))
                     (add32 (smallSigma0 (nth 14 recent 0)) (nth 15 recent 0)) in
      schedule c (w :: recent)
  end.

Record Regs : Type := mkRegs { ra : N; rb : N; rc : N; rd : N; re : N; rf : N; rg : N; rh : N }.

Definition round (r : Regs) (kw : N * N) : Regs :=
  let t1 := add32 (add32 (add32 (rh r) (bigSigma1 (re r))) (add32 (Ch (re r) (rf r) (rg r)) (fst kw)))
                  (snd kw) in
  let t2 := add32 (bigSigma0 (ra r)) (Maj (ra r) (rb r) (rc r)) in
  mkRegs (add32 t1 t2) (ra r) (rb r) (rc r) (add32 (rd r) t1) (re r) (rf r) (rg r).

Definition regs_of (h : list N) : Regs :=
  mkRegs (nth 0 h 0) (nth 1 h 0) (nth 2 h 0) (nth 3 h 0)
         (nth 4 h 0) (nth 5 h 0) (nth 6 h 0) (nth 7 h 0).

Definition compress (h : list N) (block : list N) : list N :=
  let w := rev (schedule 48 (rev (words 16 block))) in
  let r := fold_left round (combine K w) (regs_of h) in
  map (fun p => add32 (fst p) (snd p))
      (combine h [ra r; rb r; rc r; rd r; re r; rf r; rg r; rh r]).

Fixpoint blocks (count : nat) (h : list N) (bytes : list N) : list N :=
  match count with
  | O => h
  | S c => blocks c (compress h (firstn 64 bytes)) (skipn 64 bytes)
  end.

(** The digest, as 32 bytes. *)
Definition digest (msg : list N) : list N :=
  let padded := pad msg in
  flat_map (be_bytes 4) (blocks (Nat.div (List.length padded) 64) H0 padded).

Definition hexDigit (n : N) : ascii :=
  if n <? 10 then ascii_of_N (48 + n) else ascii_of_N (87 + n).

Fixpoint hex (bytes : list N) : string :=
  match bytes with
  | [] => EmptyString
  | b :: r => String (hexDigit (N.shiftr b 4)) (String (hexDigit (N.land b 15)) (hex r))
  end.

Definition bytesOf (s : string) : list N := map N_of_ascii (list_ascii_of_string s).

(** HMAC (RFC 2104) with SHA-256: block size 64. *)
Definition hmac (key msg : list N) : list N :=
  let key0 := if Nat.ltb 64 (List.length key) then digest key else key in
  let keyBlock := (key0 ++ repeat 0 (64 - List.length key0))%list in
  let ipad := map (N.lxor 54) keyBlock in
  let opad := map (N.lxor 92) keyBlock in
  digest (opad ++ digest (ipad ++ msg))%list.

Definition hmacHex (key data : string) : string := hex (hmac (bytesOf key) (bytesOf data)).

End Sha256.

(** Stand-ins for the services of the platform, to evaluate the model on
    the concrete requests of this development.  The theorems are proved
    for every [Platform]; these definitions agree with JavaScript on the
    inputs the concrete requests use (ASCII text, integer numbers below
    [10^21]) and are not meant beyond them. *)
Module Runtime.

Definition decimal (z : Z) : string := DecimalString.NilZero.string_of_int (Z.to_int z).

Definition quote : string := String (ascii_of_nat 34) EmptyString.

Definition hex2 (n : nat) : string :=
  String (Sha256.hexDigit (N.of_nat (Nat.div n 16)))
         (String (Sha256.hexDigit (N.of_nat (Nat.modulo n 16))) EmptyString).

(** The JSON escape of one character of a string. *)
Definition escapeChar (c : ascii) : string :=
  let n := nat_of_ascii c in
  if Nat.eqb n 34 then "\" ++ quote
  else if Nat.eqb n 92 then "\\"
  else if Nat.eqb n 8 then "\b"
  else if Nat.eqb n 9 then "\t"
  else if Nat.eqb n 10 then "\n"
  else if Nat.eqb n 12 then "\f"
  else if Nat.eqb n 13 then "\r"
  else if Nat.ltb n 32 then "\u00" ++ hex2 n
  else String c EmptyString.

Fixpoint escape (s : string) : string :=
  match s with
  | EmptyString => EmptyString
  | String c r => escapeChar c ++ escape r
  end.

Definition quoted (s : string) : string := quote ++ escape s ++ quote.

Fixpoint joinWith (sep : string) (parts : list string) : string :=
  match parts with
  | [] => EmptyString
  | [x] => x
  | x :: r => x ++ sep ++ joinWith sep r
  end.

(** [JSON.stringify(v)] without indentation: [None] for [undefined] and
    functions, which become [null] inside an array and are left out of an
    object.  A number is printed in full, as [JSON.stringify] prints the
    integers below [10^21]; larger ones it prints with an exponent. *)
Fixpoint stringify (v : JsVal) : option string :=
  match v with
  | JUndefined | JFunction _ => None
  | JNull => Some "null"
  | JBool true => Some "true"
  | JBool false => Some "false"
  | JNumber n => Some (decimal n)
  | JString s => Some (quoted s)
  | JArray items =>
      Some ("[" ++ joinWith ","
              ((fix each (l : list JsVal) : list string :=
                  match l with
                  | [] => []
                  | x :: r => default "null" (stringify x) :: each r
                  end) items) ++ "]")
  | JObject props =>
      Some ("{" ++ joinWith ","
              ((fix each (l : list (string * JsVal)) : list string :=
                  match l with
                  | [] => []
                  | (k, x) :: r =>
                      match stringify x with
                      | Some t => (quoted k ++ ":" ++ t) :: each r
                      | None => each r
                      end
                  end) props) ++ "}")
  end.

Fixpoint digitsValue (s : string) (acc : Z) : option Z :=
  match s with
  | EmptyString => Some acc
  | String c r =>
      if Str.isDigit c
      then digitsValue r (10 * acc + Z.of_nat (nat_of_ascii c - 48))
      else None
  end.

(** [Number(v)] on integers: integer literals in decimal, with white space
    around and a sign; the empty string, [null] and [false] are 0.  What
    else [Number] converts (fractions, exponents, hexadecimal literals)
    has no value in [Z] and counts here as not a finite number. *)
Definition number (v : JsVal) : option Z :=
  match v with
  | JNumber n => Some n
  | JNull => Some 0
  | JBool b => Some (if b then 1 else 0)
  | JString s =>
      match Str.trim s with
      | EmptyString => Some 0
      | String "-" (String c r) => z ← digitsValue (String c r) 0; Some (- z)
      | String "+" (String c r) => digitsValue (String c r) 0
      | t => digitsValue t 0
      end
  | _ => None
  end.

Fixpoint zeroPad (width : nat) (s : string) : string :=
  match width - String.length s with
  | O => s
  | S _ =>
      match width with
      | O => s
      | S w => "0" ++ zeroPad w s
      end
  end%nat.

Definition padded (width : nat) (z : Z) : string := zeroPad width (decimal z).

(** [Date.prototype.toISOString] for a time value in milliseconds: the
    proleptic Gregorian date of the day number, then the time of day. *)
Definition isoString (ms : Z) : string :=
  let days := ms / 86400000 in
  let rest := ms mod 86400000 in
  let z := days + 719468 in
  let era := z / 146097 in
  let doe := z - era * 146097 in
  let yoe := (doe - doe / 1460 + doe / 36524 - doe / 146096) / 365 in
  let doy := doe - (365 * yoe + yoe / 4 - yoe / 100) in
  let mp := (5 * doy + 2) / 153 in
  let d := doy - (153 * mp + 2) / 5 + 1 in
  let m := if mp <? 10 then mp + 3 else mp - 9 in
  let y := yoe + era * 400 + (if m <=? 2 then 1 else 0) in
  let year :=
    if (0 <=? y) && (y <=? 9999) then padded 4 y
    else if y <? 0 then "-" ++ padded 6 (- y)
    else "+" ++ padded 6 y in
  year ++ "-" ++ padded 2 m ++ "-" ++ padded 2 d ++ "T"
    ++ padded 2 (rest / 3600000) ++ ":" ++ padded 2 (rest / 60000 mod 60) ++ ":"
    ++ padded 2 (rest / 1000 mod 60) ++ "." ++ padded 3 (rest mod 1000) ++ "Z".

(** Stand-ins for the media helpers of the modules that are not part of
    this development: stored media lives under [/media/]. *)
Definition relativeMediaPath (url : string) : option string :=
  if Str.startsWith "/media/" url
  then Some (Str.beforeFirst "?" (Str.dropPrefix 7 url))
  else None.

Definition mimeOfExtension (ext : string) : option string :=
  if String.eqb ext "jpg" then Some "image/jpeg"
  else if String.eqb ext "png" then Some "image/png"
  else if String.eqb ext "pdf" then Some "application/pdf"
  else if String.eqb ext "mp4" then Some "video/mp4"
  else if String.eqb ext "ogg" then Some "audio/ogg"
  else None.

Definition extensionOfMime (mime : JsVal) : JsVal :=
  match mime with
  | JString m =>
      if String.eqb m "image/jpeg" then JString "jpg"
      else if String.eqb m "image/png" then JString "png"
      else if String.eqb m "application/pdf" then JString "pdf"
      else if String.eqb m "video/mp4" then JString "mp4"
      else if String.eqb m "audio/ogg" then JString "ogg"
      else JNull
  | _ => JNull
  end.

Definition normalizedMime (mime : JsVal) : JsVal :=
  match mime with
  | JString m => JString (Str.toLowerAscii (Str.trim (Str.beforeFirst ";" m)))
  | _ => JNull
  end.

(** The platform, given what the provider's endpoint answers.  Its
    [toLowerCase] folds the ASCII letters only, which is what
    [String.prototype.toLowerCase] does to ASCII text. *)
Definition platform (network : string -> string -> MessagePayload -> FetchOutcome) : Platform :=
  {| hmacSha256Hex := Sha256.hmacHex;
     JSON_stringify := stringify;
     toFiniteNumber := number;
     toLowerCase := Str.toLowerAscii;
     isoFormat := isoString;
     fetchMessages := network;
     getExtensionFromMime := extensionOfMime;
     normalizeMimeType := normalizedMime;
     getMimeTypeFromExtension := mimeOfExtension;
     getMimeType := mimeOfExtension;
     extractRelativeMediaPath := relativeMediaPath;
     buildSignedMediaPath := fun rel => "/media/" ++ rel ++ "?expires=0&signature=0";
     toUrlPath := fun rel => "/media/" ++ rel;
     buildSignedMediaUrlsForMessage := fun m => m;
     toLowerCase_ascii := fun s _ => eq_refl |}.

(** An endpoint that accepts every request and answers with a message id. *)
Definition accepting : string -> string -> MessagePayload -> FetchOutcome :=
  fun _ _ _ =>
    FetchResponse true "{}"
      (Some (JObject [("messages", JArray [JObject [("id", JString "wamid.OUT1")]])])).

(** An endpoint that answers every request with an error status. *)
Definition refusing : string -> string -> MessagePayload -> FetchOutcome :=
  fun _ _ _ => FetchResponse false "{error: upstream unavailable}" None.

End Runtime.

(* ===================================================================== *)
(** ** The specification's vocabulary *)
(* ===================================================================== *)

Module Spec.

(** The extension-sniffing rule in the specification's words: the kind is
    the one of the fixed extension set the extension belongs to, and
    document when it belongs to none (or there is no extension). *)
Definition images : list string := [".jpg"; ".jpeg"; ".png"; ".gif"; ".webp"].
Definition videos : list string := [".mp4"; ".mov"; ".avi"; ".mkv"; ".webm"].
Definition audios : list string := [".mp3"; ".mpeg"; ".ogg"; ".wav"; ".aac"].
Definition documents : list string :=
  [".pdf"; ".doc"; ".docx"; ".xls"; ".xlsx"; ".ppt"; ".pptx"; ".txt"; ".csv"].

Definition kindOfExtension (extension : string) : MessageKind :=
  if Str.includes images extension then KImage
  else if Str.includes videos extension then KVideo
  else if Str.includes audios extension then KAudio
  else KDocument.

(** The media URL without its query string and its fragment: what
    precedes the first [?] or [#]. *)
Fixpoint pathOf (url : string) : string :=
  match url with
  | EmptyString => EmptyString
  | String c r =>
      if Ascii.eqb c "?" || Ascii.eqb c "#" then EmptyString else String c (pathOf r)
  end.

(** The characters a list begins with that satisfy [f], and what follows
    them. *)
Fixpoint leading (f : ascii -> bool) (l : list ascii) : list ascii :=
  match l with
  | [] => []
  | c :: r => if f c then c :: leading f r else []
  end.

Fixpoint behind (f : ascii -> bool) (l : list ascii) : list ascii :=
  match l with
  | [] => []
  | c :: r => if f c then behind f r else l
  end.

Definition isSlash (c : ascii) : bool := Ascii.eqb c "/".
Definition isDot (c : ascii) : bool := Ascii.eqb c ".".

(** The characters of a string, last first. *)
Definition backwards (s : string) : list ascii := rev (list_ascii_of_string s).

(** The last portion of a path, its characters last first: trailing
    slashes aside, what follows the last slash. *)
Definition lastPortion (path : string) : list ascii :=
  leading (fun c => negb (isSlash c)) (behind isSlash (backwards path)).

(** The file extension of a path, as the documentation of [path.extname]
    words it: what the last portion of the path holds from its last dot
    on; nothing when that portion has no dot, or no dot but its first
    character; and, as the implementation has it, nothing for the portion
    [..]. *)
Definition fileExtension (path : string) : string :=
  let portion := lastPortion path in
  let tail := leading (fun c => negb (isDot c)) portion in
  match behind (fun c => negb (isDot c)) portion with
  | [] => EmptyString
  | dot :: [] => EmptyString
  | dot :: stem =>
      if Nat.eqb (List.length stem) 1 && forallb isDot stem && Nat.eqb (List.length tail) 0
      then EmptyString
      else string_of_list_ascii (rev (tail ++ [dot]))
  end.

(** The extension the kind of an outbound media message is read off: the
    file extension of the URL's path. *)
Definition extensionOfUrl (url : string) : string := fileExtension (pathOf url).

(** An extension that is in none of the four fixed sets. *)
Definition unrecognized (extension : string) : bool :=
  negb (Str.includes (images ++ videos ++ audios ++ documents)%list extension).

(** An extension of the usual form: a dot, then one or more characters
    that are neither a dot nor a slash. *)
Definition plainExtension (extension : string) : bool :=
  match extension with
  | String dot e =>
      Ascii.eqb dot "." && Str.nonEmpty e
      && forallb (fun c => negb (isSlash c) && negb (isDot c)) (list_ascii_of_string e)
  | EmptyString => false
  end.

(** The characters of a path, last first, each with its index, and what
    the characters before the last dot of the last portion leave in the
    [preDotState] of [path.extname]: the two notions the comparison of
    [path.extname] with [fileExtension] goes through. *)
Definition countdown (l : list ascii) : list (nat * ascii) :=
  combine (rev (seq 0 (List.length l))) l.

Fixpoint preDot (stem : list ascii) (before : Z) : Z :=
  match stem with
  | [] => before
  | c :: rest => preDot rest (if isDot c then 1 else -1)
  end.


End Spec.

(* ===================================================================== *)
(** ** Vocabulary of the statements about the handlers *)
(* ===================================================================== *)

Section Vocabulary.
Context {platform : Platform}.



(** A time value [Date] can represent; the clock always reads one. *)
Definition validClock (t : Z) : bool := Z.abs t <=? 8640000000000000.


(** The payload of a delivery that carries just the given messages. *)
Definition carrying (msgs : list JsVal) : JsVal :=
  JObject [("entry",
    JArray [JObject [("changes",
      JArray [JObject [("value", JObject [("messages", JArray msgs)])]])]])].



(** The request gets past provider construction and the signature gate. *)
Definition reachesParsing (req : Request) (w : World) : bool :=
  match Routes.createMetaProvider w with
  | inr (provider, instance) => Routes.signatureGate provider instance req w
  | inl _ => false
  end.


(** Two events that differ at most in their time stamp. *)
Definition sameKey (e1 e2 : IncomingMessageEvent) : Prop :=
  ev_from e1 = ev_from e2 /\ ev_providerMessageId e1 = ev_providerMessageId e2
  /\ ev_media e1 = ev_media e2 /\ ev_body e1 = ev_body e2 /\ ev_raw e1 = ev_raw e2.

(** Two computations that both throw, or return related values. *)
Definition related {A} (R : A -> A -> Prop) (r1 r2 : Result A) : Prop :=
  match r1, r2 with
  | inr a, inr b => R a b
  | inl _, inl _ => True
  | _, _ => False
  end.


(** Parts of the world the ingestion loop never writes. *)
Definition sameConfig (w w' : World) : Prop :=
  defaultInstance w' = defaultInstance w /\ processEnv w' = processEnv w
  /\ clock w' = clock w /\ providerCalls w' = providerCalls w.

(** Two worlds that differ at most in the audit log and the clock. *)
Definition recordsEq (w w' : World) : Prop :=
  defaultInstance w' = defaultInstance w /\ processEnv w' = processEnv w
  /\ conversations w' = conversations w /\ messages w' = messages w
  /\ wsClients w' = wsClients w /\ mediaJobs w' = mediaJobs w
  /\ providerCalls w' = providerCalls w.


(** The request carries a signature header that is the HMAC-SHA256 of
    [data] under [secret], with or without the [sha256=] prefix. *)
Definition signedOver (secret data : string) (req : Request) : bool :=
  match req_headers req !! "x-hub-signature-256" with
  | Some header =>
      Str.nonEmpty header
      && String.eqb (Str.removeFirst "sha256=" header) (hmacSha256Hex secret data)
  | None => false
  end.

(** The bytes the signature gate hashes: the raw body when the request
    carries one, else the text [JSON.stringify] gives for the parsed
    body. *)
Definition gateInput (req : Request) (data : string) : Prop :=
  req_rawBody req = Some data
  \/ (req_rawBody req = None /\ JSON_stringify (req_body req) = Some data).



(** The reply target of a send request is one the specification rules
    out: it does not exist, it is outbound, or it belongs to another
    conversation than the one the request resolves. *)
Definition invalidReplyTarget (req : Routes.SendRequest) (w : World) : bool :=
  match Routes.send_replyToMessageId req with
  | None => false
  | Some id =>
      match Storage.getMessageById id w with
      | None => true
      | Some target =>
          match msg_direction target with
          | outbound => true
          | inbound =>
              match snd (Routes.resolveConversation req w) with
              | inr conversation =>
                  negb (Nat.eqb (msg_conversationId target) (conv_id conversation))
              | inl _ => false
              end
          end
      end
  end.

End Vocabulary.

(* ===================================================================== *)
(** ** Concrete worlds and requests *)
(* ===================================================================== *)

Module Scenario.

(** The platform with a provider endpoint that accepts, and with one that
    answers with an error status. *)
Definition online : Platform := Runtime.platform Runtime.accepting.
Definition offline : Platform := Runtime.platform Runtime.refusing.

Definition credentials : gmap string string :=
  {[ "META_TOKEN" := "EAAG-token"; "META_PHONE_NUMBER_ID" := "105500000000001";
     "META_VERIFY_TOKEN" := "verify-me" ]}.

Definition observer : WsClient := {| ws_open := true; ws_sent := [] |}.

(** A fresh deployment configured from the environment, without a
    signature secret; one observer is connected. *)
Definition fresh : World :=
  {| defaultInstance := None;
     processEnv := credentials;
     conversations := [];
     messages := [];
     webhookEvents := [];
     wsClients := [observer];
     mediaJobs := [];
     providerCalls := [];
     clock := 1700000000000 |}.

(** The same deployment with a signature secret. *)
Definition secured : World :=
  mkWorld None (<["META_APP_SECRET" := "s3cret"]> credentials) [] [] [] [observer] [] []
          1700000000000.



Definition textMessage (id : string) : JsVal :=
  JObject [("from", JString "4917055501"); ("id", JString id);
           ("timestamp", JString "1700000000"); ("type", JString "text");
           ("text", JObject [("body", JString "hello")])].

Definition stickerMessage : JsVal :=
  JObject [("from", JString "4917055501"); ("id", JString "wamid.S1");
           ("timestamp", JString "1700000000"); ("type", JString "sticker");
           ("sticker", JObject [("id", JString "media-1")])].

(** The provider's envelope around a list of messages. *)
Definition envelope (msgs : list JsVal) : JsVal :=
  let value :=
    JObject [("messaging_product", JString "whatsapp"); ("messages", JArray msgs)] in
  let change := JObject [("field", JString "messages"); ("value", value)] in
  let entry := JObject [("id", JString "1"); ("changes", JArray [change])] in
  JObject [("object", JString "whatsapp_business_account"); ("entry", JArray [entry])].

Definition post (headers : gmap string string) (rawBody : option string) (body : JsVal)
  : Request :=
  {| req_method := "POST"; req_headers := headers; req_query := JObject [];
     req_body := body; req_rawBody := rawBody |}.

(** An unsigned delivery of one text message. *)
Definition delivery : Request := post ∅ None (envelope [textMessage "wamid.A1"]).

(** An unsigned POST whose body is the empty object. *)
Definition emptyPost : Request := post ∅ None (JObject []).

(** A POST whose raw body holds no byte, signed over those zero bytes. *)
Definition signedEmptyBody : Request :=
  post {[ "x-hub-signature-256" :=
            "sha256=91dfac70c5348b04e1babb8b421ac92cec08b565b49ca16130dccb72503647b7" ]}
       (Some EmptyString) (JObject []).

(** A POST that carries no raw body, signed over the text [{}] that
    [JSON.stringify] gives for its parsed body. *)
Definition signedReserialised : Request :=
  post {[ "x-hub-signature-256" :=
            "sha256=adbde1ce40c89c14215687d5d762a47df6dfaefcfad61e2e86718ffc8498571b" ]}
       None (JObject []).

(** A POST signed over the raw body it carries. *)
Definition rawDelivery : string := "{ }".

Definition signedDelivery : Request :=
  post {[ "x-hub-signature-256" := "sha256=" ++ Sha256.hmacHex "s3cret" rawDelivery ]}
       (Some rawDelivery) (JObject []).

Definition get (query : list (string * JsVal)) : Request :=
  {| req_method := "GET"; req_headers := ∅; req_query := JObject query;
     req_body := JObject []; req_rawBody := None |}.

Definition subscribe (token : string) : Request :=
  get [("hub.mode", JString "subscribe"); ("hub.verify_token", JString token);
       ("hub.challenge", JString "123")].

(** The world after [delivery] was ingested once. *)
Definition ingestedOnce : World :=
  fst (Routes.handleMetaWebhookEvent (platform := online) delivery fresh).

Definition sendTo (to : string) (body : string) : Routes.SendRequest :=
  {| Routes.send_to := Some to; Routes.send_body := Some body;
     Routes.send_media_url := None; Routes.send_conversationId := None;
     Routes.send_replyToMessageId := None; Routes.send_userId := Some "agent-1";
     Routes.send_headers := {[ "host" := "chat.example" ]};
     Routes.send_protocol := "https" |}.

(** A reply in a conversation that does not exist, to a message that does
    not exist. *)
Definition strayReply : Routes.SendRequest :=
  {| Routes.send_to := None; Routes.send_body := Some "hi";
     Routes.send_media_url := None; Routes.send_conversationId := Some 7%nat;
     Routes.send_replyToMessageId := Some 3%nat; Routes.send_userId := None;
     Routes.send_headers := ∅; Routes.send_protocol := "https" |}.

(** A reply, addressed by phone number, to a message that does not
    exist. *)
Definition danglingReply : Routes.SendRequest :=
  {| Routes.send_to := Some "4917055501"; Routes.send_body := Some "hi";
     Routes.send_media_url := None; Routes.send_conversationId := None;
     Routes.send_replyToMessageId := Some 3%nat; Routes.send_userId := None;
     Routes.send_headers := ∅; Routes.send_protocol := "https" |}.

(** The event [delivery] normalises to. *)
Definition helloEvent : IncomingMessageEvent :=
  {| ev_from := JString "4917055501";
     ev_raw := textMessage "wamid.A1";
     ev_providerMessageId := JString "wamid.A1";
     ev_timestamp := "2023-11-14T22:13:20.000Z";
     ev_body := JString "hello";
     ev_media := JUndefined |}.

(** The provider [createMetaProvider] builds in [fresh] and in [secured]. *)
Definition provider : MetaProvider.t :=
  MetaProvider.mk "EAAG-token" "105500000000001" "verify-me" EmptyString "v19.0".

Definition securedProvider : MetaProvider.t :=
  MetaProvider.mk "EAAG-token" "105500000000001" "verify-me" "s3cret" "v19.0".

(** A delivery of one message of a type the parser has no branch for. *)
Definition stickerDelivery : Request := post ∅ None (envelope [stickerMessage]).

(** A media URL with an upper-case extension and a query string. *)
Definition photoUrl : string := "https://cdn.example/uploads/Photo.JPG?size=large".

(** A deployment with nothing configured. *)
Definition unconfigured : World :=
  {| defaultInstance := None; processEnv := ∅; conversations := []; messages := [];
     webhookEvents := []; wsClients := []; mediaJobs := []; providerCalls := [];
     clock := 1700000000000 |}.


End Scenario.

(* ===================================================================== *)
(** ** The routes: the mount point of the webhook *)
(* ===================================================================== *)

Module Mount.

(** [s.replace(/\/{2,}/g, '/')]: every run of slashes becomes one slash. *)
Fixpoint collapseSlashes (s : string) : string :=
  match s with
  | EmptyString => EmptyString
  | String c r =>
      if Ascii.eqb c "/" then
        match r with
        | String c' _ =>
            if Ascii.eqb c' "/" then collapseSlashes r else String c (collapseSlashes r)
        | EmptyString => String c EmptyString
        end
      else String c (collapseSlashes r)
  end.

(** [s.endsWith(c)] for a one-character [c] *)
Fixpoint endsWith (c : ascii) (s : string) : bool :=
  match s with
  | EmptyString => false
  | String x r =>
      match r with
      | EmptyString => Ascii.eqb x c
      | String _ _ => endsWith c r
      end
  end.

(** The step both normalisations share:
    [if (normalized.length > 1 && normalized.endsWith('/'))
       normalized = normalized.replace(/\/+$/, '')]. *)
Definition dropTrailingSlashes (normalized : string) : string :=
  if Nat.ltb 1 (String.length normalized) && endsWith "/" normalized
  then Routes.stripTrailing "/" normalized
  else normalized.

Definition fallback : string := "/webhook/meta".

(** No two slashes in a row. *)
Fixpoint noDouble (s : string) : bool :=
  match s with
  | EmptyString => true
  | String c r =>
      match r with
      | EmptyString => true
      | String c' _ => negb (Ascii.eqb c "/" && Ascii.eqb c' "/") && noDouble r
      end
  end.

(** A path in the form the comparison works on: it starts with a slash,
    has no two slashes in a row and, unless it is the root, does not end
    in a slash. *)
Definition canonical (path : string) : bool :=
  Str.startsWith "/" path && noDouble path
  && (String.eqb path "/" || negb (endsWith "/" path)).

(** [normalizeWebhookPath]; the argument is whatever the stored settings
    or the request body hold. *)
Definition normalizeWebhookPath (inputPath : JsVal) : string :=
  match inputPath with
  | JString inputPath =>
      if Nat.eqb (String.length (Str.trim inputPath)) 0 then fallback
      else
        let normalized := Str.trim inputPath in
        let normalized :=
          if negb (Str.startsWith "/" normalized) then "/" ++ normalized else normalized in
        let normalized := collapseSlashes normalized in
        let normalized := dropTrailingSlashes normalized in
        let normalized :=
          if negb (Str.startsWith "/webhook" normalized)
          then "/webhook" ++ (if String.eqb normalized "/" then EmptyString else normalized)
          else normalized in
        if Str.nonEmpty normalized then normalized else fallback
  | _ => fallback
  end.

(** [normalizeForComparison] *)
Definition normalizeForComparison (value : string) : string :=
  if negb (Str.nonEmpty value) then "/"
  else
    let normalized := if Str.startsWith "/" value then value else "/" ++ value in
    let normalized := collapseSlashes normalized in
    let normalized := dropTrailingSlashes normalized in
    if Str.nonEmpty normalized then normalized else "/".

(** [pathsMatchMetaWebhook], given what the variable [metaWebhookPath]
    holds. *)
Definition pathsMatchMetaWebhook (metaWebhookPath pathToCheck : string) : bool :=
  String.eqb (normalizeForComparison pathToCheck) (normalizeForComparison metaWebhookPath).

(** [updateMetaWebhookPath]: the new value of [metaWebhookPath]. *)
Definition updateMetaWebhookPath (nextPath : JsVal) : string := normalizeWebhookPath nextPath.

Section WithPlatform.
Context {platform : Platform}.

(** The middleware (lines 1174-1188) on a request for [path]; [None] is
    [next()], the request is left to the routes that follow. *)
Definition webhookMiddleware (metaWebhookPath path : string) (req : Request) (w : World)
  : option (World * Response) :=
  if negb (pathsMatchMetaWebhook metaWebhookPath path) then None
  else Some (Routes.metaWebhook req w).

End WithPlatform.
End Mount.

(* ===================================================================== *)
(** ** The routes: conversations and the test webhook *)
(* ===================================================================== *)

Module Endpoints.

(** The handler of [POST /api/conversations] (lines 679-705), for the
    [phone] of the request body and the signed-in user: the response that
    rejects the request, or the conversation the response carries.  The
    display name the request may give is a column the conversation rows of
    this development do not have. *)
Definition createConversation (phone : JsVal) (userId : option string) (w : World)
  : World * (Response + Conversation) :=
  let trimmedPhone :=
    match phone with
    | JString phone => Str.trim phone
    | _ => EmptyString
    end in
  if negb (Str.nonEmpty trimmedPhone)
  then (w, inl (Routes.jsonError 400 "Phone number is required."))
  else
    match Storage.getConversationByPhone (JString trimmedPhone) w with
    | Some conversation => (w, inr conversation)
    | None =>
        let '(w', conversation) :=
          Storage.createConversation (JString trimmedPhone) userId w in
        (w', inr conversation)
    end.

(** [const { k, ... } = v]: the first property of the pattern, a TypeError
    when [v] is [undefined] or [null]. *)
Definition destructured (v : JsVal) (k : string) : Result JsVal :=
  match Js.get v k with
  | Some x => ok x
  | None =>
      throw (TypeError ("Cannot destructure property '" ++ k ++ "' of 'req.body' as it is "
                        ++ (if Js.eqb v JNull then "null" else "undefined") ++ "."))
  end.

(** The handler of [POST /webhook/test] (lines 1319-1367).  [stored] is
    what [storage.getAppSetting('apiControls')] returns.  The message is
    created without a [providerMessageId] and broadcast as stored. *)
Definition webhookTest (stored : JsVal) (req : Request) (w : World) : World * Response :=
  let apiControls := Js.or stored (JObject [("testWebhookEnabled", JBool true)]) in
  if negb (Js.truthy (Js.getOpt apiControls "testWebhookEnabled"))
  then (w, Routes.jsonError 403 "Test webhooks are disabled")
  else
    match destructured (req_body req) "from" with
    | inl error => (w, Routes.jsonError 500 (exn_message error))
    | inr from =>
        let textBody := Js.getOpt (req_body req) "body" in
        let media := Js.getOpt (req_body req) "media" in
        if negb (Js.truthy from)
        then (w, Routes.jsonError 400 "'from' (phone) is required")
        else
          let '(w1, conversation) :=
            match Storage.getConversationByPhone from w with
            | Some conversation => (w, conversation)
            | None => Storage.createConversation from None w
            end in
          let '(w2, message) :=
            Storage.createMessage
              {| new_conversationId := conv_id conversation;
                 new_direction := inbound;
                 new_body := Js.or textBody JNull;
                 new_media := Js.or media JNull;
                 new_providerMessageId := JUndefined;
                 new_status := received;
                 new_replyToMessageId := None;
                 new_raw := req_body req;
                 new_sentByUserId := None |} w1 in
          let w3 := Storage.updateConversationLastAt (conv_id conversation) w2 in
          let w4 :=
            Storage.logWebhookEvent
              (Routes.auditRecord req (req_body req) (Routes.logged 200 "ok")) w3 in
          (Routes.broadcastMessage "message_incoming" message w4,
           {| res_status := 200; res_body := JsonMessage message |})
    end.

End Endpoints.

(* ===================================================================== *)
(** ** Vocabulary of the statements about what the handlers keep *)
(* ===================================================================== *)

Section Bookkeeping.
Context {platform : Platform}.

(** What [for (const x of v)] goes over when the loop is entered at all:
    nothing for a falsy [v]. *)
Definition elements (v : JsVal) : list JsVal :=
  if Js.truthy v then default [] (Js.iterate v) else [].

(** The messages of a webhook payload, in document order. *)
Definition messagesOfChange (change : JsVal) : list JsVal :=
  elements (Js.getOpt (Js.getOpt change "value") "messages").

Definition messagesOfEntry (entry : JsVal) : list JsVal :=
  flat_map messagesOfChange (elements (Js.getOpt entry "changes")).

Definition messagesOf (payload : JsVal) : list JsVal :=
  flat_map messagesOfEntry (elements (Js.getOpt payload "entry")).

(** The message types that carry a media payload. *)
Definition mediaTypes : list string := ["image"; "document"; "video"; "audio"].

(** An event that is what its raw message says: sender and provider id are
    read off the message; a media descriptor is there exactly for a
    message of a media type whose payload of that name is truthy, and it
    is of that type and keeps that payload as its metadata. *)
Definition faithful (event : IncomingMessageEvent) : Prop :=
  ev_from event = Js.getOpt (ev_raw event) "from"
  /\ ev_providerMessageId event = Js.getOpt (ev_raw event) "id"
  /\ (Js.truthy (ev_media event) = true ->
      exists type,
        In type mediaTypes
        /\ Js.getOpt (ev_raw event) "type" = JString type
        /\ Js.truthy (Js.getOpt (ev_raw event) type) = true
        /\ Js.getOpt (ev_media event) "provider" = JString "meta"
        /\ Js.getOpt (ev_media event) "type" = JString type
        /\ Js.getOpt (ev_media event) "metadata" = Js.getOpt (ev_raw event) type)
  /\ (forall type,
        In type mediaTypes ->
        Js.getOpt (ev_raw event) "type" = JString type ->
        Js.truthy (Js.getOpt (ev_raw event) type) = true ->
        Js.truthy (ev_media event) = true)
  /\ (Js.truthy (ev_media event) = false -> ev_media event = JUndefined).

(** A payload the normalisation cannot walk: it is [null] or [undefined],
    its [entry] is truthy and not iterable, or an element of [entry] is
    [null] or [undefined]. *)
Definition malformed (payload : JsVal) : bool :=
  Js.nullish payload
  || (let entry := Js.getOpt payload "entry" in
      Js.truthy entry
      && match Js.iterate entry with
         | Some entries => existsb Js.nullish entries
         | None => true
         end).

(** Two events of the same message, normalised at two times: they differ
    at most in the time stamp, and not even there when the message's
    [timestamp] is a finite number. *)
Definition sameEvent (e1 e2 : IncomingMessageEvent) : Prop :=
  sameKey e1 e2
  /\ (is_Some (toFiniteNumber (Js.getOpt (ev_raw e1) "timestamp")) ->
      ev_timestamp e1 = ev_timestamp e2).

(** The media of a stored inbound message: none, or a descriptor that
    waits for its download (no URL, no storage location, no attempt
    made). *)
Definition awaitsDownload (media : JsVal) : bool :=
  Js.eqb media JNull
  || (Js.eqb (Js.getOpt media "origin") (JString "whatsapp")
      && Js.eqb (Js.getOpt media "status") (JString "pending")
      && Js.eqb (Js.getOpt media "url") JNull
      && Js.eqb (Js.getOpt media "storage") JNull
      && Js.eqb (Js.getOpt media "downloadAttempts") (JNumber 0)).

(** A message as the webhook stores it. *)
Definition storedInbound (m : Message) : Prop :=
  msg_direction m = inbound /\ msg_status m = received
  /\ msg_replyToMessageId m = None /\ msg_sentByUserId m = None
  /\ awaitsDownload (msg_media m) = true.

(** The sockets after each of the messages was broadcast, in order. *)
Definition delivered (event : string) (data : list Message) (clients : list WsClient)
  : list WsClient :=
  map (fun client =>
         if ws_open client
         then mkWsClient (ws_open client)
                (ws_sent client ++ map (mkEnvelope event) data)
         else client)
      clients.

(** A stored message that carries media. *)
Definition carriesMedia (m : Message) : bool := negb (Js.eqb (msg_media m) JNull).

(** What one webhook call did to the tables, given the messages it
    stored: the messages were appended; the audit records it appended name
    exactly those messages; every open socket got exactly those messages,
    signed, in order; and a media ingestion was started for exactly the
    ones that carry media. *)
Record Ledger (w w' : World) (stored : list Message) : Prop := mkLedger {
  ledger_messages : messages w' = (messages w ++ stored)%list;
  ledger_audit :
    exists records,
      webhookEvents w' = (webhookEvents w ++ records)%list
      /\ omap (fun record => logged_messageId (we_response record)) records
         = map msg_id stored;
  ledger_sockets :
    wsClients w'
    = delivered "message_incoming" (map buildSignedMediaUrlsForMessage stored) (wsClients w);
  ledger_jobs :
    exists jobs,
      mediaJobs w' = (mediaJobs w ++ jobs)%list
      /\ map job_messageId jobs = map msg_id (List.filter carriesMedia stored);
  ledger_shape : Forall storedInbound stored;
  ledger_config : sameConfig w w'
}.

(** No two conversations have the same phone. *)
Definition uniquePhones (w : World) : Prop := NoDup (map conv_phone (conversations w)).

(** Every message belongs to a conversation that exists. *)
Definition attached (w : World) : Prop :=
  Forall (fun m => is_Some (Storage.getConversationById (msg_conversationId m) w))
         (messages w).



(** The media of a stored outbound message: none, or an uploaded file
    that is ready. *)
Definition uploaded (media : JsVal) : bool :=
  Js.eqb media JNull
  || (Js.eqb (Js.getOpt media "origin") (JString "upload")
      && Js.eqb (Js.getOpt media "status") (JString "ready")
      && Js.eqb (Js.getOpt media "provider") (JString "local")).

(** A message as the send endpoint stores it. *)
Definition storedOutbound (m : Message) : Prop :=
  msg_direction m = outbound
  /\ (msg_status m = sent \/ (msg_status m = failed /\ msg_providerMessageId m = JNull))
  /\ msg_raw m = JNull
  /\ uploaded (msg_media m) = true.

(** A step from [w] to [w'] that keeps both invariants. *)
Definition keeps (w w' : World) : Prop :=
  (uniquePhones w -> uniquePhones w') /\ (attached w -> attached w').

(** Only digits. *)
Definition allDigits (s : string) : bool := forallb Str.isDigit (list_ascii_of_string s).

(** The [link] and the [caption] of a request body. *)
Definition content_link (c : MessageContent) : option string :=
  match c with
  | ImageContent link _ | VideoContent link _ | AudioContent link
  | DocumentContent link _ _ => Some link
  | TextContent _ => None
  end.

Definition content_caption (c : MessageContent) : option string :=
  match c with
  | ImageContent _ caption | VideoContent _ caption | DocumentContent _ _ caption => caption
  | AudioContent _ | TextContent _ => None
  end.

(** A string without the character. *)
Definition without (c : ascii) (s : string) : bool :=
  forallb (fun x => negb (Ascii.eqb x c)) (list_ascii_of_string s).

End Bookkeeping.

(* ===================================================================== *)
(** ** More concrete requests *)
(* ===================================================================== *)

Module Cases.

Definition photoMessage : JsVal :=
  JObject [("from", JString "4917055501"); ("id", JString "wamid.P1");
           ("timestamp", JString "1700000000"); ("type", JString "image");
           ("image", JObject [("id", JString "media-9"); ("mime_type", JString "image/jpeg");
                              ("caption", JString "look")])].

(** One delivery with a text, a photo and a sticker. *)
Definition album : JsVal :=
  Scenario.envelope [Scenario.textMessage "wamid.A1"; photoMessage; Scenario.stickerMessage].

(** A POST whose [entry] is an object, not an array. *)
Definition brokenPost : Request :=
  Scenario.post ∅ None
    (JObject [("object", JString "whatsapp_business_account");
              ("entry", JObject [("id", JString "1")])]).

(** A message of a type the parser has no branch for, stamped with a
    number of seconds far beyond what [Date] can hold in milliseconds, and
    a delivery that carries it behind an ordinary text message. *)
Definition lateSticker : JsVal :=
  JObject [("from", JString "4917055501"); ("id", JString "wamid.S2");
           ("timestamp", JString "99999999999999"); ("type", JString "sticker")].

Definition lateDelivery : Request :=
  Scenario.post ∅ None (Scenario.envelope [Scenario.textMessage "wamid.A1"; lateSticker]).

(** The conversation a first send to [+49 170 55501] opens in
    [Scenario.fresh], the request that send makes, and what the accepting
    endpoint answers. *)
Definition firstContact : Conversation :=
  mkConversation 1 (JString "+49 170 55501") 1700000000000 false (Some "agent-1").

Definition helloCall : ProviderRequest :=
  {| call_url := "https://graph.facebook.com/v19.0/105500000000001/messages";
     call_bearer := "EAAG-token";
     call_payload :=
       {| messaging_product := "whatsapp"; payload_to := "4917055501";
          payload_content := Some (TextContent "hello") |} |}.

Definition accepted : SendMessageResponse :=
  {| resp_id := JString "wamid.OUT1"; resp_status := "sent" |}.

(** A test delivery. *)
Definition testPost : Request :=
  Scenario.post ∅ None (JObject [("from", JString "4917055501"); ("body", JString "ping")]).

End Cases.

(* ===================================================================== *)
(** * Properties *)
(* ===================================================================== *)

(** ** JavaScript values and the helpers *)

Lemma Js_eqb_eq (a b : JsVal) : Js.eqb a b = true <-> a = b.
Proof.
  revert b. induction a as [| | x | x | x | xs IH | ps IH | x] using Js.JsVal_nested_ind;
    intros [| | y | y | y | ys | qs | y]; simpl; try (split; congruence).
  - rewrite Bool.eqb_true_iff. split; congruence.
  - rewrite Z.eqb_eq. split; congruence.
  - rewrite String.eqb_eq. split; congruence.
  - revert ys. induction IH as [| x xs Hx _ IHxs]; intros [| y ys]; try (split; congruence).
    rewrite andb_true_iff, Hx, IHxs. split; [intros [-> E]; congruence | intros E; split; congruence].
  - revert qs. induction IH as [| [k x] ps Hx _ IHps]; intros [| [k' y] qs]; try (split; congruence).
    simpl in Hx. rewrite !andb_true_iff, String.eqb_eq, Hx, IHps.
    split; [intros [[-> ->] E]; congruence | intros E; repeat split; congruence].
  - rewrite String.eqb_eq. split; congruence.
Qed.


Lemma Js_eqb_neq (a b : JsVal) : Js.eqb a b = false <-> a <> b.
Proof. rewrite <- Js_eqb_eq. destruct (Js.eqb a b); split; congruence. Qed.



Lemma nonEmpty_false (s : string) : Str.nonEmpty s = false <-> s = EmptyString.
Proof.
  unfold Str.nonEmpty. rewrite negb_false_iff. apply String.eqb_eq.
Qed.

Lemma nonEmpty_true (s : string) : Str.nonEmpty s = true <-> s <> EmptyString.
Proof.
  unfold Str.nonEmpty. rewrite negb_true_iff. apply String.eqb_neq.
Qed.

(** The examples of Node's documentation for [path.extname] and
    [path.basename]. *)
Example extname_html : NodePath.extname "index.html" = ".html".
Proof. reflexivity. Qed.
Example extname_coffee_md : NodePath.extname "index.coffee.md" = ".md".
Proof. reflexivity. Qed.
Example extname_no_dot : NodePath.extname "index" = EmptyString.
Proof. reflexivity. Qed.
Example extname_hidden : NodePath.extname ".index" = EmptyString.
Proof. reflexivity. Qed.
Example extname_hidden_md : NodePath.extname ".index.md" = ".md".
Proof. reflexivity. Qed.
Example basename_quux : NodePath.basename "/foo/bar/baz/asdf/quux.html" = "quux.html".
Proof. reflexivity. Qed.

Example extname_jpg : NodePath.extname "https://cdn.example/a/photo.JPG" = ".JPG".
Proof. reflexivity. Qed.
Example extname_dotfile : NodePath.extname "/media/.bashrc" = EmptyString.
Proof. reflexivity. Qed.
Example extname_none : NodePath.extname "/media/upload/" = EmptyString.
Proof. reflexivity. Qed.
Example extname_trailing_dot : NodePath.extname "/a/index." = ".".
Proof. reflexivity. Qed.
Example extname_dotdot : NodePath.extname "/a/.." = EmptyString.
Proof. reflexivity. Qed.
Example extname_two : NodePath.extname "a.tar.gz/" = ".gz".
Proof. reflexivity. Qed.
Example basename_file : NodePath.basename "/media/2024/report.pdf" = "report.pdf".
Proof. reflexivity. Qed.
Example basename_slashes : NodePath.basename "/media/dir///" = "dir".
Proof. reflexivity. Qed.
Example removeFirst_prefix : Str.removeFirst "sha256=" "sha256=ab12" = "ab12".
Proof. reflexivity. Qed.
Example removeFirst_inner : Str.removeFirst "sha256=" "xsha256=ab12sha256=" = "xab12sha256=".
Proof. reflexivity. Qed.
Example digitsOnly_phone : Str.digitsOnly "+49 (170) 555-01" = "4917055501".
Proof. reflexivity. Qed.

(** The implemented digest agrees with the published test vectors. *)
Example sha256_abc :
  Sha256.hex (Sha256.digest (Sha256.bytesOf "abc"))
  = "ba7816bf8f01cfea414140de5dae2223b00361a396177a9cb410ff61f20015ad".
Proof. vm_compute. reflexivity. Qed.

Example hmac_rfc4231_case2 :
  Sha256.hmacHex "Jefe" "what do ya want for nothing?"
  = "5bdcc146bf60754e6a042426089575c75a003f089d2739839dec58b964ec3843".
Proof. vm_compute. reflexivity. Qed.

Example isoString_epoch : Runtime.isoString 1700000000000 = "2023-11-14T22:13:20.000Z".
Proof. vm_compute. reflexivity. Qed.

(** The model on a first delivery, on its redelivery, and on a dispatch the
    provider refuses. *)
Example first_delivery_ingested :
  Routes.handleMetaWebhookEvent (platform := Scenario.online) Scenario.delivery Scenario.fresh
  = (Scenario.ingestedOnce, Routes.text 200 "ok")
  /\ map msg_providerMessageId (messages Scenario.ingestedOnce) = [JString "wamid.A1"]
  /\ map logged_status (map we_response (webhookEvents Scenario.ingestedOnce)) = [200%nat].
Proof. vm_compute. repeat split. Qed.

Example redelivery_absorbed :
  Routes.handleMetaWebhookEvent (platform := Scenario.online) Scenario.delivery
    Scenario.ingestedOnce
  = (Scenario.ingestedOnce, Routes.text 200 "ok").
Proof. vm_compute. reflexivity. Qed.

(** A raw body that holds no byte is a raw body all the same: the
    signature over its zero bytes is accepted. *)
Example empty_raw_body_accepted :
  Routes.rawBodyOf (platform := Scenario.online) Scenario.signedEmptyBody = Some EmptyString
  /\ snd (Routes.handleMetaWebhookEvent (platform := Scenario.online)
            Scenario.signedEmptyBody Scenario.secured)
     = Routes.text 200 "ok - no events".
Proof. vm_compute. repeat split. Qed.

Example refused_dispatch_recorded :
  map msg_status
      (messages (fst (Routes.sendMessage (platform := Scenario.offline)
                        (Scenario.sendTo "+49 170 55501" "hello") Scenario.fresh)))
  = [failed]
  /\ res_status (snd (Routes.sendMessage (platform := Scenario.offline)
                        (Scenario.sendTo "+49 170 55501" "hello") Scenario.fresh))
     = 200%nat.
Proof. vm_compute. repeat split. Qed.

(** A message of a type the parser has no branch for is stored without
    body and without media. *)
Example sticker_stored_bare :
  map (fun m => (msg_direction m, msg_body m, msg_media m, msg_providerMessageId m))
      (messages (fst (Routes.handleMetaWebhookEvent (platform := Scenario.online)
                        Scenario.stickerDelivery Scenario.fresh)))
  = [(inbound, JNull, JNull, JString "wamid.S1")]
  /\ snd (Routes.handleMetaWebhookEvent (platform := Scenario.online)
            Scenario.stickerDelivery Scenario.fresh)
     = Routes.text 200 "ok".
Proof. vm_compute. repeat split. Qed.

(** A reply in a conversation that does not exist is answered 404: the
    conversation is looked up before the reply target. *)
Example stray_reply_not_found :
  res_status (snd (Routes.sendMessage (platform := Scenario.online) Scenario.strayReply
                     Scenario.fresh))
  = 404%nat
  /\ messages (fst (Routes.sendMessage (platform := Scenario.online) Scenario.strayReply
                      Scenario.fresh))
     = messages Scenario.fresh.
Proof. vm_compute. repeat split. Qed.

(* ===================================================================== *)
(** ** [path.extname] and the file extension of a path *)
(* ===================================================================== *)

Section ExtensionProperties.

Lemma countdown_cons (c : ascii) (l : list ascii) :
  Spec.countdown (c :: l) = (List.length l, c) :: Spec.countdown l.
Proof.
  unfold Spec.countdown. cbn [List.length]. rewrite seq_S, rev_app_distr. reflexivity.
Qed.

Lemma combine_snoc {A B} (l : list A) (l' : list B) (x : A) (y : B) :
  List.length l = List.length l' ->
  combine (l ++ [x]) (l' ++ [y]) = (combine l l' ++ [(x, y)])%list.
Proof.
  revert l'. induction l as [| a l IH]; intros [| b l']; cbn; try discriminate; [reflexivity |].
  intros [= Hlen]. now rewrite IH.
Qed.

Lemma rev_combine_seq (cs : list ascii) (k : nat) :
  rev (combine (seq k (List.length cs)) cs) = combine (rev (seq k (List.length cs))) (rev cs).
Proof.
  revert k. induction cs as [| c cs IH]; intros k; [reflexivity |].
  cbn [List.length seq combine rev]. rewrite IH, combine_snoc; [reflexivity |].
  now rewrite !length_rev, length_seq.
Qed.

Lemma indexedRev_countdown (p : string) :
  NodePath.indexedRev p = Spec.countdown (Spec.backwards p).
Proof.
  unfold NodePath.indexedRev, Spec.countdown, Spec.backwards.
  now rewrite rev_combine_seq, length_rev.
Qed.


Lemma leading_behind (f : ascii -> bool) (l : list ascii) :
  l = (Spec.leading f l ++ Spec.behind f l)%list.
Proof. induction l as [| c l IH]; cbn; [reflexivity |]. destruct (f c); cbn; congruence. Qed.

Lemma leading_all (f : ascii -> bool) (l : list ascii) : forallb f (Spec.leading f l) = true.
Proof. induction l as [| c l IH]; cbn; [reflexivity |]. destruct (f c) eqn:Hc; cbn; now rewrite ?Hc. Qed.

Lemma behind_head (f : ascii -> bool) (l : list ascii) (c : ascii) (r : list ascii) :
  Spec.behind f l = c :: r -> f c = false.
Proof.
  induction l as [| x l IH]; cbn; [discriminate |].
  destruct (f x) eqn:Hx; [exact IH | now intros [= <- _]].
Qed.

(** Trailing slashes are passed over. *)
Lemma extScan_slashes (l : list ascii) (st : NodePath.ExtScan) :
  NodePath.matchedSlash st = true ->
  NodePath.extScan (Spec.countdown l) st
  = NodePath.extScan (Spec.countdown (Spec.behind Spec.isSlash l)) st.
Proof.
  intros Hst. induction l as [| c l IH]; [reflexivity |].
  cbn [Spec.behind]. unfold Spec.isSlash at 1. destruct (Ascii.eqb c "/") eqn:Hc; [| reflexivity].
  rewrite countdown_cons. cbn [NodePath.extScan]. now rewrite Hc, Hst.
Qed.

(** The scan once the end of the last portion is known and no dot was
    met: characters that are neither a slash nor a dot change nothing. *)
Lemma extScan_tail (t rest : list ascii) (startPart e : nat) :
  forallb (fun c => negb (Spec.isSlash c)) t = true ->
  forallb (fun c => negb (Spec.isDot c)) t = true ->
  NodePath.extScan (Spec.countdown (t ++ rest))
    (NodePath.mkExtScan None startPart (Some e) false 0)
  = NodePath.extScan (Spec.countdown rest) (NodePath.mkExtScan None startPart (Some e) false 0).
Proof.
  induction t as [| c t IH]; [reflexivity |].
  cbn [forallb]. rewrite !andb_true_iff, !negb_true_iff. unfold Spec.isSlash, Spec.isDot.
  intros [Hslash Hslashes] [Hdot Hdots].
  change ((c :: t) ++ rest)%list with (c :: (t ++ rest))%list.
  rewrite countdown_cons. cbn [NodePath.extScan]. rewrite Hslash, Hdot. cbn.
  now apply IH.
Qed.

(** The state in which the scan meets what precedes the last portion's
    tail, whether the tail is empty or not. *)
Lemma extScan_first (t rest : list ascii) :
  forallb (fun c => negb (Spec.isSlash c)) t = true ->
  forallb (fun c => negb (Spec.isDot c)) t = true ->
  t <> [] ->
  NodePath.extScan (Spec.countdown (t ++ rest)) (NodePath.mkExtScan None 0 None true 0)
  = NodePath.extScan (Spec.countdown rest)
      (NodePath.mkExtScan None 0 (Some (List.length (t ++ rest))) false 0).
Proof.
  destruct t as [| c t]; [contradiction |]. intros Hslashes Hdots _.
  pose proof Hslashes as Hs. pose proof Hdots as Hd.
  cbn [forallb] in Hs, Hd. rewrite !andb_true_iff, !negb_true_iff in Hs, Hd.
  unfold Spec.isSlash, Spec.isDot in Hs, Hd. destruct Hs as [Hslash Hs], Hd as [Hdot Hd].
  change ((c :: t) ++ rest)%list with (c :: (t ++ rest))%list.
  rewrite countdown_cons. cbn [NodePath.extScan]. rewrite Hslash, Hdot. cbn.
  now apply extScan_tail.
Qed.

Lemma extScan_stem (stem rest : list ascii) (sd startPart e : nat) (before : Z) :
  forallb (fun c => negb (Spec.isSlash c)) stem = true ->
  NodePath.extScan (Spec.countdown (stem ++ rest))
    (NodePath.mkExtScan (Some sd) startPart (Some e) false before)
  = NodePath.extScan (Spec.countdown rest)
      (NodePath.mkExtScan (Some sd) startPart (Some e) false (Spec.preDot stem before)).
Proof.
  revert before. induction stem as [| c stem IH]; intros before; [reflexivity |].
  cbn [forallb]. rewrite andb_true_iff, negb_true_iff. unfold Spec.isSlash at 1.
  intros [Hslash Hslashes].
  change ((c :: stem) ++ rest)%list with (c :: (stem ++ rest))%list.
  rewrite countdown_cons. cbn [NodePath.extScan Spec.preDot]. rewrite Hslash. cbn.
  unfold Spec.isDot. destruct (Ascii.eqb c "."); now rewrite (IH _ Hslashes).
Qed.

(** Where the scan stops: at the slash before the last portion, or at the
    start of the path. *)
Lemma extScan_stop (rest : list ascii) (st : NodePath.ExtScan) :
  NodePath.matchedSlash st = false ->
  Spec.behind (fun c => negb (Spec.isSlash c)) rest = rest ->
  NodePath.extScan (Spec.countdown rest) st
  = NodePath.mkExtScan (NodePath.startDot st)
      (match rest with [] => NodePath.startPart st | _ => List.length rest end)
      (NodePath.endIdx st) (NodePath.matchedSlash st) (NodePath.preDotState st).
Proof.
  intros Hst Hrest. destruct rest as [| c rest']; [now destruct st |].
  pose proof (behind_head _ _ _ _ Hrest) as Hc. apply negb_false_iff in Hc.
  unfold Spec.isSlash in Hc.
  rewrite countdown_cons. cbn [NodePath.extScan]. now rewrite Hc, Hst.
Qed.


Lemma substring_skip (a b : list ascii) (n : nat) :
  String.substring (List.length a) n (string_of_list_ascii (a ++ b))
  = String.substring 0 n (string_of_list_ascii b).
Proof. induction a as [| x a IH]; [reflexivity |]. exact IH. Qed.

Lemma substring_take (a b : list ascii) :
  String.substring 0 (List.length a) (string_of_list_ascii (a ++ b)) = string_of_list_ascii a.
Proof. induction a as [| x a IH]; cbn; [now destruct b | now rewrite IH]. Qed.

Lemma preDot_zero (stem : list ascii) : (Spec.preDot stem 0 =? 0) = Nat.eqb (List.length stem) 0.
Proof.
  destruct stem as [| c stem]; [reflexivity |]. cbn [Spec.preDot List.length Nat.eqb].
  assert (forall z, z <> 0 -> Spec.preDot stem z <> 0) as Hkeep.
  { induction stem as [| x stem IH]; intros z Hz; [exact Hz |].
    cbn. apply IH. now destruct (Spec.isDot x). }
  apply Z.eqb_neq, Hkeep. now destruct (Spec.isDot c).
Qed.

(** The state the scan of a path ends in, by the shape of the path:
    [slashes], then the last portion, then [rest]. *)
Lemma extScan_plain (tail rest : list ascii) :
  forallb (fun c => negb (Spec.isSlash c)) tail = true ->
  forallb (fun c => negb (Spec.isDot c)) tail = true ->
  Spec.behind (fun c => negb (Spec.isSlash c)) rest = rest ->
  Spec.behind Spec.isSlash (tail ++ rest) = (tail ++ rest)%list ->
  NodePath.startDot
    (NodePath.extScan (Spec.countdown (tail ++ rest)) (NodePath.mkExtScan None 0 None true 0))
  = None.
Proof.
  intros Hslash Hdot Hrest Hhead. destruct tail as [| c tail'].
  - cbn [app] in *. destruct rest as [| c rest']; [reflexivity |].
    apply behind_head in Hrest, Hhead. rewrite Hhead in Hrest. discriminate.
  - rewrite extScan_first by (assumption || discriminate).
    now rewrite extScan_stop by (reflexivity || exact Hrest).
Qed.

Lemma extScan_dotted (tail stem rest : list ascii) (dot : ascii) :
  forallb (fun c => negb (Spec.isSlash c)) tail = true ->
  forallb (fun c => negb (Spec.isDot c)) tail = true ->
  Spec.isDot dot = true ->
  forallb (fun c => negb (Spec.isSlash c)) stem = true ->
  Spec.behind (fun c => negb (Spec.isSlash c)) rest = rest ->
  NodePath.extScan (Spec.countdown (tail ++ dot :: stem ++ rest))
    (NodePath.mkExtScan None 0 None true 0)
  = NodePath.mkExtScan (Some (List.length (stem ++ rest)))
      (List.length rest) (Some (List.length (tail ++ dot :: stem ++ rest))) false
      (Spec.preDot stem 0).
Proof.
  intros Hslash Hdots Hdot Hstem Hrest.
  assert (Ascii.eqb dot "/" = false) as Hdslash.
  { unfold Spec.isDot in Hdot. apply Ascii.eqb_eq in Hdot. now subst dot. }
  unfold Spec.isDot in Hdot.
  assert (match rest with [] => O | _ => List.length rest end = List.length rest) as Hlen
    by now destruct rest.
  destruct tail as [| c tail'].
  - cbn [app]. rewrite countdown_cons. cbn [NodePath.extScan].
    rewrite Hdslash, Hdot. cbn.
    rewrite extScan_stem by exact Hstem.
    rewrite extScan_stop by (reflexivity || exact Hrest). cbn. now rewrite Hlen.
  - rewrite extScan_first by (assumption || discriminate).
    rewrite countdown_cons. cbn [NodePath.extScan].
    rewrite Hdslash, Hdot. cbn.
    rewrite extScan_stem by exact Hstem.
    rewrite extScan_stop by (reflexivity || exact Hrest). cbn. now rewrite Hlen.
Qed.

(** [path.extname] returns the file extension of the path. *)
Lemma extname_fileExtension (p : string) : NodePath.extname p = Spec.fileExtension p.
Proof.
  unfold NodePath.extname, Spec.fileExtension, Spec.lastPortion.
  rewrite indexedRev_countdown, extScan_slashes by reflexivity.
  assert (p = string_of_list_ascii (rev (Spec.backwards p))) as Hp.
  { unfold Spec.backwards. now rewrite rev_involutive, string_of_list_ascii_of_string. }
  pose proof (leading_behind Spec.isSlash (Spec.backwards p)) as Hslashes.
  set (slashes := Spec.leading Spec.isSlash (Spec.backwards p)) in *.
  set (l := Spec.behind Spec.isSlash (Spec.backwards p)) in *.
  pose proof (leading_behind (fun c => negb (Spec.isSlash c)) l) as Hportion.
  pose proof (leading_all (fun c => negb (Spec.isSlash c)) l) as Hplain.
  assert (Spec.behind (fun c => negb (Spec.isSlash c))
            (Spec.behind (fun c => negb (Spec.isSlash c)) l)
          = Spec.behind (fun c => negb (Spec.isSlash c)) l) as Hrest.
  { clear. induction l as [| c l IH]; [reflexivity |]. cbn.
    destruct (negb (Spec.isSlash c)) eqn:Hc; [exact IH |]. cbn. now rewrite Hc. }
  set (portion := Spec.leading (fun c => negb (Spec.isSlash c)) l) in *.
  set (rest := Spec.behind (fun c => negb (Spec.isSlash c)) l) in *.
  pose proof (leading_behind (fun c => negb (Spec.isDot c)) portion) as Htail.
  pose proof (leading_all (fun c => negb (Spec.isDot c)) portion) as Hdots.
  set (tail := Spec.leading (fun c => negb (Spec.isDot c)) portion) in *.
  assert (forallb (fun c => negb (Spec.isSlash c)) tail = true
          /\ forallb (fun c => negb (Spec.isSlash c))
               (Spec.behind (fun c => negb (Spec.isDot c)) portion) = true) as [Htslash Hsslash].
  { rewrite Htail, forallb_app in Hplain. now apply andb_true_iff in Hplain. }
  assert (Spec.behind Spec.isSlash l = l) as Hhead.
  { unfold l. clear. induction (Spec.backwards p) as [| c r IH]; [reflexivity |]. cbn.
    destruct (Spec.isSlash c) eqn:Hc; [exact IH |]. cbn. now rewrite Hc. }
  clearbody tail rest portion l slashes.
  destruct (Spec.behind (fun c => negb (Spec.isDot c)) portion) as [| dot stem] eqn:Hbehind.
  - (* no dot in the last portion *)
    rewrite app_nil_r in Htail. subst portion l.
    now rewrite extScan_plain.
  - pose proof (behind_head _ _ _ _ Hbehind) as Hdot. apply negb_false_iff in Hdot.
    cbn [forallb] in Hsslash. apply andb_true_iff in Hsslash as [_ Hsslash].
    subst portion l. rewrite <- app_assoc. cbn [app].
    rewrite (extScan_dotted tail stem rest dot) by assumption.
    cbn [NodePath.startDot NodePath.endIdx NodePath.preDotState NodePath.startPart].
    rewrite preDot_zero.
    destruct stem as [| c stem']; [reflexivity |].
    cbn [List.length Nat.eqb orb].
    set (stem := c :: stem') in *.
    assert (Spec.backwards p
            = (rev (rev (stem ++ rest) ++ (dot :: rev tail) ++ rev slashes))%list) as Hshape.
    { rewrite Hslashes, !rev_app_distr, rev_involutive. cbn [rev].
      rewrite !rev_involutive, <- !app_assoc. reflexivity. }
    assert (substring (List.length (stem ++ rest))
              (List.length (tail ++ dot :: stem ++ rest) - List.length (stem ++ rest)) p
            = string_of_list_ascii (rev (tail ++ [dot]))) as ->.
    { rewrite Hp, Hshape, rev_involutive.
      rewrite <- (length_rev (stem ++ rest)) at 1. rewrite substring_skip.
      replace (List.length (tail ++ dot :: stem ++ rest) - List.length (stem ++ rest))%nat
        with (List.length (dot :: rev tail)).
      2: { cbn [List.length]. rewrite !length_app, length_rev. cbn [List.length].
           rewrite !length_app. lia. }
      rewrite substring_take, rev_app_distr. reflexivity. }
    assert ((Spec.preDot stem 0 =? 1)
            && Nat.eqb (List.length (stem ++ rest))
                 (List.length (tail ++ dot :: stem ++ rest) - 1)
            && Nat.eqb (List.length (stem ++ rest)) (List.length rest + 1)
            = Nat.eqb (List.length stem') 0 && forallb Spec.isDot stem
              && Nat.eqb (List.length tail) 0) as ->; [| reflexivity].
    unfold stem. rewrite !length_app. cbn [List.length]. rewrite !length_app.
    destruct stem' as [| c' stem'']; cbn [List.length Spec.preDot forallb];
      repeat match goal with
             | |- context [Nat.eqb ?a ?b] => destruct (Nat.eqb_spec a b)
             end; try lia; rewrite ?andb_false_r; try reflexivity.
    now destruct (Spec.isDot c).
Qed.


Lemma normalizedUrl_pathOf (url : string) : MetaProvider.normalizedUrl url = Spec.pathOf url.
Proof.
  unfold MetaProvider.normalizedUrl. induction url as [| c r IH]; [reflexivity |].
  cbn [Str.beforeFirst Spec.pathOf].
  destruct (Ascii.eqb c "?"); [reflexivity |]. cbn [Str.beforeFirst orb].
  destruct (Ascii.eqb c "#"); [reflexivity |]. now rewrite IH.
Qed.

Lemma leading_app (f : ascii -> bool) (a b : list ascii) :
  forallb f a = true -> Spec.leading f (a ++ b) = (a ++ Spec.leading f b)%list.
Proof.
  induction a as [| x a IH]; [reflexivity |]. cbn. rewrite andb_true_iff.
  intros [-> Ha]. now rewrite IH.
Qed.

Lemma behind_app (f : ascii -> bool) (a b : list ascii) :
  forallb f a = true -> Spec.behind f (a ++ b) = Spec.behind f b.
Proof.
  induction a as [| x a IH]; [reflexivity |]. cbn. rewrite andb_true_iff.
  intros [-> Ha]. now apply IH.
Qed.

Lemma list_ascii_of_string_app (s t : string) :
  list_ascii_of_string (s ++ t) = (list_ascii_of_string s ++ list_ascii_of_string t)%list.
Proof.
  induction s as [| c s IH]; [reflexivity |].
  change (String c s ++ t) with (String c (s ++ t)). cbn. now rewrite IH.
Qed.

(** A path that ends in a file-name character followed by a dot and
    letters has those as its file extension. *)
Lemma fileExtension_suffix (front : string) (c : ascii) (extension : string) :
  Spec.plainExtension extension = true -> c <> "/"%char ->
  Spec.fileExtension (front ++ String c extension) = extension.
Proof.
  unfold Spec.plainExtension. destruct extension as [| dot e]; [discriminate |].
  rewrite !andb_true_iff. intros [[Hdot He] Hplain] Hc.
  apply Ascii.eqb_eq in Hdot. subst dot.
  apply Ascii.eqb_neq in Hc.
  set (tail := rev (list_ascii_of_string e)).
  assert (forallb (fun x => negb (Spec.isSlash x)) tail = true
          /\ forallb (fun x => negb (Spec.isDot x)) tail = true) as [Hslash Hdots].
  { unfold tail. rewrite !forallb_forall in *. split; intros x Hx; apply in_rev in Hx;
      apply Hplain in Hx; apply andb_true_iff in Hx; tauto. }
  assert (tail <> []) as Htail.
  { unfold tail. intros Hnil. apply (f_equal (@List.length ascii)) in Hnil.
    rewrite length_rev in Hnil. now destruct e. }
  unfold Spec.fileExtension, Spec.lastPortion, Spec.backwards.
  rewrite list_ascii_of_string_app. cbn [list_ascii_of_string]. rewrite rev_app_distr.
  cbn [rev]. rewrite <- !app_assoc. cbn [app]. fold tail.
  assert (Spec.behind Spec.isSlash (tail ++ "."%char :: c :: rev (list_ascii_of_string front))
          = (tail ++ "."%char :: c :: rev (list_ascii_of_string front))%list) as ->.
  { destruct tail as [| x tail']; [contradiction |]. cbn in Hslash |- *.
    apply andb_true_iff in Hslash as [Hx _]. apply negb_true_iff in Hx. now rewrite Hx. }
  rewrite leading_app by exact Hslash. cbn [Spec.leading]. unfold Spec.isSlash at 1 2.
  rewrite Hc. cbn [Ascii.eqb Bool.eqb negb].
  rewrite leading_app, behind_app by exact Hdots.
  cbn [Spec.leading Spec.behind Spec.isDot Ascii.eqb Bool.eqb negb].
  rewrite app_nil_r.
  replace (Nat.eqb (List.length tail) 0) with false
    by (symmetry; apply Nat.eqb_neq; now destruct tail).
  rewrite andb_false_r. rewrite rev_app_distr. cbn [rev app]. unfold tail.
  rewrite rev_involutive. cbn [string_of_list_ascii].
  now rewrite string_of_list_ascii_of_string.
Qed.

End ExtensionProperties.

(* ===================================================================== *)
(** ** The provider adapter *)
(* ===================================================================== *)

Section ProviderProperties.
Context {platform : Platform}.

(** C3. [verifyWebhookSignature] has the asymmetric bypass policy: with no
    app secret configured the check passes whatever the request carries
    (signature header or not); with an app secret configured and the
    signature header absent it fails. *)
Theorem verifyWebhookSignature_bypass_policy
    (p : MetaProvider.t) (request : Request) (rawBody : option string) :
  (MetaProvider.appSecret p = EmptyString ->
   MetaProvider.verifyWebhookSignature p request rawBody = true)
  /\ (MetaProvider.appSecret p <> EmptyString ->
      req_headers request !! "x-hub-signature-256" = None ->
      MetaProvider.verifyWebhookSignature p request rawBody = false).
Proof.
  unfold MetaProvider.verifyWebhookSignature. split.
  - intros Hsecret. rewrite Hsecret. simpl.
    now destruct (negb (Str.truthyOpt (req_headers request !! "x-hub-signature-256"))).
  - intros Hsecret Habsent. rewrite Habsent. simpl.
    apply nonEmpty_true in Hsecret. now rewrite Hsecret.
Qed.

(** The kind of an outbound request with a media URL is decided by the
    four membership tests alone. *)
Lemma messagePayload_media_kind (to : string) (body : option string) (url : string) :
  url <> EmptyString ->
  payload_type (MetaProvider.messagePayload to body (Some url))
  = Some (Spec.kindOfExtension (MetaProvider.extensionOf url)).
Proof.
  intros Hurl. apply nonEmpty_true in Hurl.
  unfold MetaProvider.messagePayload, payload_type, Spec.kindOfExtension.
  cbn [payload_content]. rewrite Hurl.
  change Spec.images with MetaProvider.asImage.
  change Spec.videos with MetaProvider.asVideo.
  change Spec.audios with MetaProvider.asAudio.
  destruct (Str.includes MetaProvider.asImage _); [reflexivity |].
  destruct (Str.includes MetaProvider.asVideo _); [reflexivity |].
  destruct (Str.includes MetaProvider.asAudio _); [reflexivity |].
  now destruct (_ || _).
Qed.

Lemma includes_app (l1 l2 : list string) (s : string) :
  Str.includes (l1 ++ l2)%list s = Str.includes l1 s || Str.includes l2 s.
Proof. unfold Str.includes. apply existsb_app. Qed.

Lemma includes_In (l : list string) (s : string) : In s l -> Str.includes l s = true.
Proof.
  intros Hin. unfold Str.includes. apply existsb_exists. exists s.
  split; [exact Hin | apply String.eqb_refl].
Qed.

Lemma unrecognized_document (extension : string) :
  Spec.unrecognized extension = true -> Spec.kindOfExtension extension = KDocument.
Proof.
  unfold Spec.unrecognized, Spec.kindOfExtension. rewrite negb_true_iff, !includes_app.
  intros H. apply orb_false_elim in H as [Hi H]. apply orb_false_elim in H as [Hv H].
  apply orb_false_elim in H as [Ha _]. now rewrite Hi, Hv, Ha.
Qed.

(** The extension [send] looks at is the lower-cased file extension of the
    URL's path. *)
Lemma extensionOf_fileExtension (url : string) :
  MetaProvider.extensionOf url = toLowerCase (Spec.extensionOfUrl url).
Proof.
  unfold MetaProvider.extensionOf, Spec.extensionOfUrl.
  now rewrite normalizedUrl_pathOf, extname_fileExtension.
Qed.

(** The listed extensions are of the usual form and in lower case. *)
Lemma listed_plain (extension : string) :
  In extension (Spec.images ++ Spec.videos ++ Spec.audios ++ Spec.documents)%list ->
  Spec.plainExtension extension = true /\ toLowerCase extension = extension.
Proof.
  intros Hin.
  assert (forallb (fun e => Spec.plainExtension e && Str.isAscii e
                            && String.eqb (Str.toLowerAscii e) e)
            (Spec.images ++ Spec.videos ++ Spec.audios ++ Spec.documents)%list = true)
    as Hall by reflexivity.
  rewrite forallb_forall in Hall. specialize (Hall extension Hin).
  rewrite !andb_true_iff, String.eqb_eq in Hall. destruct Hall as [[Hplain Hascii] Hlower].
  split; [exact Hplain |]. now rewrite toLowerCase_ascii.
Qed.

(** C7. The payload construction of [send] chooses the message kind from
    the media URL's file extension alone, by the fixed extension sets.
    For every recipient and body, a call with a media URL gets the kind
    that the extension-sniffing rule gives for the file extension of the
    URL (that of its path, query string and fragment aside), lower-cased;
    so the recipient and the body have no part in it.  An extension in
    none of the sets, the absent one included, gives the document kind.
    In particular a URL whose path ends in a file name followed by one of
    the listed extensions gets the kind of the set that extension is in.
    And a call with a body and no media URL gets the text kind. *)
Theorem messagePayload_kind (to : string) (body mediaUrl : option string) :
  (forall url, mediaUrl = Some url -> url <> EmptyString ->
     let kind := payload_type (MetaProvider.messagePayload to body mediaUrl) in
     kind = Some (Spec.kindOfExtension (toLowerCase (Spec.extensionOfUrl url)))
     /\ (Spec.unrecognized (toLowerCase (Spec.extensionOfUrl url)) = true ->
         kind = Some KDocument)
     /\ (Spec.extensionOfUrl url = EmptyString -> kind = Some KDocument)
     /\ (forall front name extension,
           Spec.pathOf url = front ++ String name extension -> name <> "/"%char ->
           (In extension Spec.images -> kind = Some KImage)
           /\ (In extension Spec.videos -> kind = Some KVideo)
           /\ (In extension Spec.audios -> kind = Some KAudio)
           /\ (In extension Spec.documents -> kind = Some KDocument)))
  /\ (Str.truthyOpt mediaUrl = false -> Str.truthyOpt body = true ->
      payload_type (MetaProvider.messagePayload to body mediaUrl) = Some KText).
Proof.
  split.
  - intros url -> Hurl. cbn zeta.
    rewrite (messagePayload_media_kind to body url Hurl), extensionOf_fileExtension.
    split; [reflexivity | split; [| split]].
    + intros Hun. now rewrite unrecognized_document.
    + intros ->. now rewrite toLowerCase_ascii.
    + intros front name extension Hpath Hname.
      assert (In extension (Spec.images ++ Spec.videos ++ Spec.audios ++ Spec.documents)%list ->
              toLowerCase (Spec.extensionOfUrl url) = extension) as Hlisted.
      { intros Hin. destruct (listed_plain extension Hin) as [Hplain Hlower].
        unfold Spec.extensionOfUrl. rewrite Hpath, fileExtension_suffix by assumption.
        exact Hlower. }
      assert (forall e, In e Spec.images -> Spec.kindOfExtension e = KImage) as Himage.
      { intros e He. unfold Spec.kindOfExtension. now rewrite includes_In. }
      assert (forall e, In e Spec.videos -> Spec.kindOfExtension e = KVideo) as Hvideo.
      { intros e He. repeat destruct He as [<- | He]; try reflexivity. destruct He. }
      assert (forall e, In e Spec.audios -> Spec.kindOfExtension e = KAudio) as Haudio.
      { intros e He. repeat destruct He as [<- | He]; try reflexivity. destruct He. }
      assert (forall e, In e Spec.documents -> Spec.kindOfExtension e = KDocument) as Hdocument.
      { intros e He. repeat destruct He as [<- | He]; try reflexivity. destruct He. }
      split; [| split; [| split]]; intros Hin;
        (rewrite Hlisted by (rewrite !in_app_iff; auto)); f_equal; auto.
  - intros Hmedia Hbody. unfold MetaProvider.messagePayload, payload_type.
    cbn [payload_content]. destruct mediaUrl as [url |].
    + simpl in Hmedia. rewrite Hmedia, Hbody. reflexivity.
    + rewrite Hbody. reflexivity.
Qed.

End ProviderProperties.

(* ===================================================================== *)
(** ** Normalisation of inbound payloads *)
(* ===================================================================== *)

Section ParsingProperties.
Context {platform : Platform}.


Lemma collect_one {A B} (f : A -> Result (list B)) (x : A) (y : B) (rest : list A) :
  f x = ok [y] ->
  collect f (x :: rest) = (zs ← collect f rest; ok (y :: zs)).
Proof. intros Hx. cbn [collect]. rewrite Hx. reflexivity. Qed.


Lemma getOpt_get (v : JsVal) (k : string) (x : JsVal) :
  Js.get v k = Some x -> Js.getOpt v k = x.
Proof. intros H. unfold Js.getOpt. now rewrite H. Qed.



Lemma conversationFor_fields (event : IncomingMessageEvent) (w : World) :
  let w1 := fst (Routes.conversationFor event w) in
  messages w1 = messages w /\ webhookEvents w1 = webhookEvents w
  /\ wsClients w1 = wsClients w /\ mediaJobs w1 = mediaJobs w
  /\ providerCalls w1 = providerCalls w /\ clock w1 = clock w
  /\ defaultInstance w1 = defaultInstance w /\ processEnv w1 = processEnv w.
Proof.
  unfold Routes.conversationFor.
  destruct (Storage.getConversationByPhone (ev_from event) w); cbn; repeat split.
Qed.





End ParsingProperties.

(* ===================================================================== *)
(** ** Ingestion: the loop over the events of one webhook call *)
(* ===================================================================== *)

Section IngestionProperties.
Context {platform : Platform}.

Lemma find_app_cases {A} (f : A -> bool) (l l' : list A) :
  find f (l ++ l')%list = match find f l with
                          | Some x => Some x
                          | None => find f l'
                          end.
Proof.
  induction l as [| x l IH]; cbn; [reflexivity |]. now destruct (f x).
Qed.







End IngestionProperties.

Section ReplayProperties.
Context {platform : Platform}.







End ReplayProperties.

Section ClockProperties.
Context {platform : Platform}.


Lemma sameKey_refl (e : IncomingMessageEvent) : sameKey e e.
Proof. unfold sameKey. tauto. Qed.



Lemma collect_related {A B} (R : B -> B -> Prop) (f g : A -> Result (list B)) (l : list A) :
  (forall x, related (Forall2 R) (f x) (g x)) ->
  related (Forall2 R) (collect f l) (collect g l).
Proof.
  intros Hfg. induction l as [| x l IH]; cbn; [constructor |].
  specialize (Hfg x). destruct (f x), (g x); cbn in *; try tauto.
  destruct (collect f l), (collect g l); cbn in *; try tauto.
  now apply Forall2_app.
Qed.




Lemma sameKey_identified (es es' : list IncomingMessageEvent) :
  Forall2 sameKey es es' ->
  forallb (fun event => Js.truthy (ev_providerMessageId event)) es
  = forallb (fun event => Js.truthy (ev_providerMessageId event)) es'.
Proof.
  induction 1 as [| e e' es es' (_ & Hid & _) _ IH]; cbn; [reflexivity |].
  now rewrite Hid, IH.
Qed.

End ClockProperties.

Section DeliveryProperties.
Context {platform : Platform}.


Lemma recordsEq_sym (w w' : World) : recordsEq w w' -> recordsEq w' w.
Proof. unfold recordsEq. intuition congruence. Qed.











End DeliveryProperties.

(* ===================================================================== *)
(** ** The webhook handlers *)
(* ===================================================================== *)

Section WebhookProperties.
Context {platform : Platform}.

Lemma nonEmpty_orEmpty (o : option string) : Str.nonEmpty (Str.orEmpty o) = Str.truthyOpt o.
Proof. now destruct o. Qed.

Lemma truthyOpt_orOpt_same (o : option string) : Str.truthyOpt (Str.orOpt o o) = Str.truthyOpt o.
Proof. unfold Str.orOpt. now destruct (Str.truthyOpt o) eqn:H. Qed.

(** The provider is built from the stored instance, and its secret is the
    one [hasAppSecret] looks for. *)
Lemma createMetaProvider_secret (w : World) (provider : MetaProvider.t)
    (instance : option WhatsappInstanceConfig) :
  Routes.createMetaProvider w = inr (provider, instance) ->
  instance = defaultInstance w
  /\ Str.nonEmpty (MetaProvider.appSecret provider) = Routes.hasAppSecret instance (processEnv w).
Proof.
  unfold Routes.createMetaProvider, Storage.getDefaultWhatsappInstance, Routes.hasAppSecret.
  destruct (defaultInstance w) as [i |].
  - destruct (bool_decide _); [discriminate |].
    destruct (_ || _); [discriminate |].
    intros [= <- <-]. split; [reflexivity |]. cbn. apply nonEmpty_orEmpty.
  - intros [= <- <-]. split; [reflexivity |]. cbn.
    rewrite nonEmpty_orEmpty. apply truthyOpt_orOpt_same.
Qed.

(** What [verifyWebhookSignature] computes when a secret is set. *)
Lemma verifyWebhookSignature_signed (p : MetaProvider.t) (req : Request) (data : string) :
  Str.nonEmpty (MetaProvider.appSecret p) = true ->
  MetaProvider.verifyWebhookSignature p req (Some data)
  = signedOver (MetaProvider.appSecret p) data req.
Proof.
  intros Hsecret. unfold MetaProvider.verifyWebhookSignature, signedOver.
  rewrite Hsecret. cbn [negb].
  destruct (req_headers req !! "x-hub-signature-256") as [header |]; [| reflexivity].
  cbn [Str.truthyOpt Str.orEmpty]. destruct (Str.nonEmpty header); [| reflexivity].
  cbn [negb andb]. unfold MetaProvider.timingSafeEqual.
  destruct (Nat.eqb _ _) eqn:Hlen; [reflexivity |].
  symmetry. apply String.eqb_neq. intros Heq. rewrite Heq, Nat.eqb_refl in Hlen. discriminate.
Qed.

Lemma gateInput_rawBodyOf (req : Request) (data : string) :
  gateInput req data <-> Routes.rawBodyOf req = Some data.
Proof.
  unfold gateInput, Routes.rawBodyOf. split.
  - intros [-> | [-> ->]]; reflexivity.
  - destruct (req_rawBody req); intros H; [now left | right; now split].
Qed.

Lemma ingestPayload_status (provider : MetaProvider.t) (req : Request) (w : World) :
  res_status (snd (Routes.ingestPayload provider req w)) = 200%nat
  \/ res_status (snd (Routes.ingestPayload provider req w)) = 500%nat.
Proof.
  unfold Routes.ingestPayload.
  destruct (MetaProvider.parseIncoming _ _); [now right |].
  destruct (Nat.eqb _ _); [now left |].
  destruct (Routes.processEvents _ _ _) as [w' [e | u]]; [now right | now left].
Qed.

(** C2, as the code has it.  With a signature secret configured and the
    provider constructed, the gate hashes the raw body when the request
    carries one, and the [JSON.stringify] text of the parsed body
    otherwise.  A request whose signature header is absent or
    is not the HMAC-SHA256 of those bytes is answered 401 with an audit
    record and nothing else: the body is not parsed and no message is
    stored.  A request whose header is the HMAC-SHA256 of those bytes
    passes the gate and is handled by the ingestion path. *)
Theorem signature_gate_enforced (req : Request) (w : World)
    (provider : MetaProvider.t) (instance : option WhatsappInstanceConfig) :
  Routes.createMetaProvider w = inr (provider, instance) ->
  Routes.hasAppSecret instance (processEnv w) = true ->
  ((forall data, gateInput req data ->
                 signedOver (MetaProvider.appSecret provider) data req = false) ->
   Routes.handleMetaWebhookEvent req w = Routes.rejectSignature req w
   /\ res_status (snd (Routes.handleMetaWebhookEvent req w)) = 401%nat
   /\ messages (fst (Routes.handleMetaWebhookEvent req w)) = messages w)
  /\ (forall data, gateInput req data ->
                   signedOver (MetaProvider.appSecret provider) data req = true ->
       Routes.handleMetaWebhookEvent req w = Routes.ingestPayload provider req w
       /\ res_status (snd (Routes.handleMetaWebhookEvent req w)) <> 401%nat).
Proof.
  intros Hprov Hsecret.
  destruct (createMetaProvider_secret w provider instance Hprov) as (_ & Hkey).
  rewrite Hsecret in Hkey.
  unfold Routes.handleMetaWebhookEvent, Routes.signatureGate. rewrite Hprov, Hsecret.
  split.
  - intros Hunsigned.
    assert (MetaProvider.verifyWebhookSignature provider req (Routes.rawBodyOf req) = false)
      as ->; [| repeat split].
    destruct (Routes.rawBodyOf req) as [data |] eqn:Hraw.
    + rewrite (verifyWebhookSignature_signed provider req data Hkey).
      apply Hunsigned. now apply gateInput_rawBodyOf.
    + unfold MetaProvider.verifyWebhookSignature. rewrite Hkey. cbn [negb].
      now destruct (negb (Str.truthyOpt _)).
  - intros data Hdata Hsigned. apply gateInput_rawBodyOf in Hdata. rewrite Hdata.
    rewrite (verifyWebhookSignature_signed provider req data Hkey), Hsigned. cbn [negb].
    split; [reflexivity |].
    destruct (ingestPayload_status provider req w) as [-> | ->]; discriminate.
Qed.



End WebhookProperties.

Section AuditProperties.
Context {platform : Platform}.







End AuditProperties.

(* ===================================================================== *)
(** ** The send endpoint *)
(* ===================================================================== *)

Section SendProperties.
Context {platform : Platform}.

Lemma find_above {A} (id : A -> nat) (rows : list A) (bound : nat) :
  Forall (fun row => id row <= bound)%nat rows ->
  find (fun row => Nat.eqb (id row) (S bound)) rows = None.
Proof.
  induction 1 as [| row rows' Hrow _ IH]; cbn; [reflexivity |].
  replace (Nat.eqb (id row) (S bound)) with false by (symmetry; apply Nat.eqb_neq; lia).
  exact IH.
Qed.

(** No stored row has the identity the next row gets. *)
Lemma freshId_unused {A} (id : A -> nat) (rows : list A) :
  find (fun row => Nat.eqb (id row) (Storage.freshId (map id rows))) rows = None.
Proof.
  unfold Storage.freshId. apply find_above.
  pose proof (proj1 (list_max_le (map id rows) (list_max (map id rows))) (Nat.le_refl _)) as H.
  now apply List.Forall_map in H.
Qed.

Lemma resolveConversation_fields (req : Routes.SendRequest) (w : World) :
  let w1 := fst (Routes.resolveConversation req w) in
  messages w1 = messages w /\ wsClients w1 = wsClients w
  /\ providerCalls w1 = providerCalls w /\ webhookEvents w1 = webhookEvents w.
Proof.
  unfold Routes.resolveConversation.
  destruct (Routes.send_conversationId req) as [id |].
  - destruct (Storage.getConversationById id w); cbn; tauto.
  - destruct (negb _); [cbn; tauto |].
    destruct (Storage.getConversationByPhone _ w); cbn; tauto.
Qed.

Lemma resolveConversation_config (req : Routes.SendRequest) (w : World) :
  let w1 := fst (Routes.resolveConversation req w) in
  clock w1 = clock w /\ defaultInstance w1 = defaultInstance w /\ processEnv w1 = processEnv w.
Proof.
  unfold Routes.resolveConversation.
  destruct (Routes.send_conversationId req) as [id |].
  - destruct (Storage.getConversationById id w); cbn; tauto.
  - destruct (negb _); [cbn; tauto |].
    destruct (Storage.getConversationByPhone _ w); cbn; tauto.
Qed.

(** C8. A send request that passes validation, resolves its conversation
    and, when it is a reply, has a valid target, whose provider can be
    constructed and for which only the dispatch to the provider fails, is
    not failed: the outbound message is stored with status [failed] and
    without a provider message id, with the body, the media, the reply
    target and the sending user of the request; the response is 200 with
    that stored message; and every open socket is sent exactly one
    [message_outgoing] envelope, which carries it. *)
Theorem send_survives_dispatch_failure (req : Routes.SendRequest) (w w1 : World)
    (conversation : Conversation) (replyTarget : option Message)
    (provider : MetaProvider.t) (instance : option WhatsappInstanceConfig)
    (calls : list ProviderRequest) (providerError : Exn) :
  Str.isNone (Routes.send_conversationId req) && negb (Str.truthyOpt (Routes.send_to req))
  = false ->
  negb (Str.truthyOpt (Routes.send_body req)) && negb (Str.truthyOpt (Routes.send_media_url req))
  = false ->
  Routes.resolveConversation req w = (w1, inr conversation) ->
  Routes.checkReplyTarget req conversation w1 = inr replyTarget ->
  Routes.createMetaProvider w1 = inr (provider, instance) ->
  MetaProvider.send provider (conv_phone conversation) (Routes.send_body req)
                    (Routes.providerMediaUrl req w1)
  = (calls, inl providerError) ->
  exists stored,
    messages (fst (Routes.sendMessage req w)) = (messages w ++ [stored])%list
    /\ msg_status stored = failed
    /\ msg_direction stored = outbound
    /\ msg_conversationId stored = conv_id conversation
    /\ msg_providerMessageId stored = JNull
    /\ msg_body stored
       = match Routes.send_body req with
         | Some text => if Str.nonEmpty text then JString text else JNull
         | None => JNull
         end
    /\ msg_media stored = Routes.outboundMedia (Routes.send_media_url req) (clock w)
    /\ (Str.truthyOpt (Routes.send_media_url req) = false -> msg_media stored = JNull)
    /\ (Str.truthyOpt (Routes.send_media_url req) = true ->
        Js.getOpt (msg_media stored) "origin" = JString "upload"
        /\ Js.getOpt (msg_media stored) "status" = JString "ready"
        /\ Js.getOpt (msg_media stored) "provider" = JString "local")
    /\ msg_replyToMessageId stored = Routes.send_replyToMessageId req
    /\ msg_sentByUserId stored = Routes.send_userId req
    /\ snd (Routes.sendMessage req w)
       = {| res_status := 200;
            res_body := JsonMessage (buildSignedMediaUrlsForMessage stored) |}
    /\ wsClients (fst (Routes.sendMessage req w))
       = delivered "message_outgoing" [buildSignedMediaUrlsForMessage stored] (wsClients w).
Proof.
  intros Hto Hcontent Hconv Hreply Hprov Hsend.
  pose proof (resolveConversation_fields req w) as Hfields.
  pose proof (resolveConversation_config req w) as Hconfig.
  rewrite Hconv in Hfields, Hconfig. cbn [fst] in Hfields, Hconfig.
  destruct Hfields as (Hm & Hws & _). destruct Hconfig as (Hclock & _).
  unfold Routes.sendMessage. rewrite Hto, Hcontent, Hconv, Hreply.
  unfold Routes.dispatchAndPersist, Routes.dispatch. rewrite Hprov, Hsend.
  cbn -[Routes.outboundMedia Routes.optJs delivered].
  unfold Storage.getMessageWithReplyById, Storage.getMessageById.
  cbn -[Routes.outboundMedia Routes.optJs Storage.freshId delivered].
  rewrite find_app_cases, (freshId_unused msg_id (messages w1)).
  cbn -[Routes.outboundMedia Routes.optJs Storage.freshId delivered]. rewrite Nat.eqb_refl.
  cbn -[Routes.outboundMedia Routes.optJs Storage.freshId delivered].
  eexists. rewrite Hm, Hws, Hclock.
  split; [reflexivity |]. repeat (split; [reflexivity |]).
  split; [now destruct (Routes.send_body req) as [text |]; cbn; [destruct (Str.nonEmpty text) |] |].
  split; [reflexivity |].
  split; [intros Hnone; unfold Routes.outboundMedia; now rewrite Hnone |].
  split; [intros Hgiven; unfold Routes.outboundMedia; rewrite Hgiven; now cbn |].
  repeat split.
Qed.

(** C9. A send request whose reply target does not exist, is outbound, or
    belongs to another conversation than the one the request resolves is
    answered 400 whenever it resolves a conversation; it is rejected
    before any dispatch to the provider, stores no message and broadcasts
    nothing.  (The one request with such a target that resolves no
    conversation and is not answered 400 names a [conversationId] that
    does not exist: it is answered 404, and is rejected in the same
    way.) *)
Theorem reply_integrity (req : Routes.SendRequest) (w : World) :
  invalidReplyTarget req w = true ->
  let w' := fst (Routes.sendMessage req w) in
  let response := snd (Routes.sendMessage req w) in
  (forall w1 conversation,
      Routes.resolveConversation req w = (w1, inr conversation) ->
      res_status response = 400%nat)
  /\ messages w' = messages w
  /\ providerCalls w' = providerCalls w
  /\ wsClients w' = wsClients w
  /\ (res_status response = 400%nat
      \/ (res_status response = 404%nat
          /\ exists id, Routes.send_conversationId req = Some id
                        /\ Storage.getConversationById id w = None)).
Proof.
  intros Hinvalid. cbn zeta.
  enough ((res_status (snd (Routes.sendMessage req w)) = 400%nat
           \/ (res_status (snd (Routes.sendMessage req w)) = 404%nat
               /\ exists id, Routes.send_conversationId req = Some id
                             /\ Storage.getConversationById id w = None))
          /\ (forall w1 conversation,
                Routes.resolveConversation req w = (w1, inr conversation) ->
                res_status (snd (Routes.sendMessage req w)) = 400%nat)
          /\ messages (fst (Routes.sendMessage req w)) = messages w
          /\ providerCalls (fst (Routes.sendMessage req w)) = providerCalls w
          /\ wsClients (fst (Routes.sendMessage req w)) = wsClients w) by tauto.
  unfold Routes.sendMessage.
  destruct (Str.isNone _ && negb _) eqn:Hto.
  { cbn. repeat split; auto. }
  destruct (negb _ && negb _).
  { cbn. repeat split; auto. }
  pose proof (resolveConversation_fields req w) as Hfields.
  unfold invalidReplyTarget in Hinvalid.
  destruct (Routes.resolveConversation req w) as [w1 [response | conversation]] eqn:Hres.
  - cbn [fst snd] in *. destruct Hfields as (Hm & Hws & Hp & _).
    split; [| repeat split; try assumption; intros ? ? [=]].
    unfold Routes.resolveConversation in Hres.
    destruct (Routes.send_conversationId req) as [id |] eqn:Hid.
    + destruct (Storage.getConversationById id w) eqn:Hfind; [discriminate |].
      injection Hres as <- <-. right. split; [reflexivity | eauto].
    + destruct (negb _); [| now destruct (Storage.getConversationByPhone _ w)].
      injection Hres as <- <-. now left.
  - cbn [fst snd] in Hfields, Hinvalid. destruct Hfields as (Hm & Hws & Hp & _).
    unfold Routes.checkReplyTarget.
    destruct (Routes.send_replyToMessageId req) as [id |]; [| discriminate].
    unfold Storage.getMessageById in *. rewrite Hm.
    destruct (find _ (messages w)) as [target |].
    + destruct (msg_direction target).
      * rewrite Hinvalid. cbn. repeat split; auto.
      * destruct (negb (Nat.eqb (msg_conversationId target) (conv_id conversation)));
          cbn; repeat split; auto.
    + cbn. repeat split; auto.
Qed.

End SendProperties.

(* ===================================================================== *)
(** * The theorems at concrete requests *)
(* ===================================================================== *)

Lemma verifyWebhookSignature_bypass_policy_witness :
  MetaProvider.verifyWebhookSignature (platform := Scenario.online)
    Scenario.provider Scenario.signedReserialised (Some "{}") = true
  /\ MetaProvider.verifyWebhookSignature (platform := Scenario.online)
       Scenario.securedProvider Scenario.emptyPost (Some "{}") = false.
Proof.
  split.
  - apply (proj1 (@verifyWebhookSignature_bypass_policy Scenario.online
                    Scenario.provider Scenario.signedReserialised (Some "{}"))).
    reflexivity.
  - apply (proj2 (@verifyWebhookSignature_bypass_policy Scenario.online
                    Scenario.securedProvider Scenario.emptyPost (Some "{}"))).
    + discriminate.
    + vm_compute. reflexivity.
Defined.

Lemma messagePayload_kind_witness :
  payload_type (MetaProvider.messagePayload (platform := Scenario.online)
                  "+49 170 55501" (Some "see this") (Some Scenario.photoUrl))
  = Some KImage
  /\ payload_type (MetaProvider.messagePayload (platform := Scenario.online)
                     "+49 170 55501" (Some "see this")
                     (Some "https://cdn.example/uploads/archive.tar.zst"))
     = Some KDocument
  /\ payload_type (MetaProvider.messagePayload (platform := Scenario.online)
                     "+49 170 55501" None (Some "https://cdn.example/download/4711"))
     = Some KDocument
  /\ payload_type (MetaProvider.messagePayload (platform := Scenario.online)
                     "+49 170 55501" None (Some "https://cdn.example/a/voice.ogg#t=3"))
     = Some KAudio
  /\ payload_type (MetaProvider.messagePayload (platform := Scenario.online)
                     "+49 170 55501" (Some "hello") None)
     = Some KText.
Proof.
  split; [| split; [| split; [| split]]].
  - pose proof (proj1 (@messagePayload_kind Scenario.online "+49 170 55501"
                         (Some "see this") (Some Scenario.photoUrl))
                  Scenario.photoUrl eq_refl) as Hmedia.
    destruct Hmedia as (Hkind & _); [discriminate | exact Hkind].
  - pose proof (proj1 (@messagePayload_kind Scenario.online "+49 170 55501"
                         (Some "see this")
                         (Some "https://cdn.example/uploads/archive.tar.zst"))
                  "https://cdn.example/uploads/archive.tar.zst" eq_refl) as Hmedia.
    destruct Hmedia as (_ & Hunrecognized & _); [discriminate |].
    apply Hunrecognized. vm_compute. reflexivity.
  - pose proof (proj1 (@messagePayload_kind Scenario.online "+49 170 55501" None
                         (Some "https://cdn.example/download/4711"))
                  "https://cdn.example/download/4711" eq_refl) as Hmedia.
    destruct Hmedia as (_ & _ & Habsent & _); [discriminate |].
    apply Habsent. vm_compute. reflexivity.
  - pose proof (proj1 (@messagePayload_kind Scenario.online "+49 170 55501" None
                         (Some "https://cdn.example/a/voice.ogg#t=3"))
                  "https://cdn.example/a/voice.ogg#t=3" eq_refl) as Hmedia.
    destruct Hmedia as (_ & _ & _ & Hlisted); [discriminate |].
    apply (Hlisted "https://cdn.example/a/voic" "e"%char ".ogg");
      [reflexivity | discriminate | cbn; auto].
  - apply (proj2 (@messagePayload_kind Scenario.online "+49 170 55501" (Some "hello") None));
      reflexivity.
Defined.



Lemma signature_gate_enforced_witness :
  (Routes.handleMetaWebhookEvent (platform := Scenario.online) Scenario.emptyPost
     Scenario.secured
   = Routes.rejectSignature Scenario.emptyPost Scenario.secured
   /\ res_status (snd (Routes.handleMetaWebhookEvent (platform := Scenario.online)
                         Scenario.emptyPost Scenario.secured)) = 401%nat
   /\ messages (fst (Routes.handleMetaWebhookEvent (platform := Scenario.online)
                       Scenario.emptyPost Scenario.secured))
      = messages Scenario.secured)
  /\ (Routes.handleMetaWebhookEvent (platform := Scenario.online) Scenario.signedDelivery
        Scenario.secured
      = Routes.ingestPayload (platform := Scenario.online) Scenario.securedProvider
          Scenario.signedDelivery Scenario.secured
      /\ res_status (snd (Routes.handleMetaWebhookEvent (platform := Scenario.online)
                            Scenario.signedDelivery Scenario.secured)) <> 401%nat).
Proof.
  pose proof (@signature_gate_enforced Scenario.online Scenario.emptyPost Scenario.secured
                Scenario.securedProvider None
                ltac:(vm_compute; reflexivity) ltac:(vm_compute; reflexivity))
    as (Hreject & _).
  pose proof (@signature_gate_enforced Scenario.online Scenario.signedDelivery
                Scenario.secured Scenario.securedProvider None
                ltac:(vm_compute; reflexivity) ltac:(vm_compute; reflexivity))
    as (_ & Haccept).
  split.
  - apply Hreject. intros data Hdata. unfold signedOver. reflexivity.
  - apply (Haccept Scenario.rawDelivery).
    + left. reflexivity.
    + vm_compute. reflexivity.
Defined.




Lemma send_survives_dispatch_failure_witness :
  exists stored,
    messages (fst (Routes.sendMessage (platform := Scenario.offline)
                     (Scenario.sendTo "+49 170 55501" "hello") Scenario.fresh))
    = (messages Scenario.fresh ++ [stored])%list
    /\ msg_status stored = failed
    /\ msg_direction stored = outbound
    /\ msg_conversationId stored = 1%nat
    /\ msg_providerMessageId stored = JNull
    /\ msg_body stored = JString "hello"
    /\ msg_media stored
       = Routes.outboundMedia (platform := Scenario.offline) None (clock Scenario.fresh)
    /\ (Str.truthyOpt None = false -> msg_media stored = JNull)
    /\ (Str.truthyOpt None = true ->
        Js.getOpt (msg_media stored) "origin" = JString "upload"
        /\ Js.getOpt (msg_media stored) "status" = JString "ready"
        /\ Js.getOpt (msg_media stored) "provider" = JString "local")
    /\ msg_replyToMessageId stored = None
    /\ msg_sentByUserId stored = Some "agent-1"
    /\ snd (Routes.sendMessage (platform := Scenario.offline)
              (Scenario.sendTo "+49 170 55501" "hello") Scenario.fresh)
       = {| res_status := 200;
            res_body :=
              JsonMessage (buildSignedMediaUrlsForMessage (Platform := Scenario.offline)
                             stored) |}
    /\ wsClients (fst (Routes.sendMessage (platform := Scenario.offline)
                         (Scenario.sendTo "+49 170 55501" "hello") Scenario.fresh))
       = delivered "message_outgoing"
           [buildSignedMediaUrlsForMessage (Platform := Scenario.offline) stored]
           (wsClients Scenario.fresh).
Proof.
  apply (@send_survives_dispatch_failure Scenario.offline
           (Scenario.sendTo "+49 170 55501" "hello") Scenario.fresh
           (fst (Routes.resolveConversation (Scenario.sendTo "+49 170 55501" "hello")
                   Scenario.fresh))
           (mkConversation 1 (JString "+49 170 55501") 1700000000000 false (Some "agent-1"))
           None Scenario.provider None
           [ {| call_url := "https://graph.facebook.com/v19.0/105500000000001/messages";
                call_bearer := "EAAG-token";
                call_payload :=
                  {| messaging_product := "whatsapp"; payload_to := "4917055501";
                     payload_content := Some (TextContent "hello") |} |} ]
           (Error "Meta API error: {error: upstream unavailable}")).
  - reflexivity.
  - reflexivity.
  - vm_compute. reflexivity.
  - vm_compute. reflexivity.
  - vm_compute. reflexivity.
  - vm_compute. reflexivity.
Defined.

Lemma reply_integrity_witness :
  let w' := fst (Routes.sendMessage (platform := Scenario.online) Scenario.danglingReply
                   Scenario.fresh) in
  let response := snd (Routes.sendMessage (platform := Scenario.online)
                         Scenario.danglingReply Scenario.fresh) in
  (forall w1 conversation,
      Routes.resolveConversation Scenario.danglingReply Scenario.fresh
      = (w1, inr conversation) ->
      res_status response = 400%nat)
  /\ messages w' = messages Scenario.fresh
  /\ providerCalls w' = providerCalls Scenario.fresh
  /\ wsClients w' = wsClients Scenario.fresh
  /\ (res_status response = 400%nat
      \/ (res_status response = 404%nat
          /\ exists id, Routes.send_conversationId Scenario.danglingReply = Some id
                        /\ Storage.getConversationById id Scenario.fresh = None)).
Proof.
  apply (@reply_integrity Scenario.online Scenario.danglingReply Scenario.fresh).
  vm_compute. reflexivity.
Defined.

(* ===================================================================== *)
(** * Where the code departs from the specification's sentences *)
(* ===================================================================== *)

(** C2.  With the secret [s3cret] configured, a POST that carries no raw
    body is accepted on a header that is the HMAC-SHA256 of the text
    [JSON.stringify] gives for its parsed body: the signature is then
    verified over a re-serialised object, not over raw body bytes. *)
Lemma signature_over_raw_body_counterexample :
  Routes.hasAppSecret None (processEnv Scenario.secured) = true
  /\ req_rawBody Scenario.signedReserialised = None
  /\ JSON_stringify (Platform := Scenario.online) (req_body Scenario.signedReserialised)
     = Some "{}"
  /\ signedOver (platform := Scenario.online) "s3cret" "{}" Scenario.signedReserialised
     = true
  /\ snd (Routes.handleMetaWebhookEvent (platform := Scenario.online)
            Scenario.signedReserialised Scenario.secured)
     = Routes.text 200 "ok - no events".
Proof. vm_compute. repeat split. Qed.



(* ===================================================================== *)
(** * Further properties of the code *)
(* ===================================================================== *)

(** The helpers on the inputs their comments in the source mention. *)
Example normalizeWebhookPath_trims :
  Mount.normalizeWebhookPath (JString " hooks//meta/ ") = "/webhook/hooks/meta".
Proof. reflexivity. Qed.
Example normalizeWebhookPath_root : Mount.normalizeWebhookPath (JString "/") = "/webhook".
Proof. reflexivity. Qed.
Example normalizeWebhookPath_missing : Mount.normalizeWebhookPath JUndefined = "/webhook/meta".
Proof. reflexivity. Qed.
Example normalizeForComparison_slashes :
  Mount.normalizeForComparison "webhook//meta///" = "/webhook/meta".
Proof. reflexivity. Qed.
Example getExtensionFromFilename_upper :
  Routes.getExtensionFromFilename (platform := Scenario.online) (JString "Report.Final.PDF")
  = inr (JString "pdf").
Proof. reflexivity. Qed.
Example extensionToMediaType_dotted :
  Routes.extensionToMediaType (platform := Scenario.online) (Some ".JPG") = "image".
Proof. reflexivity. Qed.

(** [trim] on white space that is not ASCII: a no-break space (U+00A0)
    in front, an em space (U+2003) behind. *)
Example trim_unicode :
  Str.trim (String (ascii_of_nat 194) (String (ascii_of_nat 160) (" 4917055501 "
            ++ String (ascii_of_nat 226) (String (ascii_of_nat 128)
                 (String (ascii_of_nat 131) EmptyString)))))
  = "4917055501".
Proof. vm_compute. reflexivity. Qed.

(** A phone made of white space only, a no-break space among it, is
    refused. *)
Example createConversation_blank :
  Endpoints.createConversation
    (JString (String " " (String (ascii_of_nat 194) (String (ascii_of_nat 160)
                (String (ascii_of_nat 9) EmptyString)))))
    (Some "agent-1") Scenario.fresh
  = (Scenario.fresh, inl (Routes.jsonError 400 "Phone number is required.")).
Proof. vm_compute. reflexivity. Qed.

Example webhookTest_twice :
  map msg_body
      (messages
         (fst (Endpoints.webhookTest JUndefined Cases.testPost
                 (fst (Endpoints.webhookTest JUndefined Cases.testPost Scenario.fresh)))))
  = [JString "ping"; JString "ping"].
Proof. vm_compute. reflexivity. Qed.

(** ** The provider adapter *)

Section ProviderFurther.
Context {platform : Platform}.

(** X1. With an app secret configured, [verifyWebhookSignature] accepts a
    request exactly when it carries a non-empty signature header, a raw
    body was passed, and the header, with its first [sha256=] removed, is
    the HMAC-SHA256 of that body under the secret.  In every other case,
    a header of another length included, it answers [false] and does not
    throw. *)
Theorem verifyWebhookSignature_exact
    (p : MetaProvider.t) (request : Request) (rawBody : option string) :
  MetaProvider.appSecret p <> EmptyString ->
  MetaProvider.verifyWebhookSignature p request rawBody = true
  <-> exists header data,
        req_headers request !! "x-hub-signature-256" = Some header
        /\ header <> EmptyString
        /\ rawBody = Some data
        /\ Str.removeFirst "sha256=" header = hmacSha256Hex (MetaProvider.appSecret p) data.
Proof.
  intros Hsecret. apply nonEmpty_true in Hsecret.
  unfold MetaProvider.verifyWebhookSignature. rewrite Hsecret. cbn [negb].
  destruct (req_headers request !! "x-hub-signature-256") as [header |]; cbn.
  - destruct (Str.nonEmpty header) eqn:Hheader; cbn.
    + destruct rawBody as [data |].
      * unfold MetaProvider.timingSafeEqual.
        destruct (Nat.eqb _ _) eqn:Hlen.
        -- rewrite String.eqb_eq. split.
           ++ intros Heq. exists header, data. apply nonEmpty_true in Hheader. auto.
           ++ intros (h & d & [= <-] & _ & [= <-] & Heq). exact Heq.
        -- split; [discriminate |].
           intros (h & d & [= <-] & _ & [= <-] & Heq).
           rewrite Heq, Nat.eqb_refl in Hlen. discriminate.
      * split; [discriminate | intros (h & d & _ & _ & [=] & _)].
    + split; [discriminate |].
      intros (h & d & [= <-] & Hne & _). apply nonEmpty_false in Hheader. contradiction.
  - split; [discriminate | intros (h & d & [=] & _)].
Qed.

(** The token the verification handler expects is the provider's own
    verify token, whenever one is configured. *)
Lemma expectedToken_verifyToken (w : World) (provider : MetaProvider.t)
    (instance : option WhatsappInstanceConfig) :
  Routes.createMetaProvider w = inr (provider, instance) ->
  Routes.expectedToken instance (processEnv w) <> EmptyString ->
  MetaProvider.verifyToken provider = Routes.expectedToken instance (processEnv w).
Proof.
  unfold Routes.createMetaProvider, Storage.getDefaultWhatsappInstance, Routes.expectedToken.
  destruct (defaultInstance w) as [i |].
  - destruct (bool_decide _); [discriminate |].
    destruct (negb _ || negb _); [discriminate |].
    intros [= <- <-]. cbn.
    destruct (inst_webhookVerifyToken i) as [t |]; cbn; [| reflexivity].
    intros Ht. apply nonEmpty_true in Ht. unfold Str.orOpt. cbn. now rewrite Ht.
  - intros [= <- <-] _. cbn. unfold Str.orOpt. now destruct (Str.truthyOpt _).
Qed.

(** X2. The verification handler and the provider's own [verifyWebhook]
    agree.  When the provider is constructed and a verify token is
    configured, the token the handler expects is the provider's verify
    token, and a request with mode [subscribe] and a challenge is accepted
    by [verifyWebhook] exactly when the handler answers 200 with the
    challenge. *)
Theorem verification_agrees_with_provider (req : Request) (w : World)
    (provider : MetaProvider.t) (instance : option WhatsappInstanceConfig)
    (challenge : string) :
  Routes.createMetaProvider w = inr (provider, instance) ->
  Routes.expectedToken instance (processEnv w) <> EmptyString ->
  Js.getOpt (req_query req) "hub.mode" = JString "subscribe" ->
  Js.getOpt (req_query req) "hub.challenge" = JString challenge ->
  MetaProvider.verifyToken provider = Routes.expectedToken instance (processEnv w)
  /\ (MetaProvider.verifyWebhook provider req = true
      <-> snd (Routes.handleMetaWebhookVerification req w) = Routes.text 200 challenge).
Proof.
  intros Hprov Hexpected Hmode Hchallenge.
  pose proof (expectedToken_verifyToken w provider instance Hprov Hexpected) as Htoken.
  split; [exact Htoken |].
  unfold MetaProvider.verifyWebhook, Routes.handleMetaWebhookVerification,
    Routes.verificationChallenge.
  rewrite Hmode, Hchallenge, Hprov, Htoken, (toLowerCase_ascii "subscribe" eq_refl). cbn.
  apply nonEmpty_true in Hexpected. rewrite Hexpected. cbn.
  destruct (Js.eqb _ _); cbn; split; intros H; try reflexivity; try discriminate.
Qed.

Lemma captionOf_cases (body : option string) :
  MetaProvider.captionOf body = if Str.truthyOpt body then body else None.
Proof. reflexivity. Qed.

(** X3. When a media URL is given, the request body [send] builds always
    is a media message, never a text one; its [link] is the URL exactly as
    given, query string included; and its caption is the body when the
    body is not empty, except that an audio message never carries a
    caption. *)
Theorem messagePayload_media_link (to : string) (body : option string) (url : string) :
  url <> EmptyString ->
  exists content,
    payload_content (MetaProvider.messagePayload to body (Some url)) = Some content
    /\ content_link content = Some url
    /\ content_caption content
       = match payload_type (MetaProvider.messagePayload to body (Some url)) with
         | Some KAudio => None
         | _ => if Str.truthyOpt body then body else None
         end.
Proof.
  intros Hurl. apply nonEmpty_true in Hurl.
  unfold payload_type, MetaProvider.messagePayload.
  cbn -[Str.includes MetaProvider.extensionOf NodePath.basename MetaProvider.captionOf].
  rewrite Hurl. unfold MetaProvider.captionOf.
  destruct (Str.includes MetaProvider.asImage _); [eexists; repeat split |].
  destruct (Str.includes MetaProvider.asVideo _); [eexists; repeat split |].
  destruct (Str.includes MetaProvider.asAudio _); [eexists; repeat split |].
  destruct (_ || _); eexists; repeat split.
Qed.

Lemma beforeFirst_app (c : ascii) (s t : string) :
  without c s = true -> Str.beforeFirst c (s ++ t) = s ++ Str.beforeFirst c t.
Proof.
  unfold without. induction s as [| x s IH]; cbn; [reflexivity |].
  rewrite andb_true_iff, negb_true_iff. intros [Hx Hs].
  change (String x s ++ t) with (String x (s ++ t)).
  change (String x s ++ Str.beforeFirst c t) with (String x (s ++ Str.beforeFirst c t)).
  cbn. rewrite Hx, IH; auto.
Qed.

Lemma beforeFirst_without (c : ascii) (s : string) :
  without c s = true -> Str.beforeFirst c s = s.
Proof.
  unfold without. induction s as [| x s IH]; cbn; [reflexivity |].
  rewrite andb_true_iff, negb_true_iff. intros [Hx Hs]. rewrite Hx, IH; auto.
Qed.

Lemma beforeFirst_cut (c : ascii) (s t : string) :
  without c s = true -> Str.beforeFirst c (s ++ String c t) = s.
Proof.
  intros Hs. rewrite beforeFirst_app by exact Hs. cbn. rewrite Ascii.eqb_refl.
  clear. induction s as [| x s IH]; [reflexivity |].
  change (String x s ++ EmptyString) with (String x (s ++ EmptyString)). now rewrite IH.
Qed.

(** X4. The kind of an outbound media message does not depend on the
    query string or the fragment of the media URL: appending [?...] or
    [#...] to a URL that has neither leaves the extension that is looked at,
    and so the message type, unchanged. *)
Theorem messagePayload_ignores_query (to : string) (body : option string)
    (url suffix : string) (sep : ascii) :
  url <> EmptyString ->
  without "?" url = true -> without "#" url = true ->
  sep = "?"%char \/ sep = "#"%char ->
  MetaProvider.extensionOf (url ++ String sep suffix) = MetaProvider.extensionOf url
  /\ payload_type (MetaProvider.messagePayload to body (Some (url ++ String sep suffix)))
     = payload_type (MetaProvider.messagePayload to body (Some url)).
Proof.
  intros Hurl Hquery Hfragment Hsep.
  assert (MetaProvider.normalizedUrl (url ++ String sep suffix) = MetaProvider.normalizedUrl url)
    as Hnormalized.
  { unfold MetaProvider.normalizedUrl. rewrite (beforeFirst_without "?" url Hquery).
    destruct Hsep as [-> | ->].
    - rewrite beforeFirst_cut by exact Hquery. reflexivity.
    - rewrite beforeFirst_app by exact Hquery.
      change (Str.beforeFirst "?" (String "#" suffix))
        with (String "#" (Str.beforeFirst "?" suffix)).
      rewrite beforeFirst_cut by exact Hfragment.
      now rewrite beforeFirst_without. }
  assert (MetaProvider.extensionOf (url ++ String sep suffix) = MetaProvider.extensionOf url)
    as Hextension.
  { unfold MetaProvider.extensionOf. now rewrite Hnormalized. }
  split; [exact Hextension |].
  rewrite !messagePayload_media_kind, Hextension; [reflexivity | exact Hurl |].
  destruct url; [contradiction | discriminate].
Qed.

End ProviderFurther.

(* ===================================================================== *)
(** ** Normalisation of inbound payloads, continued *)
(* ===================================================================== *)

Section ParsingFurther.
Context {platform : Platform}.

Lemma collect_map {A B C} (f : A -> Result (list B)) (g : B -> C) (h : A -> list C)
    (l : list A) (ys : list B) :
  (forall x zs, f x = ok zs -> map g zs = h x) ->
  collect f l = ok ys -> map g ys = flat_map h l.
Proof.
  intros Hf. revert ys. induction l as [| x l IH]; cbn; intros ys.
  - intros [= <-]. reflexivity.
  - destruct (f x) as [e | zs] eqn:Hx; cbn; [discriminate |].
    destruct (collect f l) as [e | rest]; cbn; [discriminate |].
    intros [= <-]. rewrite map_app, (Hf x zs Hx), (IH rest eq_refl). reflexivity.
Qed.

Lemma collect_Forall {A B} (f : A -> Result (list B)) (P : B -> Prop)
    (l : list A) (ys : list B) :
  (forall x zs, f x = ok zs -> Forall P zs) ->
  collect f l = ok ys -> Forall P ys.
Proof.
  intros Hf. revert ys. induction l as [| x l IH]; cbn; intros ys.
  - intros [= <-]. constructor.
  - destruct (f x) as [e | zs] eqn:Hx; cbn; [discriminate |].
    destruct (collect f l) as [e | rest]; cbn; [discriminate |].
    intros [= <-]. apply Forall_app. split; [exact (Hf x zs Hx) | exact (IH rest eq_refl)].
Qed.

Lemma collect_throws {A B} (f : A -> Result (list B)) (l : list A) (x : A) :
  In x l -> (exists error, f x = inl error) -> exists error, collect f l = inl error.
Proof.
  intros Hin Hx. induction l as [| y l IH]; [contradiction |].
  cbn. destruct Hin as [-> | Hin].
  - destruct Hx as (error & ->). cbn. eauto.
  - destruct (f y) as [e | zs]; cbn; [eauto |].
    destruct (IH Hin) as (error & ->). cbn. eauto.
Qed.

Lemma get_getOpt (v : JsVal) (k : string) :
  Js.nullish v = false -> Js.get v k = Some (Js.getOpt v k).
Proof.
  intros Hv. unfold Js.getOpt. destruct (Js.get v k) eqn:Hget; [reflexivity |].
  destruct v; cbn in *; try discriminate; repeat destruct (String.eqb _ _); discriminate.
Qed.

Lemma flat_map_singleton {A} (l : list A) : flat_map (fun x => [x]) l = l.
Proof. induction l as [| x l IH]; cbn; congruence. Qed.

(** What one message becomes. *)
Lemma parseMessage_faithful (now : Z) (msg : JsVal) (event : IncomingMessageEvent) :
  MetaProvider.parseMessage now msg = ok event ->
  ev_raw event = msg /\ faithful event.
Proof.
  unfold MetaProvider.parseMessage, prop.
  destruct (Js.get msg "timestamp") as [timestamp |]; cbn; [| discriminate].
  destruct (MetaProvider.timestampIso now timestamp) as [e | iso]; cbn; [discriminate |].
  assert (forall type,
             In type mediaTypes ->
             Js.eqb (Js.getOpt msg "type") (JString type) = true ->
             forall body,
               faithful
                 {| ev_from := Js.getOpt msg "from"; ev_raw := msg;
                    ev_providerMessageId := Js.getOpt msg "id"; ev_timestamp := iso;
                    ev_body := body;
                    ev_media := MetaProvider.buildMediaDescriptor type (Js.getOpt msg type) |})
    as Hmedia.
  { intros type Hin Htype body. apply Js_eqb_eq in Htype.
    unfold faithful, MetaProvider.buildMediaDescriptor.
    cbn [ev_from ev_raw ev_providerMessageId ev_media].
    split; [reflexivity | split; [reflexivity |]].
    destruct (Js.truthy (Js.getOpt msg type)) eqn:Hpayload; cbn [negb].
    - split; [| split; [reflexivity | discriminate]].
      intros _. exists type. cbn. auto 7.
    - split; [discriminate | split; [| reflexivity]].
      intros type' _ Htype'. rewrite Htype in Htype'. injection Htype' as <-.
      now rewrite Hpayload. }
  assert (forall body,
             (forall type, In type mediaTypes -> Js.getOpt msg "type" <> JString type) ->
             faithful
               {| ev_from := Js.getOpt msg "from"; ev_raw := msg;
                  ev_providerMessageId := Js.getOpt msg "id"; ev_timestamp := iso;
                  ev_body := body; ev_media := JUndefined |})
    as Hbare.
  { intros body Hother. unfold faithful. cbn.
    split; [reflexivity | split; [reflexivity | split; [discriminate | split]]];
      [| reflexivity].
    intros type Hin Htype. now destruct (Hother type Hin). }
  destruct (Js.eqb _ (JString "text")) eqn:Htext.
  { intros [= <-]. split; [reflexivity | apply Hbare].
    apply Js_eqb_eq in Htext. rewrite Htext.
    intros type Hin [= <-]. cbn in Hin. intuition discriminate. }
  destruct (Js.eqb _ (JString "image")) eqn:Himage;
    [intros [= <-]; split; [reflexivity | apply Hmedia; cbn; auto] |].
  destruct (Js.eqb _ (JString "document")) eqn:Hdocument;
    [intros [= <-]; split; [reflexivity | apply Hmedia; cbn; auto] |].
  destruct (Js.eqb _ (JString "video")) eqn:Hvideo;
    [intros [= <-]; split; [reflexivity | apply Hmedia; cbn; auto] |].
  destruct (Js.eqb _ (JString "audio")) eqn:Haudio;
    [intros [= <-]; split; [reflexivity | apply Hmedia; cbn; auto] |].
  intros [= <-]; split; [reflexivity | apply Hbare].
  intros type Hin Htype. apply Js_eqb_eq in Htype. cbn in Hin.
  destruct Hin as [<- | [<- | [<- | [<- | []]]]]; congruence.
Qed.

Lemma parseChange_messages (now : Z) (change : JsVal) (events : list IncomingMessageEvent) :
  MetaProvider.parseChange now change = ok events ->
  map ev_raw events = messagesOfChange change /\ Forall faithful events.
Proof.
  unfold MetaProvider.parseChange, prop, messagesOfChange, elements.
  destruct (Js.get change "value") as [value |] eqn:Hvalue; cbn; [| discriminate].
  rewrite (getOpt_get _ _ _ Hvalue).
  destruct (Js.truthy (Js.getOpt value "messages")); [| intros [= <-]; split; constructor].
  unfold iterable. destruct (Js.iterate _) as [msgs |]; cbn; [| discriminate].
  intros Hcollect. split.
  - rewrite <- (flat_map_singleton msgs). revert Hcollect. apply collect_map.
    intros msg zs. destruct (MetaProvider.parseMessage now msg) as [e | event] eqn:Hmsg;
      cbn; [discriminate |].
    intros [= <-]. cbn. now rewrite (proj1 (parseMessage_faithful _ _ _ Hmsg)).
  - revert Hcollect. apply collect_Forall.
    intros msg zs. destruct (MetaProvider.parseMessage now msg) as [e | event] eqn:Hmsg;
      cbn; [discriminate |].
    intros [= <-]. constructor; [| constructor]. exact (proj2 (parseMessage_faithful _ _ _ Hmsg)).
Qed.

Lemma parseEntry_messages (now : Z) (entry : JsVal) (events : list IncomingMessageEvent) :
  MetaProvider.parseEntry now entry = ok events ->
  map ev_raw events = messagesOfEntry entry /\ Forall faithful events.
Proof.
  unfold MetaProvider.parseEntry, prop, messagesOfEntry, elements.
  destruct (Js.get entry "changes") as [changes |] eqn:Hchanges; cbn; [| discriminate].
  rewrite (getOpt_get _ _ _ Hchanges).
  destruct (Js.truthy changes); cbn; [| intros [= <-]; split; constructor].
  unfold iterable. destruct (Js.iterate _) as [cs |]; cbn; [| discriminate].
  intros Hcollect. split.
  - revert Hcollect. apply collect_map. intros change zs Hchange.
    exact (proj1 (parseChange_messages _ _ _ Hchange)).
  - revert Hcollect. apply collect_Forall. intros change zs Hchange.
    exact (proj2 (parseChange_messages _ _ _ Hchange)).
Qed.

Lemma parseIncoming_messages (now : Z) (payload : JsVal) (events : list IncomingMessageEvent) :
  MetaProvider.parseIncoming now payload = ok events ->
  map ev_raw events = messagesOf payload /\ Forall faithful events.
Proof.
  unfold MetaProvider.parseIncoming, prop, messagesOf, elements.
  destruct (Js.get payload "entry") as [entry |] eqn:Hentry; cbn; [| discriminate].
  rewrite (getOpt_get _ _ _ Hentry).
  destruct (Js.truthy entry); cbn; [| intros [= <-]; split; constructor].
  unfold iterable. destruct (Js.iterate _) as [entries |]; cbn; [| discriminate].
  intros Hcollect. split.
  - revert Hcollect. apply collect_map. intros e zs He.
    exact (proj1 (parseEntry_messages _ _ _ He)).
  - revert Hcollect. apply collect_Forall. intros e zs He.
    exact (proj2 (parseEntry_messages _ _ _ He)).
Qed.

(** Every event [parseIncoming] returns is what [parseMessage] makes of
    its raw message. *)
Lemma parseIncoming_parsed (now : Z) (payload : JsVal) (events : list IncomingMessageEvent) :
  MetaProvider.parseIncoming now payload = ok events ->
  Forall (fun event => MetaProvider.parseMessage now (ev_raw event) = ok event) events.
Proof.
  assert (forall change zs,
             MetaProvider.parseChange now change = ok zs ->
             Forall (fun event => MetaProvider.parseMessage now (ev_raw event) = ok event) zs)
    as Hchange.
  { intros change zs. unfold MetaProvider.parseChange.
    destruct (prop change "value") as [e | value]; cbn; [discriminate |].
    destruct (Js.truthy _); [| intros [= <-]; constructor].
    destruct (iterable _) as [e | msgs]; cbn; [discriminate |].
    apply collect_Forall. intros msg ys.
    destruct (MetaProvider.parseMessage now msg) as [e | event] eqn:Hmsg; cbn; [discriminate |].
    intros [= <-]. constructor; [| constructor].
    now rewrite (proj1 (parseMessage_faithful _ _ _ Hmsg)). }
  assert (forall entry zs,
             MetaProvider.parseEntry now entry = ok zs ->
             Forall (fun event => MetaProvider.parseMessage now (ev_raw event) = ok event) zs)
    as Hentry.
  { intros entry zs. unfold MetaProvider.parseEntry.
    destruct (prop entry "changes") as [e | changes]; cbn; [discriminate |].
    destruct (negb _); [intros [= <-]; constructor |].
    destruct (iterable _) as [e | cs]; cbn; [discriminate |].
    now apply collect_Forall. }
  unfold MetaProvider.parseIncoming.
  destruct (prop payload "entry") as [e | entry]; cbn; [discriminate |].
  destruct (negb _); [intros [= <-]; constructor |].
  destruct (iterable _) as [e | entries]; cbn; [discriminate |].
  now apply collect_Forall.
Qed.

(** C10. [parseIncoming] is not total on the messages it handles.  The
    guard on the time stamp, [Number.isFinite], lets through every finite
    number of seconds, also one whose milliseconds [Date] cannot
    represent, and [toISOString] then throws.  For every message that is
    not [null] or [undefined] and whose [timestamp] converts to such a
    number, whatever its type: the turn of the loop for that message
    throws a RangeError before any event is built; a payload carrying just
    that message makes [parseIncoming] throw the RangeError instead of
    yielding one event; every payload that has the message among its
    messages makes [parseIncoming] throw, so that no event is returned for
    the other messages either; and a POST that reaches parsing with such a
    body is answered 500 and stores no message and no conversation. *)
Theorem parseIncoming_out_of_range_timestamp (now seconds : Z) (msg : JsVal) :
  Js.nullish msg = false ->
  toFiniteNumber (Js.getOpt msg "timestamp") = Some seconds ->
  8640000000000000 < Z.abs (seconds * 1000) ->
  MetaProvider.parseMessage now msg = throw (RangeError "Invalid time value")
  /\ MetaProvider.parseIncoming now (carrying [msg]) = throw (RangeError "Invalid time value")
  /\ (forall payload,
        In msg (messagesOf payload) ->
        exists error, MetaProvider.parseIncoming now payload = inl error)
  /\ (forall req w,
        clock w = now -> reachesParsing req w = true ->
        In msg (messagesOf (req_body req)) ->
        let w' := fst (Routes.handleMetaWebhookEvent req w) in
        res_status (snd (Routes.handleMetaWebhookEvent req w)) = 500%nat
        /\ messages w' = messages w /\ conversations w' = conversations w
        /\ wsClients w' = wsClients w /\ mediaJobs w' = mediaJobs w).
Proof.
  intros Hmsg Hseconds Hrange.
  assert (MetaProvider.parseMessage now msg = throw (RangeError "Invalid time value"))
    as Hthrows.
  { unfold MetaProvider.parseMessage, prop. rewrite (get_getOpt _ _ Hmsg). cbn.
    unfold MetaProvider.timestampIso, MetaProvider.toISOString. rewrite Hseconds.
    destruct (Z.leb_spec (Z.abs (seconds * 1000)) 8640000000000000); [lia | reflexivity]. }
  assert (forall payload,
             In msg (messagesOf payload) ->
             exists error, MetaProvider.parseIncoming now payload = inl error) as Hpayload.
  { intros payload Hin.
    destruct (MetaProvider.parseIncoming now payload) as [error | events] eqn:Hparse;
      [eauto |].
    rewrite <- (proj1 (parseIncoming_messages _ _ _ Hparse)) in Hin.
    apply in_map_iff in Hin as (event & <- & Hin).
    pose proof (parseIncoming_parsed _ _ _ Hparse) as Hparsed.
    rewrite Forall_forall in Hparsed. specialize (Hparsed event).
    rewrite Hthrows in Hparsed. discriminate Hparsed.
    now apply list_elem_of_In. }
  split; [exact Hthrows | split; [| split; [exact Hpayload |]]].
  - unfold MetaProvider.parseIncoming, MetaProvider.parseEntry, MetaProvider.parseChange.
    cbn. now rewrite Hthrows.
  - intros req w Hclock Hreaches Hin. cbn zeta.
    destruct (Hpayload _ Hin) as (error & Hparse). rewrite <- Hclock in Hparse.
    unfold reachesParsing in Hreaches. unfold Routes.handleMetaWebhookEvent.
    destruct (Routes.createMetaProvider w) as [e | [provider instance]]; [discriminate |].
    rewrite Hreaches. cbn [negb]. unfold Routes.ingestPayload. rewrite Hparse.
    cbn. repeat split.
Qed.

(** X5. When [parseIncoming] returns, it returns exactly one event for
    each message of the payload, in document order (entries, then changes,
    then messages), each event keeping its message as [raw]: no message is
    dropped, repeated or moved. *)
Theorem parseIncoming_keeps_every_message (now : Z) (payload : JsVal)
    (events : list IncomingMessageEvent) :
  MetaProvider.parseIncoming now payload = ok events ->
  map ev_raw events = messagesOf payload.
Proof. intros Hparse. exact (proj1 (parseIncoming_messages _ _ _ Hparse)). Qed.

(** X6. Every event [parseIncoming] returns is what its raw message says:
    [from] and [providerMessageId] are the message's [from] and [id]; a
    media descriptor is present only for a message of type image,
    document, video or audio whose payload of that name is truthy, is
    tagged with provider [meta] and that type, and keeps the payload as
    its metadata; every other event has no media at all. *)
Theorem parseIncoming_faithful (now : Z) (payload : JsVal)
    (events : list IncomingMessageEvent) :
  MetaProvider.parseIncoming now payload = ok events ->
  Forall faithful events.
Proof. intros Hparse. exact (proj2 (parseIncoming_messages _ _ _ Hparse)). Qed.

Lemma parseIncoming_malformed (now : Z) (payload : JsVal) :
  malformed payload = true -> exists error, MetaProvider.parseIncoming now payload = inl error.
Proof.
  unfold malformed, MetaProvider.parseIncoming, prop.
  destruct (Js.nullish payload) eqn:Hnullish; cbn.
  - intros _. destruct payload; try discriminate; cbn; eauto.
  - rewrite (get_getOpt _ _ Hnullish). cbn.
    destruct (Js.truthy (Js.getOpt payload "entry")); cbn; [| discriminate].
    unfold iterable. destruct (Js.iterate _) as [entries |]; cbn; [| eauto].
    intros Hexists. apply existsb_exists in Hexists as (entry & Hin & Hentry).
    apply (collect_throws _ _ entry Hin).
    unfold MetaProvider.parseEntry, prop. destruct entry; try discriminate; cbn; eauto.
Qed.

(** X7. A POST that gets past provider construction and the signature
    gate and whose body the normalisation cannot walk (the body is [null]
    or [undefined], its [entry] is truthy and not iterable, or an element
    of [entry] is [null] or [undefined]) is answered 500; the handler
    stores no message, creates no conversation, broadcasts nothing, and
    appends exactly one audit record, which carries the body, status 500
    and the error. *)
Theorem malformed_payload_answers_500 (req : Request) (w : World) :
  reachesParsing req w = true ->
  malformed (req_body req) = true ->
  let w' := fst (Routes.handleMetaWebhookEvent req w) in
  let response := snd (Routes.handleMetaWebhookEvent req w) in
  res_status response = 500%nat
  /\ messages w' = messages w /\ conversations w' = conversations w
  /\ wsClients w' = wsClients w /\ mediaJobs w' = mediaJobs w
  /\ exists record,
       webhookEvents w' = (webhookEvents w ++ [record])%list
       /\ we_body record = req_body req
       /\ logged_status (we_response record) = 500%nat
       /\ is_Some (logged_error (we_response record)).
Proof.
  intros Hreaches Hmalformed. cbn zeta.
  destruct (parseIncoming_malformed (clock w) _ Hmalformed) as (error & Hparse).
  unfold reachesParsing in Hreaches. unfold Routes.handleMetaWebhookEvent.
  destruct (Routes.createMetaProvider w) as [e | [provider instance]]; [discriminate |].
  rewrite Hreaches. cbn [negb]. unfold Routes.ingestPayload. rewrite Hparse.
  cbn. repeat split. eexists. repeat split. cbn. eauto.
Qed.

Lemma timestampIso_same (now1 now2 : Z) (timestamp : JsVal) :
  validClock now1 = true -> validClock now2 = true ->
  match MetaProvider.timestampIso now1 timestamp, MetaProvider.timestampIso now2 timestamp with
  | inr iso1, inr iso2 => is_Some (toFiniteNumber timestamp) -> iso1 = iso2
  | inl _, inl _ => True
  | _, _ => False
  end.
Proof.
  unfold validClock, MetaProvider.timestampIso, MetaProvider.toISOString.
  intros H1 H2. destruct (toFiniteNumber timestamp) as [seconds |].
  - destruct (Z.abs (seconds * 1000) <=? _); auto.
  - rewrite H1, H2. intros [x [=]].
Qed.

Lemma parseMessage_sameEvent (now1 now2 : Z) (msg : JsVal) :
  validClock now1 = true -> validClock now2 = true ->
  related (Forall2 sameEvent)
    (ev ← MetaProvider.parseMessage now1 msg; ok [ev])
    (ev ← MetaProvider.parseMessage now2 msg; ok [ev]).
Proof.
  intros H1 H2. unfold MetaProvider.parseMessage, prop.
  destruct (Js.get msg "timestamp") as [timestamp |] eqn:Htimestamp; cbn; [| exact I].
  pose proof (timestampIso_same now1 now2 timestamp H1 H2) as Hiso.
  destruct (MetaProvider.timestampIso now1 timestamp) as [e1 | iso1],
           (MetaProvider.timestampIso now2 timestamp) as [e2 | iso2];
    cbn; try exact I; try contradiction.
  rewrite <- (getOpt_get _ _ _ Htimestamp) in Hiso.
  repeat (destruct (Js.eqb _ _); cbn;
          [constructor; [| constructor]; split; [repeat split | exact Hiso] |]).
  constructor; [| constructor]; split; [repeat split | exact Hiso].
Qed.

Lemma parseIncoming_sameEvent (now1 now2 : Z) (payload : JsVal) :
  validClock now1 = true -> validClock now2 = true ->
  related (Forall2 sameEvent) (MetaProvider.parseIncoming now1 payload)
          (MetaProvider.parseIncoming now2 payload).
Proof.
  intros H1 H2.
  assert (forall change,
             related (Forall2 sameEvent) (MetaProvider.parseChange now1 change)
                     (MetaProvider.parseChange now2 change)) as Hchange.
  { intros change. unfold MetaProvider.parseChange.
    destruct (prop change "value") as [e | value]; cbn; [exact I |].
    destruct (Js.truthy _); [| constructor].
    destruct (iterable _) as [e | msgs]; cbn; [exact I |].
    apply collect_related. intros msg. now apply parseMessage_sameEvent. }
  assert (forall entry,
             related (Forall2 sameEvent) (MetaProvider.parseEntry now1 entry)
                     (MetaProvider.parseEntry now2 entry)) as Hentry.
  { intros entry. unfold MetaProvider.parseEntry.
    destruct (prop entry "changes") as [e | changes]; cbn; [exact I |].
    destruct (negb _); [constructor |].
    destruct (iterable _) as [e | cs]; cbn; [exact I |].
    now apply collect_related. }
  unfold MetaProvider.parseIncoming.
  destruct (prop payload "entry") as [e | entry]; cbn; [exact I |].
  destruct (negb _); [constructor |].
  destruct (iterable _) as [e | entries]; cbn; [exact I |].
  now apply collect_related.
Qed.

(** X8. Normalisation can be run again at any later time: if
    [parseIncoming] returns for a payload at one reading of the clock, it
    returns at every other reading, with the same number of events, which
    agree in everything but the time stamp, and in the time stamp too for
    every message whose [timestamp] converts to a finite number. *)
Theorem parseIncoming_replayable (now1 now2 : Z) (payload : JsVal)
    (events1 : list IncomingMessageEvent) :
  validClock now1 = true -> validClock now2 = true ->
  MetaProvider.parseIncoming now1 payload = ok events1 ->
  exists events2,
    MetaProvider.parseIncoming now2 payload = ok events2
    /\ Forall2 sameEvent events1 events2.
Proof.
  intros H1 H2 Hparse.
  pose proof (parseIncoming_sameEvent now1 now2 payload H1 H2) as Hrelated.
  rewrite Hparse in Hrelated.
  destruct (MetaProvider.parseIncoming now2 payload) as [e | events2]; [contradiction |].
  eauto.
Qed.

End ParsingFurther.

(* ===================================================================== *)
(** ** The helpers of the routes *)
(* ===================================================================== *)

Section HelperProperties.
Context {platform : Platform}.

Lemma lowerAscii_idempotent (c : ascii) : Str.lowerAscii (Str.lowerAscii c) = Str.lowerAscii c.
Proof. destruct c as [[] [] [] [] [] [] [] []]; reflexivity. Qed.

Lemma lowerAscii_dot (c : ascii) : Ascii.eqb (Str.lowerAscii c) "." = Ascii.eqb c ".".
Proof. destruct c as [[] [] [] [] [] [] [] []]; reflexivity. Qed.

Lemma lowerAscii_ascii (c : ascii) :
  Nat.ltb (nat_of_ascii (Str.lowerAscii c)) 128 = Nat.ltb (nat_of_ascii c) 128.
Proof. destruct c as [[] [] [] [] [] [] [] []]; reflexivity. Qed.

Lemma toLowerAscii_idempotent (s : string) :
  Str.toLowerAscii (Str.toLowerAscii s) = Str.toLowerAscii s.
Proof. induction s as [| c s IH]; cbn; [reflexivity |]. now rewrite lowerAscii_idempotent, IH. Qed.

Lemma toLowerAscii_without_dot (s : string) :
  without "." (Str.toLowerAscii s) = without "." s.
Proof.
  unfold without. induction s as [| c s IH]; cbn; [reflexivity |].
  now rewrite lowerAscii_dot, IH.
Qed.

Lemma toLowerAscii_nonEmpty (s : string) : Str.nonEmpty (Str.toLowerAscii s) = Str.nonEmpty s.
Proof. now destruct s. Qed.

Lemma toLowerAscii_isAscii (s : string) : Str.isAscii (Str.toLowerAscii s) = Str.isAscii s.
Proof.
  unfold Str.isAscii. induction s as [| c s IH]; [reflexivity |].
  cbn [Str.toLowerAscii list_ascii_of_string forallb].
  now rewrite lowerAscii_ascii, IH.
Qed.

Lemma without_snoc (c x : ascii) (s : string) :
  without c (s ++ String x EmptyString) = without c s && negb (Ascii.eqb x c).
Proof.
  unfold without. induction s as [| y s IH].
  - change (EmptyString ++ String x EmptyString) with (String x EmptyString).
    cbn. now destruct (negb _).
  - change (String y s ++ String x EmptyString) with (String y (s ++ String x EmptyString)).
    cbn. now rewrite IH, andb_assoc.
Qed.

Lemma append_snoc (acc s : string) (x : ascii) :
  (acc ++ String x EmptyString) ++ s = acc ++ String x s.
Proof.
  induction acc as [| y acc IH]; [reflexivity |].
  change (String y acc ++ String x EmptyString) with (String y (acc ++ String x EmptyString)).
  change (String y (acc ++ String x EmptyString) ++ s)
    with (String y ((acc ++ String x EmptyString) ++ s)).
  now rewrite IH.
Qed.

Lemma append_empty (s : string) : s ++ EmptyString = s.
Proof.
  induction s as [| y s IH]; [reflexivity |].
  change (String y s ++ EmptyString) with (String y (s ++ EmptyString)). now rewrite IH.
Qed.

(** What follows the last separator has no separator in it. *)
Lemma afterLastAux_without (c : ascii) (s acc : string) :
  without c acc = true -> without c (Routes.afterLastAux c s acc) = true.
Proof.
  revert acc. induction s as [| x s IH]; cbn; intros acc Hacc; [exact Hacc |].
  destruct (Ascii.eqb x c) eqn:Hx.
  - now apply IH.
  - apply IH. now rewrite without_snoc, Hacc, Hx.
Qed.

(** Without a separator there is one segment: the whole string. *)
Lemma afterLastAux_whole (c : ascii) (s acc : string) :
  without c s = true -> Routes.afterLastAux c s acc = acc ++ s.
Proof.
  unfold without. revert acc. induction s as [| x s IH]; cbn; intros acc.
  - intros _. now rewrite append_empty.
  - rewrite andb_true_iff, negb_true_iff. intros [Hx Hs].
    rewrite Hx, IH by exact Hs. apply append_snoc.
Qed.

Lemma append_assoc (a b c : string) : (a ++ b) ++ c = a ++ (b ++ c).
Proof.
  induction a as [| x a IH]; [reflexivity |].
  change ((String x a ++ b) ++ c) with (String x ((a ++ b) ++ c)). now rewrite IH.
Qed.

(** What [split(".").pop()] returns is the part of the string behind its
    last dot, the whole string when it has no dot. *)
Lemma afterLastAux_behind (c : ascii) (s acc : string) :
  exists front,
    acc ++ s = front ++ Routes.afterLastAux c s acc
    /\ (front = EmptyString \/ exists stem, front = stem ++ String c EmptyString).
Proof.
  revert acc. induction s as [| x s IH]; intros acc.
  - exists EmptyString. cbn. rewrite append_empty. auto.
  - cbn [Routes.afterLastAux]. destruct (Ascii.eqb x c) eqn:Hx.
    + apply Ascii.eqb_eq in Hx. subst x.
      destruct (IH EmptyString) as (front & Hfront & Hshape).
      change (EmptyString ++ s) with s in Hfront.
      exists ((acc ++ String c EmptyString) ++ front). split.
      * rewrite append_assoc, <- Hfront. symmetry. apply append_snoc.
      * destruct Hshape as [-> | (stem & ->)]; right.
        -- exists acc. now rewrite append_empty.
        -- exists ((acc ++ String c EmptyString) ++ stem).
           symmetry. apply append_assoc.
    + destruct (IH (acc ++ String x EmptyString)) as (front & Hfront & Hshape).
      exists front. now rewrite <- append_snoc.
Qed.

(** X9. [getExtensionFromFilename] does not throw on a string or a falsy
    value and then returns a string or [null].  A string it returns is the
    lower-case form, as [String.prototype.toLowerCase] gives it, of what
    stands behind the last dot of the file name (of the whole name when it
    has no dot), and that part is not empty and contains no dot; when that
    part is ASCII the returned string is not empty, contains no dot and
    has no upper-case letter.  A file name without any dot is returned
    whole, in lower case, as its own extension; a name that ends in a dot
    has none. *)
Theorem getExtensionFromFilename_shape (name : string) :
  (forall filename,
      Js.isString filename = true \/ Js.truthy filename = false ->
      exists extension, Routes.getExtensionFromFilename filename = ok extension)
  /\ (forall filename extension,
      Routes.getExtensionFromFilename filename = ok extension ->
      extension = JNull
      \/ exists front segment,
           filename = JString (front ++ segment)
           /\ (front = EmptyString \/ exists stem, front = stem ++ ".")
           /\ segment <> EmptyString /\ without "." segment = true
           /\ extension = JString (toLowerCase segment)
           /\ (Str.isAscii segment = true ->
               toLowerCase segment <> EmptyString
               /\ without "." (toLowerCase segment) = true
               /\ Str.isAscii (toLowerCase segment) = true
               /\ Str.toLowerAscii (toLowerCase segment) = toLowerCase segment))
  /\ (name <> EmptyString -> without "." name = true ->
      Routes.getExtensionFromFilename (JString name) = ok (JString (toLowerCase name)))
  /\ Routes.getExtensionFromFilename (JString (name ++ ".")) = ok JNull.
Proof.
  split; [| split; [| split]].
  - intros filename Hfilename. unfold Routes.getExtensionFromFilename.
    destruct (Js.truthy filename) eqn:Htruthy; cbn [negb]; [| eauto].
    destruct Hfilename as [Hstring | [=]]. destruct filename; try discriminate. eauto.
  - intros filename extension. unfold Routes.getExtensionFromFilename.
    destruct (negb (Js.truthy filename)); [intros [= <-]; now left |].
    destruct filename as [| | | | s | | |]; try discriminate.
    destruct (Str.nonEmpty (Routes.lastSegment s)) eqn:Hsegment; intros [= <-]; [| now left].
    right. unfold Routes.lastSegment in *.
    destruct (afterLastAux_behind "." s EmptyString) as (front & Hfront & Hshape).
    change (EmptyString ++ s) with s in Hfront.
    exists front, (Routes.afterLastAux "." s EmptyString).
    split; [now f_equal |]. split; [exact Hshape |].
    split; [now apply nonEmpty_true |].
    split; [now apply afterLastAux_without |].
    split; [reflexivity |].
    intros Hascii. rewrite (toLowerCase_ascii _ Hascii).
    split; [| split; [| split]].
    + apply nonEmpty_true. now rewrite toLowerAscii_nonEmpty.
    + rewrite toLowerAscii_without_dot. now apply afterLastAux_without.
    + now rewrite toLowerAscii_isAscii.
    + apply toLowerAscii_idempotent.
  - intros Hname Hdot. unfold Routes.getExtensionFromFilename, Routes.lastSegment.
    apply nonEmpty_true in Hname. rewrite afterLastAux_whole by exact Hdot.
    change (EmptyString ++ name) with name.
    change (Js.truthy (JString name)) with (Str.nonEmpty name). now rewrite Hname.
  - unfold Routes.getExtensionFromFilename, Routes.lastSegment.
    assert (forall acc, Routes.afterLastAux "." (name ++ ".") acc = EmptyString) as Hlast.
    { induction name as [| x name IH]; intros acc; [reflexivity |].
      change (String x name ++ ".") with (String x (name ++ ".")). cbn.
      destruct (Ascii.eqb x "."); apply IH. }
    rewrite Hlast. destruct (negb _); reflexivity.
Qed.

Lemma stripLeadingDot_cases (x : ascii) (r : string) :
  Routes.stripLeadingDot (String x r) = if Ascii.eqb x "." then r else String x r.
Proof. destruct x as [[] [] [] [] [] [] [] []]; reflexivity. Qed.

Lemma stripLeadingDot_isAscii (s : string) :
  Str.isAscii s = true -> Str.isAscii (Routes.stripLeadingDot s) = true.
Proof.
  destruct s as [| x r]; [reflexivity |]. rewrite stripLeadingDot_cases.
  destruct (Ascii.eqb x "."); [| tauto].
  unfold Str.isAscii. cbn. now rewrite andb_true_iff.
Qed.

(** X10. [extensionToMediaType] classifies an extension whether or not it
    is written with its leading dot, and an ASCII extension whatever the
    case of its letters: the upper-case and mixed-case spellings of an
    extension are classified as its lower-case spelling is. *)
Theorem extensionToMediaType_normalises (extension : string) :
  (Str.isAscii extension = true ->
   toLowerCase extension = Str.toLowerAscii extension
   /\ Routes.extensionToMediaType (Some (toLowerCase extension))
      = Routes.extensionToMediaType (Some extension))
  /\ (Str.startsWith "." extension = false ->
      Routes.extensionToMediaType (Some ("." ++ extension))
      = Routes.extensionToMediaType (Some extension)).
Proof.
  split.
  - intros Hascii. split; [now apply toLowerCase_ascii |].
    rewrite (toLowerCase_ascii _ Hascii).
    unfold Routes.extensionToMediaType.
    cbn [Str.truthyOpt Str.orEmpty]. rewrite toLowerAscii_nonEmpty.
    destruct (negb (Str.nonEmpty extension)); [reflexivity |].
    rewrite (toLowerCase_ascii (Routes.stripLeadingDot (Str.toLowerAscii extension)))
      by now apply stripLeadingDot_isAscii; rewrite toLowerAscii_isAscii.
    rewrite (toLowerCase_ascii (Routes.stripLeadingDot extension))
      by now apply stripLeadingDot_isAscii.
    assert (Str.toLowerAscii (Routes.stripLeadingDot (Str.toLowerAscii extension))
            = Str.toLowerAscii (Routes.stripLeadingDot extension)) as ->; [| reflexivity].
    destruct extension as [| x r]; [reflexivity |].
    cbn [Str.toLowerAscii]. rewrite !stripLeadingDot_cases, lowerAscii_dot.
    destruct (Ascii.eqb x "."); cbn [Str.toLowerAscii];
      now rewrite ?lowerAscii_idempotent, toLowerAscii_idempotent.
  - intros Hdot. unfold Routes.extensionToMediaType.
    change ("." ++ extension) with (String "." extension).
    destruct extension as [| x r].
    { cbn [Str.truthyOpt Str.orEmpty Str.nonEmpty String.eqb Ascii.eqb Bool.eqb negb
           Routes.stripLeadingDot].
      now rewrite (toLowerCase_ascii EmptyString eq_refl). }
    cbn [Str.truthyOpt Str.orEmpty Str.nonEmpty String.eqb negb].
    change (Routes.stripLeadingDot (String "." (String x r))) with (String x r).
    rewrite stripLeadingDot_cases.
    unfold Str.startsWith in Hdot. cbn in Hdot.
    destruct (Ascii.eqb x ".") eqn:Hx; [| reflexivity].
    apply Ascii.eqb_eq in Hx. subst x. cbn in Hdot. now destruct r.
Qed.

(** What [createPendingMediaDescriptor] returns. *)
Lemma createPending_awaits (descriptor media : JsVal) :
  Routes.createPendingMediaDescriptor descriptor = ok media ->
  awaitsDownload media = true /\ Js.eqb media JNull = negb (Js.truthy descriptor).
Proof.
  unfold Routes.createPendingMediaDescriptor.
  destruct (Js.truthy descriptor); cbn [negb]; [| intros [= <-]; split; reflexivity].
  destruct (Js.nullish (getExtensionFromMime _)); cbn.
  - destruct (Routes.getExtensionFromFilename _); cbn; [discriminate |].
    intros [= <-]. split; reflexivity.
  - intros [= <-]. split; reflexivity.
Qed.

(** X11. [createPendingMediaDescriptor] throws in exactly one situation:
    the descriptor is truthy, its mime type gives no extension, and its
    file name is truthy without being a string.  Whenever it returns, the
    result is [null] exactly for a falsy descriptor, and otherwise a
    descriptor with origin [whatsapp] and status [pending], without URL
    and storage location, and with zero download attempts. *)
Theorem createPendingMediaDescriptor_outcome (descriptor : JsVal) :
  ((exists error, Routes.createPendingMediaDescriptor descriptor = inl error)
   <-> Js.truthy descriptor = true
       /\ Js.nullish (getExtensionFromMime (Js.getOpt descriptor "mimeType")) = true
       /\ Js.truthy (Js.getOpt descriptor "filename") = true
       /\ Js.isString (Js.getOpt descriptor "filename") = false)
  /\ (forall media,
        Routes.createPendingMediaDescriptor descriptor = ok media ->
        awaitsDownload media = true
        /\ (media = JNull <-> Js.truthy descriptor = false)).
Proof.
  split.
  - unfold Routes.createPendingMediaDescriptor, Routes.getExtensionFromFilename.
    destruct (Js.truthy descriptor); cbn [negb].
    2: { split; [intros (error & [=]) | intros ([=] & _)]. }
    destruct (Js.nullish (getExtensionFromMime _)); cbn.
    2: { split; [intros (error & [=]) | intros (_ & [=] & _)]. }
    destruct (Js.truthy (Js.getOpt descriptor "filename")); cbn.
    2: { split; [intros (error & [=]) | intros (_ & _ & [=] & _)]. }
    destruct (Js.getOpt descriptor "filename"); cbn;
      (split; [intros (error & H); try discriminate; auto | intros (_ & _ & _ & H)]);
      try discriminate; eauto.
  - intros media Hmedia. destruct (createPending_awaits _ _ Hmedia) as (Hawaits & Hnull).
    split; [exact Hawaits |]. rewrite <- negb_true_iff, <- Hnull. symmetry. apply Js_eqb_eq.
Qed.

Lemma stripTrailing_snoc (c : ascii) (s : string) :
  Routes.stripTrailing c (s ++ String c EmptyString) = Routes.stripTrailing c s.
Proof.
  induction s as [| x s IH].
  - change (EmptyString ++ String c EmptyString) with (String c EmptyString).
    cbn. now rewrite Ascii.eqb_refl.
  - change (String x s ++ String c EmptyString) with (String x (s ++ String c EmptyString)).
    cbn. now rewrite IH.
Qed.

(** X12. [resolvePublicMediaUrl] returns an absolute http(s) URL and the
    empty path as given, whatever is configured; and a trailing slash on
    the configured base URL makes no difference to the URL it builds. *)
Theorem resolvePublicMediaUrl_base (env : gmap string string) (req : Routes.SendRequest)
    (mediaPath base : string) :
  (Routes.isHttpUrl mediaPath = true \/ mediaPath = EmptyString ->
   Routes.resolvePublicMediaUrl env req mediaPath = mediaPath)
  /\ (base <> EmptyString ->
      Routes.resolvePublicMediaUrl (<["MEDIA_PUBLIC_BASE_URL" := base ++ "/"]> env) req mediaPath
      = Routes.resolvePublicMediaUrl (<["MEDIA_PUBLIC_BASE_URL" := base]> env) req mediaPath).
Proof.
  split.
  - unfold Routes.resolvePublicMediaUrl. intros [Hhttp | ->]; [| reflexivity].
    rewrite Hhttp. now destruct (negb _).
  - intros Hbase. unfold Routes.resolvePublicMediaUrl.
    destruct (negb (Str.nonEmpty mediaPath)); [reflexivity |].
    destruct (Routes.isHttpUrl mediaPath); [reflexivity |].
    rewrite !lookup_insert_eq.
    assert (Str.truthyOpt (Some (base ++ "/")) = true) as Hslash.
    { destruct base; [contradiction | reflexivity]. }
    assert (Str.truthyOpt (Some base) = true) as Hplain.
    { destruct base; [contradiction | reflexivity]. }
    unfold Str.orOpt. rewrite !Hslash, !Hplain. cbn [Str.orEmpty].
    now rewrite stripTrailing_snoc.
Qed.

End HelperProperties.

(* ===================================================================== *)
(** ** What one webhook call does to the tables *)
(* ===================================================================== *)

Section LedgerProperties.
Context {platform : Platform}.

Lemma delivered_nil (event : string) (clients : list WsClient) :
  delivered event [] clients = clients.
Proof.
  unfold delivered. transitivity (map (fun client => client) clients); [| apply List.map_id].
  apply map_ext. intros [[] sent]; cbn; now rewrite ?app_nil_r.
Qed.

Lemma delivered_app (event : string) (first second : list Message) (clients : list WsClient) :
  delivered event (first ++ second)%list clients
  = delivered event second (delivered event first clients).
Proof.
  unfold delivered. rewrite map_map. apply map_ext.
  intros [[] sent]; cbn; [| reflexivity]. now rewrite map_app, app_assoc.
Qed.

Lemma sameConfig_refl (w : World) : sameConfig w w.
Proof. unfold sameConfig. auto. Qed.

Lemma sameConfig_trans (w1 w2 w3 : World) :
  sameConfig w1 w2 -> sameConfig w2 w3 -> sameConfig w1 w3.
Proof. unfold sameConfig. intuition congruence. Qed.

(** A step that touches none of the tables. *)
Lemma Ledger_same (w w' : World) :
  messages w' = messages w -> webhookEvents w' = webhookEvents w ->
  wsClients w' = wsClients w -> mediaJobs w' = mediaJobs w -> sameConfig w w' ->
  Ledger w w' [].
Proof.
  intros Hm He Hws Hj Hc. constructor.
  - now rewrite app_nil_r.
  - exists []. now rewrite app_nil_r.
  - now rewrite delivered_nil.
  - exists []. now rewrite app_nil_r.
  - constructor.
  - exact Hc.
Qed.

Lemma Ledger_trans (w1 w2 w3 : World) (first second : list Message) :
  Ledger w1 w2 first -> Ledger w2 w3 second -> Ledger w1 w3 (first ++ second)%list.
Proof.
  intros [Hm1 (r1 & He1 & Hid1) Hws1 (j1 & Hj1 & Hjid1) Hs1 Hc1]
         [Hm2 (r2 & He2 & Hid2) Hws2 (j2 & Hj2 & Hjid2) Hs2 Hc2].
  constructor.
  - now rewrite Hm2, Hm1, app_assoc.
  - exists (r1 ++ r2)%list. split.
    + now rewrite He2, He1, app_assoc.
    + now rewrite omap_app, Hid1, Hid2, map_app.
  - now rewrite Hws2, Hws1, map_app, delivered_app.
  - exists (j1 ++ j2)%list. split.
    + now rewrite Hj2, Hj1, app_assoc.
    + now rewrite List.filter_app, !map_app, Hjid1, Hjid2.
  - apply Forall_app. now split.
  - now apply (sameConfig_trans w1 w2 w3).
Qed.

(** An audit record that names no message. *)
Lemma Ledger_log (w w' : World) (stored : list Message) (record : WebhookEvent) :
  Ledger w w' stored -> logged_messageId (we_response record) = None ->
  Ledger w (Storage.logWebhookEvent record w') stored.
Proof.
  intros [Hm (r & He & Hid) Hws Hj Hs Hc] Hrecord. constructor; try assumption.
  exists (r ++ [record])%list. split.
  - cbn. now rewrite He, app_assoc.
  - rewrite omap_app. cbn. now rewrite Hrecord, app_nil_r.
Qed.

Lemma Ledger_refl (w : World) : Ledger w w [].
Proof. apply Ledger_same; auto using sameConfig_refl. Qed.

(** One turn of the loop. *)
Lemma processEvent_ledger (provider : MetaProvider.t) (req : Request)
    (event : IncomingMessageEvent) (w : World) :
  exists stored, Ledger w (fst (Routes.processEvent provider req event w)) stored.
Proof.
  unfold Routes.processEvent.
  destruct (Routes.existingMessage event w); [exists []; apply Ledger_refl |].
  pose proof (conversationFor_fields event w) as Hfields.
  destruct (Routes.conversationFor event w) as [w1 conversation]. cbn [fst] in Hfields.
  destruct Hfields as (Hm & He & Hws & Hj & Hp & Hclock & Hi & Henv).
  assert (sameConfig w w1) as Hconfig by (unfold sameConfig; auto).
  destruct (Routes.createPendingMediaDescriptor (ev_media event)) as [error | media] eqn:Hmedia.
  { exists []. now apply Ledger_same. }
  destruct (createPending_awaits _ _ Hmedia) as (Hawaits & Hnull).
  eexists [_]. unfold Storage.createMessage.
  cbn -[Storage.freshId buildSignedMediaUrlsForMessage].
  constructor.
  - destruct (Js.truthy (ev_media event)); cbn; now rewrite Hm.
  - eexists [_]. destruct (Js.truthy (ev_media event)); cbn; now rewrite He, Hm.
  - destruct (Js.truthy (ev_media event)); cbn -[buildSignedMediaUrlsForMessage];
      now rewrite Hws, Hm.
  - unfold carriesMedia. cbn [List.filter msg_media]. rewrite Hnull.
    destruct (Js.truthy (ev_media event)); cbn.
    + eexists [_]. now rewrite Hj, Hm.
    + exists []. now rewrite Hj, app_nil_r.
  - constructor; [| constructor]. unfold storedInbound. cbn. auto.
  - unfold sameConfig in *. destruct (Js.truthy (ev_media event)); cbn; tauto.
Qed.

Lemma processEvents_ledger (provider : MetaProvider.t) (req : Request)
    (events : list IncomingMessageEvent) (w : World) :
  exists stored, Ledger w (fst (Routes.processEvents provider req events w)) stored.
Proof.
  revert w. induction events as [| event events IH]; intros w; cbn.
  - exists []. apply Ledger_refl.
  - destruct (processEvent_ledger provider req event w) as (first & Hfirst).
    destruct (Routes.processEvent provider req event w) as [w' [error | []]]; cbn [fst] in *.
    + eauto.
    + destruct (IH w') as (second & Hsecond). eauto using Ledger_trans.
Qed.

Lemma handleMetaWebhookEvent_ledger (req : Request) (w : World) :
  exists stored, Ledger w (fst (Routes.handleMetaWebhookEvent req w)) stored.
Proof.
  unfold Routes.handleMetaWebhookEvent, Routes.webhookFailure, Routes.rejectSignature.
  destruct (Routes.createMetaProvider w) as [error | [provider instance]].
  { exists []. cbn [fst]. apply Ledger_log; [apply Ledger_refl | reflexivity]. }
  destruct (negb _).
  { exists []. cbn [fst]. apply Ledger_log; [apply Ledger_refl | reflexivity]. }
  unfold Routes.ingestPayload, Routes.webhookFailure.
  destruct (MetaProvider.parseIncoming _ _) as [error | events].
  { exists []. cbn [fst]. apply Ledger_log; [apply Ledger_refl | reflexivity]. }
  destruct (Nat.eqb _ _).
  { exists []. cbn [fst]. apply Ledger_log; [apply Ledger_refl | reflexivity]. }
  destruct (processEvents_ledger provider req events w) as (stored & Hstored).
  destruct (Routes.processEvents provider req events w) as [w' [error | []]]; cbn [fst] in *.
  - exists stored. now apply Ledger_log.
  - eauto.
Qed.

Lemma handleMetaWebhookVerification_ledger (req : Request) (w : World) :
  Ledger w (fst (Routes.handleMetaWebhookVerification req w)) [].
Proof.
  unfold Routes.handleMetaWebhookVerification.
  destruct (Routes.verificationChallenge req); [| apply Ledger_refl].
  destruct (Routes.createMetaProvider w) as [error | [provider instance]].
  { cbn [fst]. apply Ledger_log; [apply Ledger_refl | reflexivity]. }
  destruct (negb _); [cbn [fst]; apply Ledger_log; [apply Ledger_refl | reflexivity] |].
  destruct (negb _); cbn [fst]; apply Ledger_log; (apply Ledger_refl || reflexivity).
Qed.

(** The whole webhook, whatever the method. *)
Lemma metaWebhook_ledger (req : Request) (w : World) :
  exists stored, Ledger w (fst (Routes.metaWebhook req w)) stored.
Proof.
  unfold Routes.metaWebhook.
  destruct (String.eqb _ "GET"); [exists []; apply handleMetaWebhookVerification_ledger |].
  destruct (String.eqb _ "POST"); [apply handleMetaWebhookEvent_ledger |].
  exists []. apply Ledger_refl.
Qed.

(** The media ingestions the loop starts are handed its provider. *)
Lemma processEvent_handed (provider : MetaProvider.t) (req : Request)
    (event : IncomingMessageEvent) (w : World) :
  exists jobs,
    mediaJobs (fst (Routes.processEvent provider req event w)) = (mediaJobs w ++ jobs)%list
    /\ Forall (fun job => job_provider job = provider) jobs.
Proof.
  unfold Routes.processEvent.
  destruct (Routes.existingMessage event w); [exists []; now rewrite app_nil_r |].
  pose proof (conversationFor_fields event w) as Hfields.
  destruct (Routes.conversationFor event w) as [w1 conversation]. cbn [fst] in Hfields.
  destruct Hfields as (_ & _ & _ & Hj & _).
  destruct (Routes.createPendingMediaDescriptor (ev_media event)) as [error | media].
  { exists []. cbn. now rewrite app_nil_r. }
  destruct (Js.truthy (ev_media event)); cbn.
  - eexists [_]. rewrite Hj. split; [reflexivity |]. now constructor.
  - exists []. now rewrite Hj, app_nil_r.
Qed.

Lemma processEvents_handed (provider : MetaProvider.t) (req : Request)
    (events : list IncomingMessageEvent) (w : World) :
  exists jobs,
    mediaJobs (fst (Routes.processEvents provider req events w)) = (mediaJobs w ++ jobs)%list
    /\ Forall (fun job => job_provider job = provider) jobs.
Proof.
  revert w. induction events as [| event events IH]; intros w; cbn.
  - exists []. now rewrite app_nil_r.
  - destruct (processEvent_handed provider req event w) as (first & Hfirst & Hprovider).
    destruct (Routes.processEvent provider req event w) as [w' [error | []]]; cbn [fst] in *.
    + eauto.
    + destruct (IH w') as (second & Hsecond & Hrest).
      exists (first ++ second)%list. rewrite Hsecond, Hfirst, app_assoc.
      split; [reflexivity |]. apply Forall_app. now split.
Qed.

Lemma metaWebhook_handed (req : Request) (w : World) :
  exists jobs,
    mediaJobs (fst (Routes.metaWebhook req w)) = (mediaJobs w ++ jobs)%list
    /\ forall job, In job jobs ->
         exists instance, Routes.createMetaProvider w = ok (job_provider job, instance).
Proof.
  assert (forall w', mediaJobs w' = mediaJobs w ->
            exists jobs,
              mediaJobs w' = (mediaJobs w ++ jobs)%list
              /\ forall job, In job jobs ->
                   exists instance,
                     Routes.createMetaProvider w = ok (job_provider job, instance)) as Hnone.
  { intros w' Hsame. exists []. rewrite app_nil_r. split; [exact Hsame | contradiction]. }
  destruct (metaWebhook_ledger req w) as (stored & [_ _ _ Hjobs _ _]).
  unfold Routes.metaWebhook in *.
  destruct (String.eqb _ "GET").
  { pose proof (handleMetaWebhookVerification_ledger req w) as [_ _ _ (jobs & Hj & Hid) _ _].
    destruct jobs; [| discriminate]. apply Hnone. now rewrite Hj, app_nil_r. }
  destruct (String.eqb _ "POST"); [| now apply Hnone].
  clear Hjobs. unfold Routes.handleMetaWebhookEvent, Routes.webhookFailure, Routes.rejectSignature.
  destruct (Routes.createMetaProvider w) as [error | [provider instance]];
    [now apply Hnone |].
  destruct (negb _); [now apply Hnone |].
  unfold Routes.ingestPayload, Routes.webhookFailure.
  destruct (MetaProvider.parseIncoming _ _) as [error | events]; [now apply Hnone |].
  destruct (Nat.eqb _ _); [now apply Hnone |].
  destruct (processEvents_handed provider req events w) as (jobs & Hj & Hprovider).
  exists jobs. rewrite Forall_forall in Hprovider.
  assert (forall job, In job jobs ->
            exists instance' : option WhatsappInstanceConfig,
              @inr Exn _ (provider, instance) = ok (job_provider job, instance')) as Hgiven.
  { intros job Hin. exists instance. now rewrite (Hprovider job) by now apply list_elem_of_In. }
  destruct (Routes.processEvents provider req events w) as [w' [error | []]];
    cbn [fst] in *; auto.
Qed.

(** X13. Whatever the request, a webhook call only ever appends to the
    messages table, and every message it appends is inbound, has status
    [received], is not a reply, has no sending user, and has either no
    media or a media descriptor that waits for its download (status
    [pending], no URL).  The call sends nothing: the requests made to the
    messages endpoint of the provider are as they were.  What it does
    with the provider is hand it on: every media ingestion it starts is
    given the provider the handler built for this call, to fetch the media
    with after the call has been answered.  The configuration and the
    clock are left alone. *)
Theorem webhook_stores_inbound_only (req : Request) (w : World) :
  let w' := fst (Routes.metaWebhook req w) in
  (exists stored,
      messages w' = (messages w ++ stored)%list /\ Forall storedInbound stored)
  /\ providerCalls w' = providerCalls w
  /\ (exists jobs,
        mediaJobs w' = (mediaJobs w ++ jobs)%list
        /\ forall job, In job jobs ->
             exists instance, Routes.createMetaProvider w = ok (job_provider job, instance))
  /\ defaultInstance w' = defaultInstance w /\ processEnv w' = processEnv w
  /\ clock w' = clock w.
Proof.
  destruct (metaWebhook_ledger req w) as (stored & [Hm _ _ _ Hs Hc]).
  pose proof (metaWebhook_handed req w) as Hjobs.
  cbn zeta. unfold sameConfig in Hc. split; [eauto | tauto].
Qed.

(** X14. The audit records a webhook call appends name each message the
    call stored exactly once, in the order the messages were stored; the
    other records it appends (rejections, failures, verification attempts,
    empty payloads) name no message. *)
Theorem webhook_audit_names_stored (req : Request) (w : World) :
  let w' := fst (Routes.metaWebhook req w) in
  exists stored records,
    messages w' = (messages w ++ stored)%list
    /\ webhookEvents w' = (webhookEvents w ++ records)%list
    /\ omap (fun record => logged_messageId (we_response record)) records
       = map msg_id stored.
Proof.
  destruct (metaWebhook_ledger req w) as (stored & [Hm (records & He & Hid) _ _ _ _]).
  cbn zeta. eauto.
Qed.

(** X15. A webhook call sends to every socket that is open exactly the
    messages it stored, with their media URLs signed, as
    [message_incoming] envelopes in the order they were stored; a socket
    that is not open is sent nothing, and no socket is added or removed. *)
Theorem webhook_broadcasts_stored (req : Request) (w : World) :
  let w' := fst (Routes.metaWebhook req w) in
  exists stored,
    messages w' = (messages w ++ stored)%list
    /\ wsClients w'
       = delivered "message_incoming" (map buildSignedMediaUrlsForMessage stored)
           (wsClients w).
Proof.
  destruct (metaWebhook_ledger req w) as (stored & [Hm _ Hws _ _ _]).
  cbn zeta. eauto.
Qed.

(** X16. A webhook call starts a background media ingestion for exactly
    the messages it stored that carry media, one each, in order, and for
    nothing else. *)
Theorem webhook_media_jobs (req : Request) (w : World) :
  let w' := fst (Routes.metaWebhook req w) in
  exists stored jobs,
    messages w' = (messages w ++ stored)%list
    /\ mediaJobs w' = (mediaJobs w ++ jobs)%list
    /\ map job_messageId jobs = map msg_id (List.filter carriesMedia stored).
Proof.
  destruct (metaWebhook_ledger req w) as (stored & [Hm _ _ (jobs & Hj & Hid) _ _]).
  cbn zeta. eauto.
Qed.


End LedgerProperties.

(* ===================================================================== *)
(** ** What every handler keeps *)
(* ===================================================================== *)

Section InvariantProperties.
Context {platform : Platform}.

Lemma keeps_refl (w : World) : keeps w w.
Proof. unfold keeps. auto. Qed.

Lemma keeps_trans (w1 w2 w3 : World) : keeps w1 w2 -> keeps w2 w3 -> keeps w1 w3.
Proof. unfold keeps. tauto. Qed.

Lemma keeps_ext (w a b : World) :
  keeps w a -> conversations b = conversations a -> messages b = messages a -> keeps w b.
Proof.
  unfold keeps, uniquePhones, attached, Storage.getConversationById.
  intros [Hunique Hattached] -> ->. auto.
Qed.

Lemma phone_absent (phone : JsVal) (l : list Conversation) :
  find (fun c => Js.eqb (conv_phone c) phone) l = None -> phone ∉ map conv_phone l.
Proof.
  rewrite list_elem_of_In. induction l as [| c l IH]; cbn; [tauto |].
  destruct (Js.eqb (conv_phone c) phone) eqn:Hc; [discriminate |].
  apply Js_eqb_neq in Hc. tauto.
Qed.

Lemma NoDup_snoc {A} (l : list A) (x : A) : NoDup l -> x ∉ l -> NoDup (l ++ [x]).
Proof.
  intros Hl Hx. apply NoDup_app. split; [exact Hl | split; [| apply NoDup_singleton]].
  intros y Hy Hsingle. apply list_elem_of_singleton in Hsingle. now subst.
Qed.

Lemma find_is_Some {A} (f : A -> bool) (l : list A) (x : A) :
  In x l -> f x = true -> is_Some (find f l).
Proof.
  induction l as [| y l IH]; cbn; [tauto |].
  intros [-> | Hin] Hx; [rewrite Hx; eauto |].
  destruct (f y); eauto.
Qed.

Lemma find_is_Some_app {A} (f : A -> bool) (l l' : list A) :
  is_Some (find f l) -> is_Some (find f (l ++ l')).
Proof. rewrite find_app_cases. now intros [x ->]. Qed.

(** A conversation touched without a change of identity is still found,
    and it is the touched one that is found. *)
Lemma find_touched (touch : Conversation -> Conversation) (l : list Conversation) (id : nat) :
  (forall c, conv_id (touch c) = conv_id c) ->
  find (fun c => Nat.eqb (conv_id c) id) (map touch l)
  = option_map touch (find (fun c => Nat.eqb (conv_id c) id) l).
Proof.
  intros Htouch. induction l as [| c l IH]; cbn; [reflexivity |].
  rewrite Htouch. now destruct (Nat.eqb (conv_id c) id).
Qed.

Lemma createConversation_kept (phone : JsVal) (user : option string) (w : World) :
  Storage.getConversationByPhone phone w = None ->
  keeps w (fst (Storage.createConversation phone user w)).
Proof.
  intros Hnone. unfold keeps, uniquePhones, attached, Storage.getConversationById. cbn. split.
  - intros Hunique. rewrite map_app. apply NoDup_snoc; [exact Hunique |].
    now apply phone_absent.
  - apply List.Forall_impl. intros m. apply find_is_Some_app.
Qed.

(** Storing a message of a conversation that exists and touching that
    conversation's [lastAt]. *)
Lemma persist_kept (w : World) (c : Conversation) (n : NewMessage) :
  In c (conversations w) -> new_conversationId n = conv_id c ->
  keeps w (Storage.updateConversationLastAt (conv_id c) (fst (Storage.createMessage n w))).
Proof.
  intros Hin Hn. unfold keeps, uniquePhones, attached, Storage.getConversationById. cbn.
  set (touch := fun c0 : Conversation =>
                  if Nat.eqb (conv_id c0) (conv_id c)
                  then mkConversation (conv_id c0) (conv_phone c0) (clock w)
                         (conv_archived c0) (conv_createdByUserId c0)
                  else c0).
  assert (forall c0, conv_id (touch c0) = conv_id c0) as Hid.
  { intros c0. unfold touch. now destruct (Nat.eqb _ _). }
  assert (forall id, is_Some (find (fun c0 => Nat.eqb (conv_id c0) id) (conversations w)) ->
                     is_Some (find (fun c0 => Nat.eqb (conv_id c0) id)
                                (map touch (conversations w)))) as Hfound.
  { intros id [c0 Hc0]. rewrite (find_touched touch _ id Hid), Hc0. cbn. eauto. }
  split.
  - intros Hunique. rewrite map_map.
    erewrite map_ext; [exact Hunique |].
    intros c0. unfold touch. now destruct (Nat.eqb _ _).
  - intros Hattached. apply Forall_app. split.
    + revert Hattached. apply List.Forall_impl. intros m. apply Hfound.
    + constructor; [| constructor]. cbn. rewrite Hn. apply Hfound.
      apply (find_is_Some _ _ c Hin). apply Nat.eqb_refl.
Qed.

Lemma conversationFor_kept (event : IncomingMessageEvent) (w : World) :
  keeps w (fst (Routes.conversationFor event w))
  /\ In (snd (Routes.conversationFor event w))
        (conversations (fst (Routes.conversationFor event w))).
Proof.
  unfold Routes.conversationFor.
  destruct (Storage.getConversationByPhone (ev_from event) w) as [c |] eqn:Hfind.
  - split; [apply keeps_refl |]. cbn. apply find_some in Hfind. tauto.
  - split; [now apply createConversation_kept |].
    cbn. apply List.in_app_iff. cbn. auto.
Qed.

Lemma processEvent_kept (provider : MetaProvider.t) (req : Request)
    (event : IncomingMessageEvent) (w : World) :
  keeps w (fst (Routes.processEvent provider req event w)).
Proof.
  unfold Routes.processEvent.
  destruct (Routes.existingMessage event w); [apply keeps_refl |].
  destruct (conversationFor_kept event w) as (Hkept & Hin).
  destruct (Routes.conversationFor event w) as [w1 conversation]. cbn [fst snd] in *.
  destruct (Routes.createPendingMediaDescriptor (ev_media event)) as [error | media];
    [exact Hkept |].
  apply (keeps_trans w w1); [exact Hkept |].
  destruct (Js.truthy (ev_media event));
    match goal with
    | |- context [Storage.createMessage ?n ?w'] =>
        eapply keeps_ext;
        [apply (persist_kept w' conversation n); [exact Hin | reflexivity]
        | reflexivity | reflexivity]
    end.
Qed.

Lemma processEvents_kept (provider : MetaProvider.t) (req : Request)
    (events : list IncomingMessageEvent) (w : World) :
  keeps w (fst (Routes.processEvents provider req events w)).
Proof.
  revert w. induction events as [| event events IH]; intros w; cbn; [apply keeps_refl |].
  pose proof (processEvent_kept provider req event w) as Hfirst.
  destruct (Routes.processEvent provider req event w) as [w' [error | []]]; cbn [fst] in *;
    [exact Hfirst |].
  exact (keeps_trans _ _ _ Hfirst (IH w')).
Qed.

Lemma logWebhookEvent_kept (w w' : World) (record : WebhookEvent) :
  keeps w w' -> keeps w (Storage.logWebhookEvent record w').
Proof. intros Hkept. now apply (keeps_ext w w'). Qed.

Lemma metaWebhook_kept (req : Request) (w : World) : keeps w (fst (Routes.metaWebhook req w)).
Proof.
  unfold Routes.metaWebhook.
  destruct (String.eqb _ "GET").
  { unfold Routes.handleMetaWebhookVerification.
    destruct (Routes.verificationChallenge req); [| apply keeps_refl].
    destruct (Routes.createMetaProvider w) as [error | [provider instance]];
      [apply logWebhookEvent_kept, keeps_refl |].
    destruct (negb _); [apply logWebhookEvent_kept, keeps_refl |].
    destruct (negb _); apply logWebhookEvent_kept, keeps_refl. }
  destruct (String.eqb _ "POST"); [| apply keeps_refl].
  unfold Routes.handleMetaWebhookEvent, Routes.webhookFailure, Routes.rejectSignature.
  destruct (Routes.createMetaProvider w) as [error | [provider instance]];
    [apply logWebhookEvent_kept, keeps_refl |].
  destruct (negb _); [apply logWebhookEvent_kept, keeps_refl |].
  unfold Routes.ingestPayload, Routes.webhookFailure.
  destruct (MetaProvider.parseIncoming _ _) as [error | events];
    [apply logWebhookEvent_kept, keeps_refl |].
  destruct (Nat.eqb _ _); [apply logWebhookEvent_kept, keeps_refl |].
  pose proof (processEvents_kept provider req events w) as Hloop.
  destruct (Routes.processEvents provider req events w) as [w' [error | []]]; cbn [fst] in *;
    [now apply logWebhookEvent_kept | exact Hloop].
Qed.

Lemma resolveConversation_kept (req : Routes.SendRequest) (w : World) :
  keeps w (fst (Routes.resolveConversation req w))
  /\ (forall c, snd (Routes.resolveConversation req w) = inr c ->
                In c (conversations (fst (Routes.resolveConversation req w)))).
Proof.
  unfold Routes.resolveConversation.
  destruct (Routes.send_conversationId req) as [id |].
  - destruct (Storage.getConversationById id w) as [c |] eqn:Hfind; cbn.
    + split; [apply keeps_refl |]. intros c' [= <-]. apply find_some in Hfind. tauto.
    + split; [apply keeps_refl | discriminate].
  - destruct (negb _); [split; [apply keeps_refl | discriminate] |].
    destruct (Storage.getConversationByPhone _ w) as [c |] eqn:Hfind.
    + split; [apply keeps_refl |]. intros c' [= <-]. apply find_some in Hfind. tauto.
    + split; [now apply createConversation_kept |].
      cbn. intros c' [= <-]. apply List.in_app_iff. cbn. auto.
Qed.

Lemma sendMessage_kept (req : Routes.SendRequest) (w : World) :
  keeps w (fst (Routes.sendMessage req w)).
Proof.
  unfold Routes.sendMessage.
  destruct (Str.isNone _ && negb _); [apply keeps_refl |].
  destruct (negb _ && negb _); [apply keeps_refl |].
  destruct (resolveConversation_kept req w) as (Hkept & Hin).
  destruct (Routes.resolveConversation req w) as [w1 [response | conversation]];
    cbn [fst snd] in *; [exact Hkept |].
  specialize (Hin conversation eq_refl).
  destruct (Routes.checkReplyTarget req conversation w1); [exact Hkept |].
  apply (keeps_trans w w1); [exact Hkept |].
  unfold Routes.dispatchAndPersist, Routes.dispatch.
  destruct (Routes.createMetaProvider w1) as [error | [provider instance]];
    [apply keeps_refl |].
  destruct (MetaProvider.send _ _ _ _) as [calls outcome].
  set (w0 := set_providerCalls (providerCalls w1 ++ calls) w1).
  apply (keeps_trans w1 w0); [now apply (keeps_ext w1 w1); [apply keeps_refl | |] |].
  destruct outcome as [providerError | providerResp];
    match goal with
    | |- context [Storage.createMessage ?n ?w'] =>
        eapply keeps_ext;
        [apply (persist_kept w' conversation n); [exact Hin | reflexivity]
        | reflexivity | reflexivity]
    end.
Qed.

Lemma endpoint_createConversation_kept (phone : JsVal) (user : option string) (w : World) :
  keeps w (fst (Endpoints.createConversation phone user w)).
Proof.
  unfold Endpoints.createConversation.
  destruct (negb _); [apply keeps_refl |].
  destruct (Storage.getConversationByPhone _ w) eqn:Hfind; [apply keeps_refl |].
  now apply createConversation_kept.
Qed.

Lemma webhookTest_kept (stored : JsVal) (req : Request) (w : World) :
  keeps w (fst (Endpoints.webhookTest stored req w)).
Proof.
  unfold Endpoints.webhookTest.
  destruct (negb _); [apply keeps_refl |].
  destruct (Endpoints.destructured _ _) as [error | from]; [apply keeps_refl |].
  destruct (negb _); [apply keeps_refl |].
  assert (exists w1 c,
             match Storage.getConversationByPhone from w with
             | Some conversation => (w, conversation)
             | None => Storage.createConversation from None w
             end = (w1, c)
             /\ keeps w w1 /\ In c (conversations w1)) as (w1 & c & -> & Hkept & Hin).
  { destruct (Storage.getConversationByPhone from w) as [c |] eqn:Hfind.
    - exists w, c. split; [reflexivity |]. split; [apply keeps_refl |].
      apply find_some in Hfind. tauto.
    - eexists _, _. split; [reflexivity |]. split.
      + now apply (createConversation_kept from None w).
      + cbn. apply List.in_app_iff. cbn. auto. }
  apply (keeps_trans w w1); [exact Hkept |].
  match goal with
  | |- context [Storage.createMessage ?n ?w'] =>
      eapply keeps_ext;
      [apply (persist_kept w' c n); [exact Hin | reflexivity] | reflexivity | reflexivity]
  end.
Qed.

(** X17. No handler ever gives two conversations the same phone: if no
    two conversations share a phone before a call to the webhook, to the
    send endpoint, to the test webhook or to the endpoint that opens a
    conversation, none do after it.  Each of them looks the phone up
    before it creates a conversation. *)
Theorem conversations_stay_unique (w : World) :
  uniquePhones w ->
  (forall req, uniquePhones (fst (Routes.metaWebhook req w)))
  /\ (forall req, uniquePhones (fst (Routes.sendMessage req w)))
  /\ (forall stored req, uniquePhones (fst (Endpoints.webhookTest stored req w)))
  /\ (forall phone user, uniquePhones (fst (Endpoints.createConversation phone user w))).
Proof.
  intros Hunique. repeat split; intros.
  - now apply metaWebhook_kept.
  - now apply sendMessage_kept.
  - now apply webhookTest_kept.
  - now apply endpoint_createConversation_kept.
Qed.

(** X18. No handler ever leaves a message without its conversation: if
    every stored message belongs to a stored conversation before a call to
    the webhook, to the send endpoint, to the test webhook or to the
    endpoint that opens a conversation, the same holds after it, for the
    messages the call stored too. *)
Theorem messages_stay_attached (w : World) :
  attached w ->
  (forall req, attached (fst (Routes.metaWebhook req w)))
  /\ (forall req, attached (fst (Routes.sendMessage req w)))
  /\ (forall stored req, attached (fst (Endpoints.webhookTest stored req w)))
  /\ (forall phone user, attached (fst (Endpoints.createConversation phone user w))).
Proof.
  intros Hattached. repeat split; intros.
  - now apply metaWebhook_kept.
  - now apply sendMessage_kept.
  - now apply webhookTest_kept.
  - now apply endpoint_createConversation_kept.
Qed.






End InvariantProperties.

(* ===================================================================== *)
(** ** The send endpoint, continued *)
(* ===================================================================== *)

Section SendFurther.
Context {platform : Platform}.

(** X19. A send request that passes validation, resolves its
    conversation, has a valid reply target when it is a reply, and whose
    dispatch the provider accepts is stored as one outbound message with
    status [sent], carrying the provider's message id ([null] when the
    provider returned none), the body, the media, the reply target and
    the sending user of the request; the requests made to the provider are
    recorded, the conversation's [lastAt] becomes the time of the call,
    the response is 200 with the stored message, and every open socket is
    sent exactly one [message_outgoing] envelope, which carries it. *)
Theorem send_success_recorded (req : Routes.SendRequest) (w w1 : World)
    (conversation : Conversation) (replyTarget : option Message)
    (provider : MetaProvider.t) (instance : option WhatsappInstanceConfig)
    (calls : list ProviderRequest) (providerResp : SendMessageResponse) :
  Str.isNone (Routes.send_conversationId req) && negb (Str.truthyOpt (Routes.send_to req))
  = false ->
  negb (Str.truthyOpt (Routes.send_body req)) && negb (Str.truthyOpt (Routes.send_media_url req))
  = false ->
  Routes.resolveConversation req w = (w1, inr conversation) ->
  Routes.checkReplyTarget req conversation w1 = inr replyTarget ->
  Routes.createMetaProvider w1 = inr (provider, instance) ->
  MetaProvider.send provider (conv_phone conversation) (Routes.send_body req)
                    (Routes.providerMediaUrl req w1)
  = (calls, inr providerResp) ->
  let w' := fst (Routes.sendMessage req w) in
  exists stored touched,
    messages w' = (messages w ++ [stored])%list
    /\ msg_status stored = sent
    /\ msg_direction stored = outbound
    /\ msg_conversationId stored = conv_id conversation
    /\ msg_providerMessageId stored = Js.or (resp_id providerResp) JNull
    /\ msg_body stored
       = match Routes.send_body req with
         | Some text => if Str.nonEmpty text then JString text else JNull
         | None => JNull
         end
    /\ msg_media stored = Routes.outboundMedia (Routes.send_media_url req) (clock w)
    /\ (Str.truthyOpt (Routes.send_media_url req) = false -> msg_media stored = JNull)
    /\ (Str.truthyOpt (Routes.send_media_url req) = true ->
        Js.getOpt (msg_media stored) "origin" = JString "upload"
        /\ Js.getOpt (msg_media stored) "status" = JString "ready"
        /\ Js.getOpt (msg_media stored) "provider" = JString "local")
    /\ msg_replyToMessageId stored = Routes.send_replyToMessageId req
    /\ msg_sentByUserId stored = Routes.send_userId req
    /\ providerCalls w' = (providerCalls w ++ calls)%list
    /\ Storage.getConversationById (conv_id conversation) w' = Some touched
    /\ conv_lastAt touched = clock w
    /\ snd (Routes.sendMessage req w)
       = {| res_status := 200;
            res_body := JsonMessage (buildSignedMediaUrlsForMessage stored) |}
    /\ wsClients w'
       = delivered "message_outgoing" [buildSignedMediaUrlsForMessage stored] (wsClients w).
Proof.
  intros Hto Hcontent Hconv Hreply Hprov Hsend.
  pose proof (resolveConversation_fields req w) as Hfields.
  pose proof (resolveConversation_config req w) as Hconfig.
  destruct (resolveConversation_kept req w) as (_ & Hin).
  rewrite Hconv in Hfields, Hconfig, Hin. cbn [fst snd] in Hfields, Hconfig, Hin.
  destruct Hfields as (Hm & Hws & Hp & _). destruct Hconfig as (Hclock & _).
  specialize (Hin conversation eq_refl).
  destruct (find_is_Some (fun c => Nat.eqb (conv_id c) (conv_id conversation)) _ _ Hin
              (Nat.eqb_refl _)) as (found & Hfound).
  cbn zeta. unfold Routes.sendMessage. rewrite Hto, Hcontent, Hconv, Hreply.
  unfold Routes.dispatchAndPersist, Routes.dispatch. rewrite Hprov, Hsend.
  cbn -[Routes.outboundMedia Routes.optJs delivered].
  unfold Storage.getMessageWithReplyById, Storage.getMessageById, Storage.getConversationById.
  cbn -[Routes.outboundMedia Routes.optJs Storage.freshId delivered].
  rewrite find_app_cases, (freshId_unused msg_id (messages w1)).
  cbn -[Routes.outboundMedia Routes.optJs Storage.freshId delivered]. rewrite Nat.eqb_refl.
  cbn -[Routes.outboundMedia Routes.optJs Storage.freshId delivered].
  rewrite find_touched by (intros c; now destruct (Nat.eqb _ _)).
  pose proof (proj2 (find_some _ _ Hfound)) as Hsame. cbn beta in Hsame.
  rewrite Hfound. cbn [option_map]. rewrite Hsame.
  eexists _, _. rewrite Hm, Hws, Hp, Hclock.
  split; [reflexivity |]. repeat (split; [reflexivity |]).
  split; [now destruct (Routes.send_body req) as [text |]; cbn; [destruct (Str.nonEmpty text) |] |].
  split; [reflexivity |].
  split; [intros Hnone; unfold Routes.outboundMedia; now rewrite Hnone |].
  split; [intros Hgiven; unfold Routes.outboundMedia; rewrite Hgiven; now cbn |].
  repeat split.
Qed.

Lemma digitsOnly_allDigits (s : string) : allDigits (Str.digitsOnly s) = true.
Proof.
  unfold allDigits. induction s as [| c s IH]; cbn; [reflexivity |].
  destruct (Str.isDigit c) eqn:Hc; cbn; [now rewrite Hc |]. exact IH.
Qed.

(** The requests one [send] makes. *)
Lemma send_calls (p : MetaProvider.t) (to : JsVal) (body mediaUrl : option string) :
  let calls := fst (MetaProvider.send p to body mediaUrl) in
  (List.length calls <= 1)%nat
  /\ Forall (fun call =>
               allDigits (payload_to (call_payload call)) = true
               /\ messaging_product (call_payload call) = "whatsapp"
               /\ call_bearer call = MetaProvider.token p)
            calls.
Proof.
  unfold MetaProvider.send. destruct (negb _ || negb _); [cbn; auto |].
  destruct to; cbn; auto.
  split; [lia |]. constructor; [| constructor].
  split; [apply digitsOnly_allDigits | auto].
Qed.

(** X20. One send request makes at most one request to the provider, and
    none at all unless it is answered 200; the recipient of that request
    holds nothing but digits, whatever the phone of the conversation looks
    like. *)
Theorem send_dispatches_at_most_once (req : Routes.SendRequest) (w : World) :
  let w' := fst (Routes.sendMessage req w) in
  let response := snd (Routes.sendMessage req w) in
  exists calls,
    providerCalls w' = (providerCalls w ++ calls)%list
    /\ (List.length calls <= 1)%nat
    /\ (res_status response <> 200%nat -> calls = [])
    /\ Forall (fun call =>
                 allDigits (payload_to (call_payload call)) = true
                 /\ messaging_product (call_payload call) = "whatsapp")
              calls.
Proof.
  cbn zeta. unfold Routes.sendMessage.
  destruct (Str.isNone _ && negb _).
  { exists []. cbn. rewrite app_nil_r. auto. }
  destruct (negb _ && negb _).
  { exists []. cbn. rewrite app_nil_r. auto. }
  pose proof (resolveConversation_fields req w) as Hfields.
  destruct (Routes.resolveConversation req w) as [w1 [response | conversation]];
    cbn [fst snd] in *; destruct Hfields as (_ & _ & Hp & _).
  { exists []. rewrite Hp, app_nil_r. auto. }
  destruct (Routes.checkReplyTarget req conversation w1).
  { exists []. cbn. rewrite Hp, app_nil_r. auto. }
  unfold Routes.dispatchAndPersist, Routes.dispatch.
  destruct (Routes.createMetaProvider w1) as [error | [provider instance]].
  { exists []. cbn. rewrite Hp, app_nil_r. auto. }
  pose proof (send_calls provider (conv_phone conversation) (Routes.send_body req)
                (Routes.providerMediaUrl req w1)) as (Hlength & Hcalls).
  destruct (MetaProvider.send _ _ _ _) as [calls outcome]. cbn [fst] in *.
  exists calls. destruct outcome; cbn; rewrite Hp;
    (split; [reflexivity | split; [exact Hlength | split; [congruence |]]]);
    revert Hcalls; apply List.Forall_impl; tauto.
Qed.

(** X21. A deployment configured from the environment alone (no stored
    default instance) in which [META_TOKEN] or [META_PHONE_NUMBER_ID] is
    missing or empty still answers a valid send request with 200: the
    message is stored with status [failed] and no request at all is made
    to the provider. *)
Theorem send_without_credentials (req : Routes.SendRequest) (w w1 : World)
    (conversation : Conversation) (replyTarget : option Message) :
  defaultInstance w = None ->
  Str.truthyOpt (processEnv w !! "META_TOKEN")
  && Str.truthyOpt (processEnv w !! "META_PHONE_NUMBER_ID") = false ->
  Str.isNone (Routes.send_conversationId req) && negb (Str.truthyOpt (Routes.send_to req))
  = false ->
  negb (Str.truthyOpt (Routes.send_body req)) && negb (Str.truthyOpt (Routes.send_media_url req))
  = false ->
  Routes.resolveConversation req w = (w1, inr conversation) ->
  Routes.checkReplyTarget req conversation w1 = inr replyTarget ->
  let w' := fst (Routes.sendMessage req w) in
  exists stored,
    messages w' = (messages w ++ [stored])%list
    /\ msg_status stored = failed
    /\ msg_providerMessageId stored = JNull
    /\ providerCalls w' = providerCalls w
    /\ res_status (snd (Routes.sendMessage req w)) = 200%nat.
Proof.
  intros Hinstance Hmissing Hto Hcontent Hconv Hreply.
  pose proof (resolveConversation_fields req w) as Hfields.
  pose proof (resolveConversation_config req w) as Hconfig.
  rewrite Hconv in Hfields, Hconfig. cbn [fst] in Hfields, Hconfig.
  destruct Hfields as (Hm & _ & Hp & _). destruct Hconfig as (_ & Hi & Henv).
  cbn zeta. unfold Routes.sendMessage. rewrite Hto, Hcontent, Hconv, Hreply.
  unfold Routes.dispatchAndPersist, Routes.dispatch, Routes.createMetaProvider,
    Storage.getDefaultWhatsappInstance.
  rewrite Hi, Hinstance, Henv. unfold MetaProvider.send.
  cbn [MetaProvider.new MetaProvider.token MetaProvider.phoneNumberId].
  rewrite !nonEmpty_orEmpty, !truthyOpt_orOpt_same, <- negb_andb, Hmissing.
  cbn -[Routes.outboundMedia Routes.optJs]. rewrite app_nil_r, Hm, Hp.
  eexists. repeat split.
Qed.

(** X22. [createMetaProvider] throws exactly when a default instance is
    stored and that instance is disabled or lacks its access token or its
    phone number id; the environment is not consulted then.  A provider
    built from a stored instance carries that instance's access token and
    phone number id, both non-empty, so that [send] always makes its
    request; a provider built without a stored instance carries what the
    environment holds, which may be nothing. *)
Theorem createMetaProvider_outcome (w : World) :
  ((exists error, Routes.createMetaProvider w = inl error)
   <-> exists instance,
         defaultInstance w = Some instance
         /\ (inst_isActive instance = Some false
             \/ Str.truthyOpt (inst_accessToken instance) = false
             \/ Str.truthyOpt (inst_phoneNumberId instance) = false))
  /\ (forall provider instance,
        Routes.createMetaProvider w = inr (provider, Some instance) ->
        defaultInstance w = Some instance
        /\ MetaProvider.token provider = Str.orEmpty (inst_accessToken instance)
        /\ MetaProvider.phoneNumberId provider = Str.orEmpty (inst_phoneNumberId instance)
        /\ forall to body mediaUrl,
             List.length (fst (MetaProvider.send provider (JString to) body mediaUrl)) = 1%nat)
  /\ (forall provider,
        Routes.createMetaProvider w = inr (provider, None) ->
        defaultInstance w = None
        /\ MetaProvider.token provider = Str.orEmpty (processEnv w !! "META_TOKEN")
        /\ MetaProvider.phoneNumberId provider
           = Str.orEmpty (processEnv w !! "META_PHONE_NUMBER_ID")).
Proof.
  unfold Routes.createMetaProvider, Storage.getDefaultWhatsappInstance.
  destruct (defaultInstance w) as [i |].
  - destruct (bool_decide (inst_isActive i = Some false)) eqn:Hactive.
    { apply bool_decide_eq_true in Hactive.
      split; [split; eauto | split; discriminate]. }
    apply bool_decide_eq_false in Hactive.
    destruct (Str.truthyOpt (inst_accessToken i)) eqn:Htoken; cbn [negb orb].
    2: { split; [split; eauto | split; discriminate]. }
    destruct (Str.truthyOpt (inst_phoneNumberId i)) eqn:Hphone; cbn [negb orb].
    2: { split; [split; eauto 6 | split; discriminate]. }
    split; [| split; [| discriminate]].
    + split; [intros (error & [=]) |].
      intros (instance & [= <-] & [H | [H | H]]); congruence.
    + intros provider instance [= <- <-]. cbn. unfold Str.orOpt. rewrite Htoken, Hphone.
      repeat split. intros to body mediaUrl. unfold MetaProvider.send. cbn.
      unfold Str.orOpt. now rewrite Htoken, Hphone, !nonEmpty_orEmpty, Htoken, Hphone.
  - split; [| split; [discriminate |]].
    + split; [intros (error & [=]) | intros (instance & [=] & _)].
    + intros provider [= <-]. cbn. unfold Str.orOpt.
      repeat split; now destruct (Str.truthyOpt _).
Qed.

Lemma outboundMedia_uploaded (media_url : option string) (now : Z) :
  uploaded (Routes.outboundMedia media_url now) = true.
Proof. unfold Routes.outboundMedia. now destruct (negb _). Qed.

(** X27. The send endpoint answers 200 exactly when it stored a message,
    and then it stored exactly one, which the response carries.  Whatever
    it stores is outbound, has status [sent] or, without a provider
    message id, [failed], has no raw payload, and has either no media or
    an uploaded file that is ready.  The endpoint never writes the audit
    log and never starts a media ingestion. *)
Theorem send_stores_outbound_only (req : Routes.SendRequest) (w : World) :
  let w' := fst (Routes.sendMessage req w) in
  let response := snd (Routes.sendMessage req w) in
  exists stored,
    messages w' = (messages w ++ stored)%list
    /\ Forall storedOutbound stored
    /\ (res_status response = 200%nat ->
        exists m, stored = [m]
                  /\ res_body response = JsonMessage (buildSignedMediaUrlsForMessage m))
    /\ (res_status response <> 200%nat -> stored = [])
    /\ webhookEvents w' = webhookEvents w
    /\ mediaJobs w' = mediaJobs w.
Proof.
  cbn zeta. unfold Routes.sendMessage.
  destruct (Str.isNone _ && negb _).
  { exists []. cbn. rewrite app_nil_r. repeat split; auto; discriminate. }
  destruct (negb _ && negb _).
  { exists []. cbn. rewrite app_nil_r. repeat split; auto; discriminate. }
  assert (mediaJobs (fst (Routes.resolveConversation req w)) = mediaJobs w) as Hjobs.
  { unfold Routes.resolveConversation. destruct (Routes.send_conversationId req) as [id |].
    - now destruct (Storage.getConversationById id w).
    - destruct (negb _); [reflexivity |].
      now destruct (Storage.getConversationByPhone _ w). }
  pose proof (resolveConversation_fields req w) as Hfields.
  destruct (Routes.resolveConversation req w) as [w1 [response | conversation]] eqn:Hconv;
    cbn [fst snd] in *; destruct Hfields as (Hm & _ & _ & He).
  { exists []. rewrite Hm, He, Hjobs, app_nil_r. repeat split; auto.
    - unfold Routes.resolveConversation in Hconv.
      destruct (Routes.send_conversationId req) as [id |].
      + destruct (Storage.getConversationById id w); [discriminate |].
        injection Hconv as <- <-. discriminate.
      + destruct (negb _); [injection Hconv as <- <-; discriminate |].
        destruct (Storage.getConversationByPhone _ w); discriminate. }
  unfold Routes.checkReplyTarget.
  assert (forall status message,
             status <> 200%nat ->
             exists stored,
               messages w1 = (messages w ++ stored)%list
               /\ Forall storedOutbound stored
               /\ (res_status (Routes.jsonError status message) = 200%nat ->
                   exists m, stored = [m]
                             /\ res_body (Routes.jsonError status message)
                                = JsonMessage (buildSignedMediaUrlsForMessage m))
               /\ (res_status (Routes.jsonError status message) <> 200%nat -> stored = [])
               /\ webhookEvents w1 = webhookEvents w
               /\ mediaJobs w1 = mediaJobs w) as Hrejected.
  { intros status message Hstatus. exists []. rewrite Hm, He, Hjobs, app_nil_r.
    repeat split; auto. cbn. contradiction. }
  assert (exists stored,
             messages (fst (Routes.dispatchAndPersist req conversation w1))
             = (messages w ++ stored)%list
             /\ Forall storedOutbound stored
             /\ (res_status (snd (Routes.dispatchAndPersist req conversation w1)) = 200%nat ->
                 exists m, stored = [m]
                           /\ res_body (snd (Routes.dispatchAndPersist req conversation w1))
                              = JsonMessage (buildSignedMediaUrlsForMessage m))
             /\ (res_status (snd (Routes.dispatchAndPersist req conversation w1)) <> 200%nat ->
                 stored = [])
             /\ webhookEvents (fst (Routes.dispatchAndPersist req conversation w1))
                = webhookEvents w
             /\ mediaJobs (fst (Routes.dispatchAndPersist req conversation w1)) = mediaJobs w)
    as Hdispatched.
  { unfold Routes.dispatchAndPersist, Routes.dispatch.
    destruct (Routes.createMetaProvider w1) as [error | [provider instance]].
    { exists []. cbn. rewrite Hm, He, Hjobs, app_nil_r. repeat split; auto; discriminate. }
    destruct (MetaProvider.send _ _ _ _) as [calls outcome].
    pose proof (outboundMedia_uploaded (Routes.send_media_url req) (clock w1)) as Hmedia.
    destruct outcome as [providerError | providerResp];
      cbn -[Routes.outboundMedia Routes.optJs];
      unfold Storage.getMessageWithReplyById, Storage.getMessageById;
      cbn -[Routes.outboundMedia Routes.optJs Storage.freshId];
      rewrite find_app_cases, (freshId_unused msg_id (messages w1));
      cbn -[Routes.outboundMedia Routes.optJs Storage.freshId]; rewrite Nat.eqb_refl;
      cbn -[Routes.outboundMedia Routes.optJs Storage.freshId];
      rewrite Hm, He, Hjobs; eexists [_];
      (split; [reflexivity |]);
      (split; [constructor; [| constructor]; unfold storedOutbound; cbn -[Routes.outboundMedia];
               auto |]);
      (split; [intros _; eexists; split; reflexivity |]);
      (split; [intros Hstatus; now contradiction Hstatus |]); split; reflexivity. }
  destruct (Routes.send_replyToMessageId req) as [replyToMessageId |]; [| exact Hdispatched].
  destruct (Storage.getMessageById replyToMessageId w1) as [messageTarget |];
    [| apply Hrejected; discriminate].
  destruct (negb _); [apply Hrejected; discriminate |].
  destruct (msg_direction messageTarget); [exact Hdispatched | apply Hrejected; discriminate].
Qed.

End SendFurther.

(* ===================================================================== *)
(** ** The mount point of the webhook *)
(* ===================================================================== *)

Section MountProperties.
Context {platform : Platform}.

Lemma append_cons (x : ascii) (s t : string) : String x s ++ t = String x (s ++ t).
Proof. reflexivity. Qed.

Lemma collapse_noDouble (s : string) : Mount.noDouble (Mount.collapseSlashes s) = true.
Proof.
  induction s as [| c r IH]; [reflexivity |].
  cbn [Mount.collapseSlashes]. destruct (Ascii.eqb c "/") eqn:Hc.
  - destruct r as [| c' r']; [reflexivity |].
    destruct (Ascii.eqb c' "/") eqn:Hc'; [exact IH |].
    cbn [Mount.collapseSlashes] in *. rewrite Hc' in *.
    cbn [Mount.noDouble]. cbn [Mount.noDouble] in IH. now rewrite IH, Hc', andb_false_r.
  - cbn [Mount.noDouble]. destruct (Mount.collapseSlashes r) as [| c' r'] eqn:Hr; [reflexivity |].
    now rewrite Hc.
Qed.

Lemma noDouble_collapse (s : string) :
  Mount.noDouble s = true -> Mount.collapseSlashes s = s.
Proof.
  induction s as [| c r IH]; [reflexivity |].
  cbn [Mount.noDouble Mount.collapseSlashes].
  destruct r as [| c' r'].
  - intros _. now destruct (Ascii.eqb c "/").
  - rewrite andb_true_iff, negb_true_iff. intros [Hpair Hr].
    rewrite (IH Hr). destruct (Ascii.eqb c "/"); [| reflexivity].
    cbn in Hpair. now rewrite Hpair.
Qed.

Lemma startsWith_slash_cons (r : string) : Str.startsWith "/" (String "/" r) = true.
Proof. unfold Str.startsWith. cbn. now destruct r. Qed.

Lemma startsWith_slash_head (c : ascii) (r r' : string) :
  Str.startsWith "/" (String c r) = Str.startsWith "/" (String c r').
Proof.
  unfold Str.startsWith.
  change (String.prefix "/" (String c r))
    with (if ascii_dec "/" c then String.prefix EmptyString r else false).
  change (String.prefix "/" (String c r'))
    with (if ascii_dec "/" c then String.prefix EmptyString r' else false).
  destruct (ascii_dec "/" c); [now destruct r, r' | reflexivity].
Qed.

Lemma startsWith_slash_inv (c : ascii) (r : string) :
  Str.startsWith "/" (String c r) = true -> c = "/"%char.
Proof.
  unfold Str.startsWith.
  change (String.prefix "/" (String c r))
    with (if ascii_dec "/" c then String.prefix EmptyString r else false).
  now destruct (ascii_dec "/" c).
Qed.

Lemma collapse_startsWith (s : string) :
  Str.startsWith "/" s = true -> Str.startsWith "/" (Mount.collapseSlashes s) = true.
Proof.
  destruct s as [| c r]; [discriminate |].
  intros Hc. apply startsWith_slash_inv in Hc. subst c.
  induction r as [| c' r' IH]; [reflexivity |].
  cbn [Mount.collapseSlashes] in *. cbn [Ascii.eqb Bool.eqb] in *.
  destruct (Ascii.eqb c' "/") eqn:Hc'; [| apply startsWith_slash_cons].
  apply Ascii.eqb_eq in Hc'. subst c'. exact IH.
Qed.

Lemma stripTrailing_endsWith (c : ascii) (s : string) :
  Mount.endsWith c (Routes.stripTrailing c s) = false.
Proof.
  induction s as [| x r IH]; [reflexivity |].
  cbn [Routes.stripTrailing].
  destruct (Routes.stripTrailing c r) as [| y r'] eqn:Hr.
  - destruct (Ascii.eqb x c) eqn:Hx; [reflexivity | exact Hx].
  - exact IH.
Qed.

(** What is left after stripping begins like the string did. *)
Lemma stripTrailing_head (c y : ascii) (r r' : string) :
  Routes.stripTrailing c r = String y r' -> exists r0, r = String y r0.
Proof.
  destruct r as [| x r0]; [discriminate |]. cbn.
  destruct (Routes.stripTrailing c r0); [destruct (Ascii.eqb x c) |];
    intros [= <- _]; eauto.
Qed.

Lemma stripTrailing_noDouble (s : string) :
  Mount.noDouble s = true -> Mount.noDouble (Routes.stripTrailing "/" s) = true.
Proof.
  induction s as [| x r IH]; [reflexivity |].
  intros Hs. cbn [Routes.stripTrailing].
  destruct (Routes.stripTrailing "/" r) as [| y r'] eqn:Hr.
  - now destruct (Ascii.eqb x "/").
  - destruct (stripTrailing_head _ _ _ _ Hr) as (r0 & ->).
    cbn [Mount.noDouble] in Hs |- *. apply andb_true_iff in Hs as [Hpair Hrest].
    rewrite Hpair. cbn. apply (IH Hrest).
Qed.

Lemma stripTrailing_fixed (c : ascii) (s : string) :
  Mount.endsWith c s = false -> Routes.stripTrailing c s = s.
Proof.
  induction s as [| x r IH]; [reflexivity |].
  cbn [Mount.endsWith Routes.stripTrailing]. destruct r as [| y r'].
  - intros ->. reflexivity.
  - intros Hr. now rewrite (IH Hr).
Qed.

(** The two steps the normalisations share leave a canonical path. *)
Lemma dropTrailingSlashes_canonical (s : string) :
  Str.startsWith "/" s = true ->
  Mount.canonical (Mount.dropTrailingSlashes (Mount.collapseSlashes s)) = true.
Proof.
  intros Hs. pose proof (collapse_startsWith s Hs) as Hstart.
  pose proof (collapse_noDouble s) as Hdouble.
  destruct (Mount.collapseSlashes s) as [| c r]; [discriminate |].
  apply startsWith_slash_inv in Hstart. subst c.
  unfold Mount.dropTrailingSlashes, Mount.canonical.
  destruct r as [| y r0]; [reflexivity |].
  cbn [String.length]. change (Nat.ltb 1 (S (S (String.length r0)))) with true.
  cbn [andb].
  destruct (Mount.endsWith "/" (String "/" (String y r0))) eqn:Hends.
  - pose proof (stripTrailing_noDouble _ Hdouble) as Hstripped.
    pose proof (stripTrailing_endsWith "/" (String "/" (String y r0))) as Hend.
    assert (exists r1, Routes.stripTrailing "/" (String "/" (String y r0))
                       = String "/" (String y r1)) as (r1 & Heq).
    { cbn [Mount.noDouble] in Hdouble. apply andb_true_iff in Hdouble as [Hpair _].
      cbn in Hpair. apply negb_true_iff in Hpair.
      cbn [Routes.stripTrailing]. destruct (Routes.stripTrailing "/" r0);
        rewrite ?Hpair; eauto. }
    rewrite Heq in *. rewrite startsWith_slash_cons, Hstripped, Hend.
    cbn [andb negb]. apply orb_true_r.
  - rewrite startsWith_slash_cons, Hdouble, Hends. cbn [andb negb]. apply orb_true_r.
Qed.

Lemma canonical_fixed (path : string) :
  Mount.canonical path = true -> Mount.normalizeForComparison path = path.
Proof.
  unfold Mount.canonical. rewrite !andb_true_iff. intros [[Hstart Hdouble] Hend].
  unfold Mount.normalizeForComparison. rewrite Hstart, (noDouble_collapse _ Hdouble).
  destruct path as [| c r]; [discriminate |]. cbn [Str.nonEmpty String.eqb negb].
  unfold Mount.dropTrailingSlashes.
  apply orb_true_iff in Hend as [Hroot | Hend].
  - apply String.eqb_eq in Hroot. now rewrite Hroot.
  - apply negb_true_iff in Hend. now rewrite Hend, andb_false_r.
Qed.

Lemma normalizeForComparison_canonical (path : string) :
  Mount.canonical (Mount.normalizeForComparison path) = true.
Proof.
  unfold Mount.normalizeForComparison.
  destruct (negb (Str.nonEmpty path)); [reflexivity |].
  pose proof (dropTrailingSlashes_canonical
                (if Str.startsWith "/" path then path else "/" ++ path)) as Hcanonical.
  destruct (Str.nonEmpty _) eqn:Hne; [| reflexivity].
  apply Hcanonical. destruct (Str.startsWith "/" path) eqn:Hstart;
    [exact Hstart | exact (startsWith_slash_cons path)].
Qed.

Lemma normalizeWebhookPath_canonical (inputPath : JsVal) :
  Str.startsWith "/webhook" (Mount.normalizeWebhookPath inputPath) = true
  /\ Mount.canonical (Mount.normalizeWebhookPath inputPath) = true.
Proof.
  unfold Mount.normalizeWebhookPath.
  destruct inputPath as [| | | | s | | |]; try (split; reflexivity).
  destruct (Nat.eqb _ 0); [split; reflexivity |].
  pose proof (dropTrailingSlashes_canonical
                (if negb (Str.startsWith "/" (Str.trim s)) then "/" ++ Str.trim s
                 else Str.trim s)) as Hcanonical.
  cbn zeta.
  set (normalized := Mount.dropTrailingSlashes _) in *.
  assert (Mount.canonical normalized = true) as Hnormalized.
  { apply Hcanonical. destruct (Str.startsWith "/" (Str.trim s)) eqn:Hstart; cbn [negb];
      [exact Hstart | exact (startsWith_slash_cons (Str.trim s))]. }
  clear Hcanonical. clearbody normalized.
  destruct (Str.startsWith "/webhook" normalized) eqn:Hprefix; cbn [negb].
  - destruct normalized; [discriminate |]. cbn [Str.nonEmpty String.eqb negb]. auto.
  - destruct (String.eqb normalized "/") eqn:Hroot; [split; reflexivity |].
    unfold Mount.canonical in Hnormalized. rewrite Hroot in Hnormalized.
    apply andb_true_iff in Hnormalized as [Hrest Hend].
    apply andb_true_iff in Hrest as [Hstart Hdouble].
    destruct normalized as [| c r]; [discriminate |].
    apply startsWith_slash_inv in Hstart. subst c.
    change ("/webhook" ++ String "/" r) with (String "/" ("webhook" ++ String "/" r)).
    cbn [Str.nonEmpty String.eqb negb]. split; [reflexivity |].
    unfold Mount.canonical. cbn [orb] in Hend.
    change (Mount.noDouble (String "/" ("webhook" ++ String "/" r)))
      with (Mount.noDouble (String "/" r)).
    change (Mount.endsWith "/" (String "/" ("webhook" ++ String "/" r)))
      with (Mount.endsWith "/" (String "/" r)).
    rewrite startsWith_slash_cons, Hdouble, Hend. cbn [andb]. apply orb_true_r.
Qed.

(** X23. Whatever value it is given, [normalizeWebhookPath] returns a path
    under [/webhook] in canonical form: no two slashes in a row, no
    trailing slash.  That path is left as it is by
    [normalizeForComparison], so the middleware compares request paths
    with exactly the path that was configured: a request is handled by the
    webhook when its path, brought into the form used for comparison, is
    the configured path, and is left to the routes that follow when it is
    any other path. *)
Theorem normalizeWebhookPath_mounts (inputPath : JsVal) (req : Request) (w : World) :
  let mounted := Mount.updateMetaWebhookPath inputPath in
  Str.startsWith "/webhook" mounted = true
  /\ Mount.noDouble mounted = true
  /\ Mount.endsWith "/" mounted = false
  /\ Mount.normalizeForComparison mounted = mounted
  /\ (forall path,
        Mount.normalizeForComparison path = mounted ->
        Mount.webhookMiddleware mounted path req w = Some (Routes.metaWebhook req w))
  /\ (forall path,
        Mount.normalizeForComparison path <> mounted ->
        Mount.webhookMiddleware mounted path req w = None).
Proof.
  cbn zeta. unfold Mount.updateMetaWebhookPath.
  destruct (normalizeWebhookPath_canonical inputPath) as (Hprefix & Hcanonical).
  pose proof (canonical_fixed _ Hcanonical) as Hfixed.
  split; [exact Hprefix |].
  unfold Mount.canonical in Hcanonical. rewrite !andb_true_iff in Hcanonical.
  destruct Hcanonical as [[Hstart Hdouble] Hend].
  split; [exact Hdouble |]. split.
  - apply orb_true_iff in Hend as [Hroot | Hend]; [| now apply negb_true_iff].
    apply String.eqb_eq in Hroot. rewrite Hroot in Hprefix. discriminate.
  - split; [exact Hfixed |].
    unfold Mount.webhookMiddleware, Mount.pathsMatchMetaWebhook. rewrite Hfixed.
    split; intros path Hpath.
    + apply String.eqb_eq in Hpath. now rewrite Hpath.
    + apply String.eqb_neq in Hpath. now rewrite Hpath.
Qed.

Lemma endsWith_snoc (c : ascii) (s : string) :
  Mount.endsWith c (s ++ String c EmptyString) = true.
Proof.
  induction s as [| x r IH]; [cbn; apply Ascii.eqb_refl |].
  rewrite append_cons. cbn [Mount.endsWith].
  destruct r as [| y r']; [cbn; apply Ascii.eqb_refl | exact IH].
Qed.

Lemma collapse_nonEmpty (c : ascii) (r : string) :
  Mount.collapseSlashes (String c r) <> EmptyString.
Proof.
  revert c. induction r as [| c' r' IH]; intros c.
  - cbn. now destruct (Ascii.eqb c "/").
  - change (Mount.collapseSlashes (String c (String c' r')))
      with (if Ascii.eqb c "/"
            then if Ascii.eqb c' "/" then Mount.collapseSlashes (String c' r')
                 else String c (Mount.collapseSlashes (String c' r'))
            else String c (Mount.collapseSlashes (String c' r'))).
    destruct (Ascii.eqb c "/"); [| discriminate].
    destruct (Ascii.eqb c' "/"); [apply IH | discriminate].
Qed.

Lemma endsWith_cons (c x : ascii) (s : string) :
  s <> EmptyString -> Mount.endsWith c (String x s) = Mount.endsWith c s.
Proof. now destruct s. Qed.

Lemma collapse_endsWith (s : string) :
  Mount.endsWith "/" (Mount.collapseSlashes s) = Mount.endsWith "/" s.
Proof.
  induction s as [| c r IH]; [reflexivity |].
  destruct r as [| c' r'].
  - cbn. now destruct (Ascii.eqb c "/") eqn:Hc; cbn; rewrite Hc.
  - rewrite (endsWith_cons "/" c (String c' r')) by discriminate.
    assert (Mount.endsWith "/" (String c (Mount.collapseSlashes (String c' r')))
            = Mount.endsWith "/" (String c' r')) as Hcons.
    { rewrite endsWith_cons by apply collapse_nonEmpty. exact IH. }
    change (Mount.collapseSlashes (String c (String c' r')))
      with (if Ascii.eqb c "/"
            then if Ascii.eqb c' "/" then Mount.collapseSlashes (String c' r')
                 else String c (Mount.collapseSlashes (String c' r'))
            else String c (Mount.collapseSlashes (String c' r'))).
    destruct (Ascii.eqb c "/"); [| exact Hcons].
    destruct (Ascii.eqb c' "/"); [exact IH | exact Hcons].
Qed.

Lemma collapse_cons (c c' : ascii) (r : string) :
  Mount.collapseSlashes (String c (String c' r))
  = if Ascii.eqb c "/"
    then if Ascii.eqb c' "/" then Mount.collapseSlashes (String c' r)
         else String c (Mount.collapseSlashes (String c' r))
    else String c (Mount.collapseSlashes (String c' r)).
Proof. reflexivity. Qed.

Lemma collapse_snoc (s : string) :
  s <> EmptyString ->
  Mount.collapseSlashes (s ++ "/")
  = if Mount.endsWith "/" s then Mount.collapseSlashes s
    else Mount.collapseSlashes s ++ "/".
Proof.
  induction s as [| c r IH]; [contradiction |]. intros _.
  rewrite append_cons. destruct r as [| c' r'].
  - change (EmptyString ++ "/") with "/". cbn.
    destruct (Ascii.eqb c "/") eqn:Hc; cbn; rewrite ?Hc; [| reflexivity].
    apply Ascii.eqb_eq in Hc. now subst c.
  - specialize (IH ltac:(discriminate)). rewrite append_cons in *.
    rewrite (endsWith_cons "/" c (String c' r')) by discriminate.
    rewrite !collapse_cons, IH.
    destruct (Ascii.eqb c "/"), (Ascii.eqb c' "/"),
      (Mount.endsWith "/" (String c' r')); reflexivity.
Qed.

Lemma normalizeForComparison_slash (path : string) :
  Mount.normalizeForComparison (path ++ "/") = Mount.normalizeForComparison path.
Proof.
  destruct path as [| c r]; [reflexivity |].
  unfold Mount.normalizeForComparison.
  rewrite append_cons. cbn [Str.nonEmpty String.eqb negb].
  set (rooted := if Str.startsWith "/" (String c r) then String c r else "/" ++ String c r).
  assert ((if Str.startsWith "/" (String c (r ++ "/")) then String c (r ++ "/")
           else "/" ++ String c (r ++ "/")) = rooted ++ "/") as ->.
  { unfold rooted. rewrite (startsWith_slash_head c (r ++ "/") r).
    now destruct (Str.startsWith "/" (String c r)). }
  assert (Str.startsWith "/" rooted = true) as Hstart.
  { unfold rooted. destruct (Str.startsWith "/" (String c r)) eqn:H;
      [exact H | apply startsWith_slash_cons]. }
  assert (rooted <> EmptyString) as Hrooted.
  { unfold rooted. now destruct (Str.startsWith "/" (String c r)). }
  clearbody rooted.
  rewrite (collapse_snoc rooted Hrooted).
  destruct (Mount.endsWith "/" rooted) eqn:Hends; [reflexivity |].
  pose proof (collapse_endsWith rooted) as Hcollapsed. rewrite Hends in Hcollapsed.
  pose proof (collapse_startsWith rooted Hstart) as Hcstart.
  destruct (Mount.collapseSlashes rooted) as [| d y] eqn:Hy; [discriminate |].
  unfold Mount.dropTrailingSlashes.
  rewrite Hcollapsed, andb_false_r, endsWith_snoc, andb_true_r.
  rewrite append_cons. cbn [String.length].
  replace (Nat.ltb 1 (S (String.length (y ++ "/")))) with true.
  2: { now destruct y. }
  rewrite <- append_cons, stripTrailing_snoc, (stripTrailing_fixed _ _ Hcollapsed).
  reflexivity.
Qed.

(** X24. Which requests the webhook middleware takes does not depend on a
    trailing slash of the request path, nor on the form in which the
    configured path is written: a request for [path/] is treated like one
    for [path], and normalising a path a second time changes nothing. *)
Theorem webhookMiddleware_trailing_slash (metaWebhookPath path : string)
    (req : Request) (w : World) :
  Mount.webhookMiddleware metaWebhookPath (path ++ "/") req w
  = Mount.webhookMiddleware metaWebhookPath path req w
  /\ Mount.webhookMiddleware (metaWebhookPath ++ "/") path req w
     = Mount.webhookMiddleware metaWebhookPath path req w
  /\ Mount.normalizeForComparison (Mount.normalizeForComparison path)
     = Mount.normalizeForComparison path.
Proof.
  unfold Mount.webhookMiddleware, Mount.pathsMatchMetaWebhook.
  rewrite !normalizeForComparison_slash. repeat split.
  apply canonical_fixed, normalizeForComparison_canonical.
Qed.

End MountProperties.

(* ===================================================================== *)
(** ** Opening a conversation, and the test webhook *)
(* ===================================================================== *)

Section EndpointProperties.
Context {platform : Platform}.

(** X25. Opening a conversation is idempotent and never duplicates one:
    when [POST /api/conversations] answers with a conversation, that
    conversation has the trimmed phone of the request and is the one found
    under that phone afterwards; asking again, by whatever user, returns
    the same conversation and changes nothing; at most one conversation
    was added and no message was touched.  A phone that is not a string,
    and a string phone that is empty or nothing but white space (nothing
    is left of it when it is trimmed), is answered 400 and changes
    nothing; and nothing else is refused. *)
Theorem createConversation_idempotent (phone : JsVal) (user : option string) (w : World) :
  (forall w1 c,
      Endpoints.createConversation phone user w = (w1, inr c) ->
      (exists s, phone = JString s /\ conv_phone c = JString (Str.trim s))
      /\ Storage.getConversationByPhone (conv_phone c) w1 = Some c
      /\ (forall user', Endpoints.createConversation phone user' w1 = (w1, inr c))
      /\ (conversations w1 = conversations w
          \/ conversations w1 = (conversations w ++ [c])%list)
      /\ messages w1 = messages w)
  /\ (forall w1 response,
      Endpoints.createConversation phone user w = (w1, inl response) ->
      w1 = w /\ response = Routes.jsonError 400 "Phone number is required.")
  /\ (Js.isString phone = false ->
      Endpoints.createConversation phone user w
      = (w, inl (Routes.jsonError 400 "Phone number is required.")))
  /\ (forall s,
      phone = JString s -> Str.trim s = EmptyString ->
      Endpoints.createConversation phone user w
      = (w, inl (Routes.jsonError 400 "Phone number is required.")))
  /\ (forall s,
      phone = JString s -> Str.trim s <> EmptyString ->
      exists w1 c, Endpoints.createConversation phone user w = (w1, inr c)).
Proof.
  unfold Endpoints.createConversation. split; [| split; [| split; [| split]]].
  - intros w1 c.
    set (trimmedPhone := match phone with JString s => Str.trim s | _ => EmptyString end).
    destruct (Str.nonEmpty trimmedPhone) eqn:Hphone; cbn [negb]; [| discriminate].
    assert (exists s, phone = JString s /\ JString trimmedPhone = JString (Str.trim s))
      as Hstring.
    { unfold trimmedPhone in *. destruct phone; try discriminate. eauto. }
    unfold Storage.getConversationByPhone.
    destruct (find _ (conversations w)) as [found |] eqn:Hfind.
    + intros [= <- <-]. pose proof (find_some _ _ Hfind) as (_ & Hsame).
      apply Js_eqb_eq in Hsame. rewrite Hsame, Hfind.
      destruct Hstring as (s & Hs & Htrim). repeat split; eauto.
    + cbn. intros [= <- <-]. cbn.
      rewrite find_app_cases, Hfind. cbn. rewrite String.eqb_refl.
      destruct Hstring as (s & Hs & Htrim). repeat split; eauto.
  - intros w1 response. destruct (negb _); [now intros [= <- <-] |].
    destruct (Storage.getConversationByPhone _ w); [discriminate |].
    cbn. discriminate.
  - intros Hphone. now destruct phone.
  - intros s -> Htrim. now rewrite Htrim.
  - intros s -> Htrim. apply nonEmpty_true in Htrim. rewrite Htrim. cbn [negb].
    destruct (Storage.getConversationByPhone _ w); [eauto |].
    destruct (Storage.createConversation _ _ _). eauto.
Qed.

(** X26. The test webhook stores a message on every call it accepts and
    deduplicates nothing.  It answers 200 exactly when test webhooks are
    enabled (no stored setting counts as enabled) and the body carries a
    truthy [from]; it then appends one inbound message with status
    [received], whose raw payload is the request body and which has no
    provider message id, appends one audit record, and sends the message
    to every open socket.  Any other answer leaves everything as it was.
    So the same request, sent again, is accepted again and stores a second
    message. *)
Theorem webhookTest_stores_every_call (stored : JsVal) (req : Request) (w : World) :
  let w' := fst (Endpoints.webhookTest stored req w) in
  let response := snd (Endpoints.webhookTest stored req w) in
  let enabled :=
    Js.truthy (Js.getOpt (Js.or stored (JObject [("testWebhookEnabled", JBool true)]))
                 "testWebhookEnabled") in
  (res_status response = 200%nat
   <-> enabled = true /\ Js.truthy (Js.getOpt (req_body req) "from") = true)
  /\ (res_status response = 200%nat ->
      (exists m record,
          messages w' = (messages w ++ [m])%list
          /\ msg_direction m = inbound /\ msg_status m = received
          /\ msg_raw m = req_body req /\ msg_providerMessageId m = JUndefined
          /\ msg_body m = Js.or (Js.getOpt (req_body req) "body") JNull
          /\ msg_media m = Js.or (Js.getOpt (req_body req) "media") JNull
          /\ res_body response = JsonMessage m
          /\ wsClients w' = delivered "message_incoming" [m] (wsClients w)
          /\ webhookEvents w' = (webhookEvents w ++ [record])%list
          /\ we_body record = req_body req
          /\ logged_status (we_response record) = 200%nat)
      /\ List.length (messages (fst (Endpoints.webhookTest stored req w')))
         = S (S (List.length (messages w))))
  /\ (res_status response <> 200%nat -> w' = w).
Proof.
  assert (forall v,
             let response := snd (Endpoints.webhookTest stored req v) in
             let v' := fst (Endpoints.webhookTest stored req v) in
             (res_status response = 200%nat
              <-> Js.truthy
                    (Js.getOpt (Js.or stored (JObject [("testWebhookEnabled", JBool true)]))
                       "testWebhookEnabled") = true
                  /\ Js.truthy (Js.getOpt (req_body req) "from") = true)
             /\ (res_status response = 200%nat ->
                 exists m record,
                   messages v' = (messages v ++ [m])%list
                   /\ msg_direction m = inbound /\ msg_status m = received
                   /\ msg_raw m = req_body req /\ msg_providerMessageId m = JUndefined
                   /\ msg_body m = Js.or (Js.getOpt (req_body req) "body") JNull
                   /\ msg_media m = Js.or (Js.getOpt (req_body req) "media") JNull
                   /\ res_body response = JsonMessage m
                   /\ wsClients v' = delivered "message_incoming" [m] (wsClients v)
                   /\ webhookEvents v' = (webhookEvents v ++ [record])%list
                   /\ we_body record = req_body req
                   /\ logged_status (we_response record) = 200%nat)
             /\ (res_status response <> 200%nat -> v' = v)) as Hcall.
  { intros v. cbn zeta. unfold Endpoints.webhookTest.
    destruct (Js.truthy (Js.getOpt (Js.or stored _) "testWebhookEnabled")); cbn [negb].
    2: { cbn. repeat split; try discriminate. intros ([=] & _). }
    unfold Endpoints.destructured.
    destruct (Js.get (req_body req) "from") as [from |] eqn:Hfrom.
    2: { assert (Js.getOpt (req_body req) "from" = JUndefined) as ->
           by (unfold Js.getOpt; now rewrite Hfrom).
         cbn. repeat split; try discriminate. intros (_ & [=]). }
    rewrite (getOpt_get _ _ _ Hfrom).
    destruct (Js.truthy from) eqn:Htruthy; cbn [negb].
    2: { cbn. repeat split; try discriminate. intros (_ & [=]). }
    assert (exists v1 c,
               match Storage.getConversationByPhone from v with
               | Some conversation => (v, conversation)
               | None => Storage.createConversation from None v
               end = (v1, c)
               /\ messages v1 = messages v /\ wsClients v1 = wsClients v
               /\ webhookEvents v1 = webhookEvents v)
      as (v1 & c & -> & Hm & Hws & He).
    { destruct (Storage.getConversationByPhone from v); eexists _, _; cbn; eauto. }
    cbn -[Storage.freshId]. rewrite Hm, Hws, He.
    split; [tauto |]. split; [| congruence].
    intros _. eexists _, _. repeat split. }
  cbn zeta. destruct (Hcall w) as (Hiff & Haccepted & Hrejected).
  split; [exact Hiff |]. split; [| exact Hrejected].
  intros Hstatus. split; [exact (Haccepted Hstatus) |].
  destruct (Haccepted Hstatus) as (m & _ & Hm & _).
  destruct (Hcall (fst (Endpoints.webhookTest stored req w))) as (Hiff' & Haccepted' & _).
  destruct (Haccepted' (proj2 Hiff' (proj1 Hiff Hstatus))) as (m' & _ & Hm' & _).
  rewrite Hm', Hm, !length_app. cbn. lia.
Qed.

End EndpointProperties.

(* ===================================================================== *)
(** * The further properties at concrete requests *)
(* ===================================================================== *)

Lemma verifyWebhookSignature_exact_witness :
  MetaProvider.verifyWebhookSignature (platform := Scenario.online)
    Scenario.securedProvider Scenario.signedDelivery (Some Scenario.rawDelivery) = true.
Proof.
  apply (proj2 (@verifyWebhookSignature_exact Scenario.online Scenario.securedProvider
                  Scenario.signedDelivery (Some Scenario.rawDelivery)
                  ltac:(discriminate))).
  exists ("sha256=" ++ Sha256.hmacHex "s3cret" Scenario.rawDelivery), Scenario.rawDelivery.
  split; [vm_compute; reflexivity |].
  split; [vm_compute; discriminate |].
  split; [reflexivity | vm_compute; reflexivity].
Defined.

Lemma verification_agrees_with_provider_witness :
  MetaProvider.verifyToken Scenario.provider
  = Routes.expectedToken None (processEnv Scenario.fresh)
  /\ (MetaProvider.verifyWebhook Scenario.provider (Scenario.subscribe "verify-me") = true
      <-> snd (Routes.handleMetaWebhookVerification (platform := Scenario.online) (Scenario.subscribe "verify-me")
                 Scenario.fresh)
          = Routes.text 200 "123").
Proof.
  apply (@verification_agrees_with_provider Scenario.online (Scenario.subscribe "verify-me") Scenario.fresh
           Scenario.provider None "123").
  - vm_compute. reflexivity.
  - vm_compute. discriminate.
  - reflexivity.
  - reflexivity.
Defined.

Lemma messagePayload_media_link_witness :
  exists content,
    payload_content (MetaProvider.messagePayload (platform := Scenario.online)
                       "+49 170 55501" (Some "see this") (Some Scenario.photoUrl))
    = Some content
    /\ content_link content = Some Scenario.photoUrl
    /\ content_caption content
       = match payload_type (MetaProvider.messagePayload (platform := Scenario.online)
                               "+49 170 55501" (Some "see this")
                               (Some Scenario.photoUrl)) with
         | Some KAudio => None
         | _ => if Str.truthyOpt (Some "see this") then Some "see this" else None
         end.
Proof.
  apply (@messagePayload_media_link Scenario.online "+49 170 55501" (Some "see this")
           Scenario.photoUrl).
  discriminate.
Defined.

Lemma messagePayload_ignores_query_witness :
  MetaProvider.extensionOf (platform := Scenario.online)
    ("https://cdn.example/a/voice.ogg" ++ String "?" "token=1.mp4")
  = MetaProvider.extensionOf (platform := Scenario.online) "https://cdn.example/a/voice.ogg"
  /\ payload_type (MetaProvider.messagePayload (platform := Scenario.online) "4917055501" None
                     (Some ("https://cdn.example/a/voice.ogg" ++ String "?" "token=1.mp4")))
     = payload_type (MetaProvider.messagePayload (platform := Scenario.online) "4917055501"
                       None (Some "https://cdn.example/a/voice.ogg")).
Proof.
  apply (@messagePayload_ignores_query Scenario.online "4917055501" None
           "https://cdn.example/a/voice.ogg" "token=1.mp4" "?").
  - discriminate.
  - reflexivity.
  - reflexivity.
  - left. reflexivity.
Defined.

Lemma parseIncoming_keeps_every_message_witness :
  exists events,
    MetaProvider.parseIncoming (platform := Scenario.online) 1700000000000 Cases.album
    = inr events
    /\ map ev_raw events
       = [Scenario.textMessage "wamid.A1"; Cases.photoMessage; Scenario.stickerMessage].
Proof.
  eexists. split; [vm_compute; reflexivity |].
  apply (@parseIncoming_keeps_every_message Scenario.online 1700000000000 Cases.album).
  vm_compute. reflexivity.
Defined.

Lemma parseIncoming_faithful_witness :
  exists events,
    MetaProvider.parseIncoming (platform := Scenario.online) 1700000000000 Cases.album
    = inr events
    /\ Forall faithful events.
Proof.
  eexists. split; [vm_compute; reflexivity |].
  apply (@parseIncoming_faithful Scenario.online 1700000000000 Cases.album).
  vm_compute. reflexivity.
Defined.

Lemma parseIncoming_out_of_range_timestamp_witness :
  MetaProvider.parseMessage (platform := Scenario.online) 1700000000000 Cases.lateSticker
  = inl (RangeError "Invalid time value")
  /\ res_status (snd (Routes.handleMetaWebhookEvent (platform := Scenario.online)
                         Cases.lateDelivery Scenario.fresh)) = 500%nat
  /\ messages (fst (Routes.handleMetaWebhookEvent (platform := Scenario.online)
                      Cases.lateDelivery Scenario.fresh)) = messages Scenario.fresh.
Proof.
  pose proof (@parseIncoming_out_of_range_timestamp Scenario.online 1700000000000
                99999999999999 Cases.lateSticker eq_refl eq_refl ltac:(lia))
    as (Hmessage & _ & _ & Hhandler).
  split; [exact Hmessage |].
  destruct (Hhandler Cases.lateDelivery Scenario.fresh) as (Hstatus & Hmessages & _).
  - reflexivity.
  - vm_compute. reflexivity.
  - vm_compute. auto.
  - split; [exact Hstatus | exact Hmessages].
Defined.

Lemma malformed_payload_answers_500_witness :
  let w' := fst (Routes.handleMetaWebhookEvent (platform := Scenario.online) Cases.brokenPost
                   Scenario.fresh) in
  let response := snd (Routes.handleMetaWebhookEvent (platform := Scenario.online)
                         Cases.brokenPost Scenario.fresh) in
  res_status response = 500%nat
  /\ messages w' = messages Scenario.fresh /\ conversations w' = conversations Scenario.fresh
  /\ wsClients w' = wsClients Scenario.fresh /\ mediaJobs w' = mediaJobs Scenario.fresh
  /\ exists record,
       webhookEvents w' = (webhookEvents Scenario.fresh ++ [record])%list
       /\ we_body record = req_body Cases.brokenPost
       /\ logged_status (we_response record) = 500%nat
       /\ is_Some (logged_error (we_response record)).
Proof.
  apply (@malformed_payload_answers_500 Scenario.online Cases.brokenPost Scenario.fresh).
  - vm_compute. reflexivity.
  - vm_compute. reflexivity.
Defined.

Lemma parseIncoming_replayable_witness :
  exists events2,
    MetaProvider.parseIncoming (platform := Scenario.online) 1700000060000
      (req_body Scenario.delivery)
    = inr events2
    /\ Forall2 (sameEvent (platform := Scenario.online)) [Scenario.helloEvent] events2.
Proof.
  apply (@parseIncoming_replayable Scenario.online 1700000000000 1700000060000
           (req_body Scenario.delivery) [Scenario.helloEvent]).
  - reflexivity.
  - reflexivity.
  - vm_compute. reflexivity.
Defined.

Lemma conversations_stay_unique_witness :
  (forall req,
      uniquePhones (fst (Routes.metaWebhook (platform := Scenario.online) req
                           Scenario.ingestedOnce)))
  /\ (forall req,
      uniquePhones (fst (Routes.sendMessage (platform := Scenario.online) req
                           Scenario.ingestedOnce)))
  /\ (forall stored req,
      uniquePhones (fst (Endpoints.webhookTest stored req Scenario.ingestedOnce)))
  /\ (forall phone user,
      uniquePhones (fst (Endpoints.createConversation phone user Scenario.ingestedOnce))).
Proof.
  apply (@conversations_stay_unique Scenario.online Scenario.ingestedOnce).
  unfold uniquePhones. vm_compute. apply NoDup_singleton.
Defined.

Lemma messages_stay_attached_witness :
  (forall req,
      attached (fst (Routes.metaWebhook (platform := Scenario.online) req
                       Scenario.ingestedOnce)))
  /\ (forall req,
      attached (fst (Routes.sendMessage (platform := Scenario.online) req
                       Scenario.ingestedOnce)))
  /\ (forall stored req,
      attached (fst (Endpoints.webhookTest stored req Scenario.ingestedOnce)))
  /\ (forall phone user,
      attached (fst (Endpoints.createConversation phone user Scenario.ingestedOnce))).
Proof.
  apply (@messages_stay_attached Scenario.online Scenario.ingestedOnce).
  unfold attached. vm_compute. constructor; [eexists; reflexivity | constructor].
Defined.

Lemma send_success_recorded_witness :
  let w' := fst (Routes.sendMessage (platform := Scenario.online)
                   (Scenario.sendTo "+49 170 55501" "hello") Scenario.fresh) in
  exists stored touched,
    messages w' = (messages Scenario.fresh ++ [stored])%list
    /\ msg_status stored = sent
    /\ msg_direction stored = outbound
    /\ msg_conversationId stored = 1%nat
    /\ msg_providerMessageId stored = Js.or (JString "wamid.OUT1") JNull
    /\ msg_body stored = JString "hello"
    /\ msg_media stored
       = Routes.outboundMedia (platform := Scenario.online) None (clock Scenario.fresh)
    /\ (Str.truthyOpt None = false -> msg_media stored = JNull)
    /\ (Str.truthyOpt None = true ->
        Js.getOpt (msg_media stored) "origin" = JString "upload"
        /\ Js.getOpt (msg_media stored) "status" = JString "ready"
        /\ Js.getOpt (msg_media stored) "provider" = JString "local")
    /\ msg_replyToMessageId stored = None
    /\ msg_sentByUserId stored = Some "agent-1"
    /\ providerCalls w' = (providerCalls Scenario.fresh ++ [Cases.helloCall])%list
    /\ Storage.getConversationById 1 w' = Some touched
    /\ conv_lastAt touched = clock Scenario.fresh
    /\ snd (Routes.sendMessage (platform := Scenario.online)
              (Scenario.sendTo "+49 170 55501" "hello") Scenario.fresh)
       = {| res_status := 200;
            res_body :=
              JsonMessage (buildSignedMediaUrlsForMessage (Platform := Scenario.online)
                             stored) |}
    /\ wsClients w'
       = delivered "message_outgoing"
           [buildSignedMediaUrlsForMessage (Platform := Scenario.online) stored]
           (wsClients Scenario.fresh).
Proof.
  apply (@send_success_recorded Scenario.online
           (Scenario.sendTo "+49 170 55501" "hello") Scenario.fresh
           (fst (Routes.resolveConversation (Scenario.sendTo "+49 170 55501" "hello")
                   Scenario.fresh))
           Cases.firstContact None Scenario.provider None [Cases.helloCall] Cases.accepted).
  - reflexivity.
  - reflexivity.
  - vm_compute. reflexivity.
  - vm_compute. reflexivity.
  - vm_compute. reflexivity.
  - vm_compute. reflexivity.
Defined.

Lemma send_without_credentials_witness :
  let w' := fst (Routes.sendMessage (platform := Scenario.online)
                   (Scenario.sendTo "+49 170 55501" "hello") Scenario.unconfigured) in
  exists stored,
    messages w' = (messages Scenario.unconfigured ++ [stored])%list
    /\ msg_status stored = failed
    /\ msg_providerMessageId stored = JNull
    /\ providerCalls w' = providerCalls Scenario.unconfigured
    /\ res_status (snd (Routes.sendMessage (platform := Scenario.online)
                          (Scenario.sendTo "+49 170 55501" "hello") Scenario.unconfigured))
       = 200%nat.
Proof.
  apply (@send_without_credentials Scenario.online
           (Scenario.sendTo "+49 170 55501" "hello") Scenario.unconfigured
           (fst (Routes.resolveConversation (Scenario.sendTo "+49 170 55501" "hello")
                   Scenario.unconfigured))
           Cases.firstContact None).
  - reflexivity.
  - vm_compute. reflexivity.
  - reflexivity.
  - reflexivity.
  - vm_compute. reflexivity.
  - vm_compute. reflexivity.
Defined.

